(** * EduMate internal messaging: a shallow embedding of [routes/messages.py]

    The messaging blueprint is a set of Flask handlers, each of which opens a
    SQLite connection, runs a handful of SQL statements scoped to the
    session's user and answers with a page, a redirect or a JSON object.

    - The tables are lists of rows in insertion order; identifiers and
      timestamps are integers, a nullable column is an [option], a text is
      the string of its UTF-8 bytes.
    - A handler is a function from its environment (the logged-in user,
      the clock, the state of the database connection), the store before
      and the request parameters to the store after and the outcome shown
      to the client.  Every handler sits behind [login_required], so the
      session always carries a user.
    - The SQLite driver is a small state-and-error monad over a working
      copy and a committed copy of the store, with an injected fault that
      makes a chosen call raise: [commit] publishes the working copy, a
      [rollback] or a connection that goes away drops it.

    The first part holds the definitions, the second the facts about them;
    the statements marked C1 to C10 are the properties of the messaging
    service that are checked here. *)

From Stdlib Require Import ZArith List Bool Ascii String Lia Permutation Sorted.
Import ListNotations.

Open Scope string_scope.
Open Scope Z_scope.

(* ===================================================================== *)
(** ** Text: [str.strip], the [in] operator and SQL [LIKE] *)
(* ===================================================================== *)

Module Text.

(** A text is held as the bytes of its UTF-8 encoding, which is also how a
    string literal is read here.  Python's [str.isspace], and with it
    [str.strip], holds for 29 code points; encoded, they take one, two or
    three bytes. *)

(** One byte: U+0009 to U+000D, U+001C to U+0020. *)
Definition is_space (c : ascii) : bool :=
  let n := nat_of_ascii c in
  ((9 <=? n) && (n <=? 13) || (28 <=? n) && (n <=? 32))%nat.

(** Two bytes: U+0085 and U+00A0. *)
Definition is_space2 (c d : ascii) : bool :=
  let a := nat_of_ascii c in
  let b := nat_of_ascii d in
  ((a =? 194) && ((b =? 133) || (b =? 160)))%nat.

(** Three bytes: U+1680, U+2000 to U+200A, U+2028, U+2029, U+202F, U+205F
    and U+3000. *)
Definition is_space3 (c d e : ascii) : bool :=
  let a := nat_of_ascii c in
  let b := nat_of_ascii d in
  let g := nat_of_ascii e in
  ((a =? 225) && (b =? 154) && (g =? 128)
   || (a =? 226) && (b =? 128)
      && ((128 <=? g) && (g <=? 138) || (g =? 168) || (g =? 169) || (g =? 175))
   || (a =? 226) && (b =? 129) && (g =? 159)
   || (a =? 227) && (b =? 128) && (g =? 128))%nat.

(** [s.lstrip()]: the white space at the head of [s] goes, character by
    character. *)
Fixpoint lstrip (s : string) : string :=
  match s with
  | EmptyString => EmptyString
  | String c s1 =>
      if is_space c then lstrip s1
      else
        match s1 with
        | EmptyString => s
        | String d s2 =>
            if is_space2 c d then lstrip s2
            else
              match s2 with
              | EmptyString => s
              | String e s3 => if is_space3 c d e then lstrip s3 else s
              end
        end
  end.

(** Python truth value of a string: [not s] holds for the empty string. *)
Definition nonempty (s : string) : bool :=
  match s with EmptyString => false | String _ _ => true end.

(** [s] is white space from end to end. *)
Definition blank (s : string) : bool := negb (nonempty (lstrip s)).

(** [s.rstrip()]: [s] up to the point from which only white space
    follows. *)
Fixpoint rstrip (s : string) : string :=
  match s with
  | EmptyString => EmptyString
  | String c s' => if blank s then EmptyString else String c (rstrip s')
  end.

(** [s.strip()] *)
Definition strip (s : string) : string := rstrip (lstrip s).

(** [needle in hay] on Python strings: a case-sensitive substring test. *)
Fixpoint contains (needle hay : string) : bool :=
  String.prefix needle hay ||
  match hay with
  | EmptyString => false
  | String _ hay' => contains needle hay'
  end.

(** SQLite's string functions read a text as a C string: up to its first
    NUL character. *)
Fixpoint c_str (s : string) : string :=
  match s with
  | EmptyString => EmptyString
  | String c s' =>
      if Ascii.eqb c Ascii.zero then EmptyString else String c (c_str s')
  end.

(** SQLite folds the 26 ASCII letters when [LIKE] compares characters. *)
Definition fold_case (c : ascii) : ascii :=
  let n := nat_of_ascii c in
  if ((65 <=? n) && (n <=? 90))%nat then ascii_of_nat (n + 32) else c.

Definition is_wildcard (c : ascii) : bool :=
  Ascii.eqb c "%" || Ascii.eqb c "_".

(** The bytes 10xxxxxx that continue a character. *)
Fixpoint skip_continuation (s : string) : string :=
  match s with
  | EmptyString => EmptyString
  | String c s' =>
      if ((128 <=? nat_of_ascii c) && (nat_of_ascii c <? 192))%nat
      then skip_continuation s' else s
  end.

(** What follows the character that starts with the byte [c]: a byte from
    0xC0 on takes its continuation bytes along. *)
Definition after_char (c : ascii) (rest : string) : string :=
  if (192 <=? nat_of_ascii c)%nat then skip_continuation rest else rest.

(** SQLite's pattern comparison for [LIKE] without an ESCAPE clause: [%]
    stands for any run of characters, [_] for any single one, every other
    pattern character for itself up to ASCII case. *)
Fixpoint matches (p : string) : string -> bool :=
  match p with
  | EmptyString => fun s => negb (nonempty s)
  | String c p' =>
      if Ascii.eqb c "%" then
        fix star (s : string) : bool :=
          matches p' s ||
          match s with
          | EmptyString => false
          | String _ s' => star s'
          end
      else if Ascii.eqb c "_" then
        fun s => match s with
                 | EmptyString => false
                 | String d s' => matches p' (after_char d s')
                 end
      else
        fun s => match s with
                 | EmptyString => false
                 | String d s' =>
                     Ascii.eqb (fold_case c) (fold_case d) && matches p' s'
                 end
  end.

(** [s LIKE p]: pattern and text are compared as C strings. *)
Definition like (p s : string) : bool := matches (c_str p) (c_str s).

(** A pattern fragment without wildcards. *)
Fixpoint literal (x : string) : bool :=
  match x with
  | EmptyString => true
  | String c x' => negb (is_wildcard c) && literal x'
  end.

(** [x] is a prefix of [s] up to ASCII case. *)
Fixpoint ci_prefix (x s : string) : bool :=
  match x, s with
  | EmptyString, _ => true
  | String _ _, EmptyString => false
  | String c x', String d s' =>
      Ascii.eqb (fold_case c) (fold_case d) && ci_prefix x' s'
  end.

(** [x] occurs in [s] up to ASCII case. *)
Fixpoint ci_contains (x s : string) : bool :=
  ci_prefix x s ||
  match s with
  | EmptyString => false
  | String _ s' => ci_contains x s'
  end.

(** An ASCII character that is not white space: a byte that the encoding
    of no white-space character holds. *)
Definition is_ink (c : ascii) : bool :=
  (nat_of_ascii c <? 128)%nat && negb (is_space c).

(** No byte of [s] is ink. *)
Fixpoint inkless (s : string) : bool :=
  match s with
  | EmptyString => true
  | String c s' => negb (is_ink c) && inkless s'
  end.

(** The first character of [x] is ink. *)
Definition starts_solid (x : string) : bool :=
  match x with
  | EmptyString => false
  | String c _ => is_ink c
  end.

(** The last character of [x] is ink. *)
Fixpoint ends_solid (x : string) : bool :=
  match x with
  | EmptyString => false
  | String c EmptyString => is_ink c
  | String _ x' => ends_solid x'
  end.

End Text.

(* ===================================================================== *)
(** ** Data model *)
(* ===================================================================== *)

(** A row of [messages].  Identifiers and timestamps are integers; a
    nullable column is an [option]. *)
Record Message : Type := mkMessage {
  id : Z;
  sender_id : Z;
  receiver_id : Z;
  subject : string;
  content : string;
  message_type : string;
  parent_message_id : option Z;
  related_content_id : option Z;
  related_user_id : option Z;
  sent_at : Z;
  is_read : bool;
  read_at : option Z;
  is_deleted_by_sender : bool;
  is_deleted_by_receiver : bool
}.

(** A row of [message_notifications]. *)
Record NotificationSetting : Type := mkSetting {
  ns_user_id : Z;
  notification_type : string;
  is_enabled : bool;
  email_enabled : bool;
  updated_at : Z
}.

(** The columns of [users] and [content] that the messaging queries join. *)
Record User : Type := mkUser {
  u_id : Z;
  full_name : string;
  email : string
}.

Record Content : Type := mkContent {
  c_id : Z;
  title : string
}.

Record Store : Type := mkStore {
  messages : list Message;
  message_notifications : list NotificationSetting;
  users : list User;
  contents : list Content
}.

Definition with_messages (s : Store) (ms : list Message) : Store :=
  mkStore ms (message_notifications s) (users s) (contents s).

Definition with_notifications (s : Store) (ns : list NotificationSetting) : Store :=
  mkStore (messages s) ns (users s) (contents s).

(** [SET is_read = TRUE, read_at = ?] *)
Definition set_read (t : Z) (m : Message) : Message :=
  mkMessage (id m) (sender_id m) (receiver_id m) (subject m) (content m)
    (message_type m) (parent_message_id m) (related_content_id m)
    (related_user_id m) (sent_at m) true (Some t)
    (is_deleted_by_sender m) (is_deleted_by_receiver m).

(** [SET is_deleted_by_sender = TRUE] *)
Definition set_deleted_by_sender (m : Message) : Message :=
  mkMessage (id m) (sender_id m) (receiver_id m) (subject m) (content m)
    (message_type m) (parent_message_id m) (related_content_id m)
    (related_user_id m) (sent_at m) (is_read m) (read_at m)
    true (is_deleted_by_receiver m).

(** [SET is_deleted_by_receiver = TRUE] *)
Definition set_deleted_by_receiver (m : Message) : Message :=
  mkMessage (id m) (sender_id m) (receiver_id m) (subject m) (content m)
    (message_type m) (parent_message_id m) (related_content_id m)
    (related_user_id m) (sent_at m) (is_read m) (read_at m)
    (is_deleted_by_sender m) true.

(** [SET is_enabled = ?, email_enabled = ?, updated_at = ?] *)
Definition set_flags (en em : bool) (t : Z) (r : NotificationSetting)
  : NotificationSetting :=
  mkSetting (ns_user_id r) (notification_type r) en em t.

(* ===================================================================== *)
(** ** SQL building blocks *)
(* ===================================================================== *)

Module Sql.

(** [UPDATE t SET ... WHERE cond]: every row that satisfies the condition
    is rewritten in place, the others are kept. *)
Definition update {A : Type} (cond : A -> bool) (f : A -> A) (rows : list A)
  : list A :=
  map (fun r => if cond r then f r else r) rows.

(** [SELECT COUNT( * ) ... WHERE cond] *)
Definition count {A : Type} (cond : A -> bool) (rows : list A) : Z :=
  Z.of_nat (List.length (filter cond rows)).

(** [fetchone()] after [SELECT ... WHERE cond] *)
Definition fetchone {A : Type} (cond : A -> bool) (rows : list A) : option A :=
  find cond rows.

(** [column = ?] on a nullable column: NULL equals nothing. *)
Definition col_eq (col : option Z) (v : Z) : bool :=
  match col with
  | Some x => x =? v
  | None => false
  end.

(** [ORDER BY sent_at DESC], as an insertion sort that keeps rows with the
    same [sent_at] in table order (SQL leaves their order open). *)
Fixpoint insert_desc (m : Message) (l : list Message) : list Message :=
  match l with
  | [] => [m]
  | x :: l' =>
      if sent_at x <=? sent_at m then m :: l else x :: insert_desc m l'
  end.

Fixpoint order_by_sent_at_desc (l : list Message) : list Message :=
  match l with
  | [] => []
  | m :: l' => insert_desc m (order_by_sent_at_desc l')
  end.

(** Modelled from the spec: the [CREATE TABLE messages] statement is not
    part of the sources.  Section 3 of the specification gives every
    message an [id]; a new row gets SQLite's next row id, one more than
    the largest one in the table. *)
Definition next_id (ms : list Message) : Z :=
  1 + fold_right (fun m acc => Z.max (id m) acc) 0 ms.

(** Modelled from the spec: the [CREATE TABLE messages] statement is not
    part of the sources.  Section 4.3 of the specification gives the
    defaults of the columns an [INSERT] leaves out: [is_read] false, both
    deletion flags false, and with them [read_at] unset. *)
Definition new_row (ms : list Message) (sender receiver : Z)
    (subj body mtype : string) (parent related_content related_user : option Z)
    (now : Z) : Message :=
  mkMessage (next_id ms) sender receiver subj body mtype parent
    related_content related_user now false None false false.

(** [INSERT INTO messages (...) VALUES (...)] *)
Definition insert_message (sender receiver : Z) (subj body mtype : string)
    (parent related_content related_user : option Z) (now : Z) (s : Store)
  : Store :=
  with_messages s
    (messages s ++
     [new_row (messages s) sender receiver subj body mtype parent
        related_content related_user now]).

End Sql.

(* ===================================================================== *)
(** ** The SQLite connection as a state-and-error monad *)
(* ===================================================================== *)

(** What [get_db_connection] finds: no connection at all, or a connection
    on which the driver call number [fst fault] (statements and commits,
    counted from 0) raises [snd fault]. *)
Inductive ConnStatus : Type :=
| Unavailable
| Connected (fault : option (nat * string)).

Record Conn : Type := mkConn {
  committed : Store;
  working : Store;
  calls : nat;
  conn_fault : option (nat * string)
}.

Inductive Res (A : Type) : Type :=
| Ok (a : A) (c : Conn)
| Raised (err : string) (c : Conn).
Arguments Ok {A} a c.
Arguments Raised {A} err c.

Definition DB (A : Type) : Type := Conn -> Res A.

Definition ret {A : Type} (a : A) : DB A := fun c => Ok a c.

Definition bind {A B : Type} (m : DB A) (k : A -> DB B) : DB B :=
  fun c =>
    match m c with
    | Ok a c' => k a c'
    | Raised e c' => Raised e c'
    end.

Declare Scope db_scope.
Delimit Scope db_scope with db.
Notation "x <- m ;; k" := (bind m (fun x => k))
  (at level 100, m at next level, right associativity) : db_scope.
Notation "m ;; k" := (bind m (fun _ => k))
  (at level 100, right associativity) : db_scope.
Open Scope db_scope.

Definition connect (st : Store) (fault : option (nat * string)) : Conn :=
  mkConn st st 0 fault.

(** One call into the driver: it raises when the injected fault is due.
    The fault stands for whatever makes the call raise, also for the
    [OverflowError] of a statement that is given an integer SQLite cannot
    hold; a connection without fault is one on which every integer bound
    is a [sqlite_integer] (defined with the vocabulary below). *)
Definition driver_call : DB unit :=
  fun c =>
    let c' := mkConn (committed c) (working c) (S (calls c)) (conn_fault c) in
    match conn_fault c with
    | Some (n, e) => if Nat.eqb n (calls c) then Raised e c' else Ok tt c'
    | None => Ok tt c'
    end.

(** [cursor.execute] of a [SELECT] *)
Definition query {A : Type} (q : Store -> A) : DB A :=
  driver_call ;; (fun c => Ok (q (working c)) c).

(** [cursor.execute] of an [UPDATE] or [INSERT] *)
Definition execute (f : Store -> Store) : DB unit :=
  driver_call ;;
  (fun c => Ok tt (mkConn (committed c) (f (working c)) (calls c) (conn_fault c))).

(** [connection.commit()] *)
Definition commit : DB unit :=
  driver_call ;;
  (fun c => Ok tt (mkConn (working c) (working c) (calls c) (conn_fault c))).

(** What another connection sees meanwhile: the committed rows. *)
Definition peek_committed : DB Store :=
  fun c => Ok (committed c) c.

(** [try: body except Exception as err: connection.rollback(); handler] *)
Definition try_except {A : Type} (body : DB A) (handler : string -> DB A)
  : DB A :=
  fun c =>
    match body c with
    | Ok a c' => Ok a c'
    | Raised e c' =>
        handler e (mkConn (committed c') (committed c') (calls c') (conn_fault c'))
    end.

(** A whole request: connect, run the body, answer.  Whatever was not
    committed when the connection goes away is lost. *)
Definition run_request {A : Type} (st : Store) (status : ConnStatus)
    (on_unavailable : A) (body : DB A) (on_error : string -> A) : Store * A :=
  match status with
  | Unavailable => (st, on_unavailable)
  | Connected fault =>
      match body (connect st fault) with
      | Ok a c => (committed c, a)
      | Raised e c => (committed c, on_error e)
      end
  end.

(* ===================================================================== *)
(** ** Requests and answers *)
(* ===================================================================== *)

(** What a handler reads from outside the store: the logged-in user, the
    successive readings of [datetime.now()] during the request, the state
    of the connection the handler opens and of the one [get_unread_count]
    opens for itself. *)
Record Env : Type := mkEnv {
  session_user_id : Z;
  clock : nat -> Z;
  conn : ConnStatus;
  aux_conn : ConnStatus
}.

Inductive Method : Type := GET | POST.

(** A result row: the columns of [m.*] and the joined columns by name
    (NULL where the [LEFT JOIN] found no partner). *)
Record Row : Type := mkRow {
  row_msg : Message;
  row_joined : list (string * option string)
}.

Inductive Value : Type :=
| VBool (b : bool)
| VInt (z : Z)
| VStr (s : string)
| VRow (r : Row)
| VRows (rs : list Row).

Inductive Response : Type :=
| Render (template : string) (context : list (string * Value))
| Redirect (endpoint : string)
| Json (status : Z) (body : list (string * Value))
| ServerError.

Record Outcome : Type := mkOutcome {
  response : Response;
  flashes : list (string * string)
}.

Definition plain (r : Response) : Outcome := mkOutcome r [].

Definition flashing (msg category : string) (r : Response) : Outcome :=
  mkOutcome r [(msg, category)].

(** [request.form.get(key)]: the first value under the key, if any. *)
Definition form_get (form : list (string * string)) (key : string)
  : option string :=
  option_map snd (find (fun kv => String.eqb (fst kv) key) form).

(** [request.form.get(key) == 'on'] *)
Definition form_on (form : list (string * string)) (key : string) : bool :=
  match form_get form key with
  | Some v => String.eqb v "on"
  | None => false
  end.

(** The JSON object posted to [/messages/send]: [data.get] gives [None]
    for a key that is absent or null, and the empty string is the default
    of the two texts. *)
Record SendPayload : Type := mkPayload {
  p_receiver_id : option Z;
  p_subject : string;
  p_content : string;
  p_related_content_id : option Z
}.

(* ===================================================================== *)
(** ** The queries of [routes/messages.py] *)
(* ===================================================================== *)

Definition marker : string := "Publication Request".
Definition marker_pattern : string := "%Publication Request%".

Definition user_column (f : User -> string) (s : Store) (uid : Z)
  : option string :=
  option_map f (find (fun u => u_id u =? uid) (users s)).

Definition content_title (s : Store) (m : Message) : option string :=
  match related_content_id m with
  | Some cid => option_map title (find (fun c => c_id c =? cid) (contents s))
  | None => None
  end.

Definition received_row (s : Store) (m : Message) : Row :=
  mkRow m [("sender_name", user_column full_name s (sender_id m));
           ("sender_email", user_column email s (sender_id m));
           ("content_title", content_title s m)].

Definition sent_row (s : Store) (m : Message) : Row :=
  mkRow m [("receiver_name", user_column full_name s (receiver_id m));
           ("receiver_email", user_column email s (receiver_id m));
           ("content_title", content_title s m)].

Definition view_row (s : Store) (m : Message) : Row :=
  mkRow m [("sender_name", user_column full_name s (sender_id m));
           ("sender_email", user_column email s (sender_id m));
           ("receiver_name", user_column full_name s (receiver_id m));
           ("receiver_email", user_column email s (receiver_id m));
           ("content_title", content_title s m)].

Definition reply_row (s : Store) (m : Message) : Row :=
  mkRow m [("sender_name", user_column full_name s (sender_id m));
           ("sender_email", user_column email s (sender_id m))].

(** [WHERE receiver_id = ? AND is_read = FALSE AND is_deleted_by_receiver = FALSE] *)
Definition unread_for (uid : Z) (m : Message) : bool :=
  (receiver_id m =? uid) && negb (is_read m) && negb (is_deleted_by_receiver m).

(** [WHERE m.receiver_id = ? AND m.is_deleted_by_receiver = FALSE] *)
Definition received_by (uid : Z) (m : Message) : bool :=
  (receiver_id m =? uid) && negb (is_deleted_by_receiver m).

(** [WHERE m.sender_id = ? AND m.is_deleted_by_sender = FALSE] *)
Definition sent_by (uid : Z) (m : Message) : bool :=
  (sender_id m =? uid) && negb (is_deleted_by_sender m).

(** The [WHERE] clause of [view_message]. *)
Definition visible_to (uid mid : Z) (m : Message) : bool :=
  (id m =? mid) && (received_by uid m || sent_by uid m).

(** The [WHERE] clause of [reply_message]. *)
Definition replyable_by (uid mid : Z) (m : Message) : bool :=
  (id m =? mid) && (receiver_id m =? uid) && negb (is_deleted_by_receiver m).

(** The [WHERE] clause shared by the duplicate guard of [send_message] and
    by [check_publication_request]. *)
Definition publication_request (sender receiver cid : Z) (m : Message) : bool :=
  (sender_id m =? sender) && (receiver_id m =? receiver)
  && Sql.col_eq (related_content_id m) cid
  && Text.like marker_pattern (subject m)
  && negb (is_deleted_by_sender m) && negb (is_deleted_by_receiver m).

(** [SELECT m.*, joined columns ... WHERE keep ORDER BY m.sent_at DESC] *)
Definition listing (keep : Message -> bool) (join : Message -> Row)
    (ms : list Message) : list Row :=
  map join (Sql.order_by_sent_at_desc (filter keep ms)).

Definition received_messages (s : Store) (uid : Z) : list Row :=
  listing (received_by uid) (received_row s) (messages s).

Definition sent_messages (s : Store) (uid : Z) : list Row :=
  listing (sent_by uid) (sent_row s) (messages s).

(* ===================================================================== *)
(** ** The handlers *)
(* ===================================================================== *)

Definition get_unread_count (env : Env) (st : Store) (user_id : Z) : Z :=
  snd (run_request st (aux_conn env)
         0
         (query (fun s => Sql.count (unread_for user_id) (messages s)))
         (fun _ => 0)).

Definition inbox (env : Env) (st : Store) : Store * Outcome :=
  let uid := session_user_id env in
  run_request st (conn env)
    (flashing "Database connection error." "error"
       (Render "messages/inbox.html" [("messages", VRows [])]))
    (received <- query (fun s => received_messages s uid) ;;
     sent <- query (fun s => sent_messages s uid) ;;
     db <- peek_committed ;;
     ret (plain (Render "messages/inbox.html"
                   [("received_messages", VRows received);
                    ("sent_messages", VRows sent);
                    ("unread_count", VInt (get_unread_count env db uid))])))
    (fun err =>
       flashing ("Error loading messages: " ++ err) "error"
         (Render "messages/inbox.html"
            [("received_messages", VRows []); ("sent_messages", VRows [])])).

Definition view_message (env : Env) (st : Store) (message_id : Z)
  : Store * Outcome :=
  let uid := session_user_id env in
  run_request st (conn env)
    (flashing "Database connection error." "error" (Redirect "messages.inbox"))
    (message <- query (fun s =>
        option_map (view_row s)
          (Sql.fetchone (visible_to uid message_id) (messages s))) ;;
     match message with
     | None =>
         ret (flashing "Message not found or access denied." "error"
                (Redirect "messages.inbox"))
     | Some row =>
         (if (receiver_id (row_msg row) =? uid) && negb (is_read (row_msg row))
          then
            execute (fun s => with_messages s
                       (Sql.update (fun m => id m =? message_id)
                          (set_read (clock env 0)) (messages s))) ;;
            commit
          else ret tt) ;;
         ret (plain (Render "messages/view.html" [("message", VRow row)]))
     end)
    (fun err =>
       flashing ("Error viewing message: " ++ err) "error"
         (Redirect "messages.inbox")).

(** When the first [SELECT] raises, the [except] block itself fails on the
    unbound [original_message] after flashing, and the error leaves the
    handler. *)
Definition reply_message (env : Env) (st : Store) (message_id : Z)
    (method : Method) (form : list (string * string)) : Store * Outcome :=
  let uid := session_user_id env in
  run_request st (conn env)
    (flashing "Database connection error." "error" (Redirect "messages.inbox"))
    (original_message <- query (fun s =>
        option_map (reply_row s)
          (Sql.fetchone (replyable_by uid message_id) (messages s))) ;;
     match original_message with
     | None =>
         ret (flashing "Message not found or access denied." "error"
                (Redirect "messages.inbox"))
     | Some original =>
         let page :=
           Render "messages/reply.html" [("original_message", VRow original)] in
         match method with
         | GET => ret (plain page)
         | POST =>
             let content :=
               Text.strip (match form_get form "content" with
                           | Some v => v
                           | None => ""
                           end) in
             if negb (Text.nonempty content) then
               ret (flashing "Message content is required." "error" page)
             else
               try_except
                 (execute (Sql.insert_message uid
                             (sender_id (row_msg original))
                             ("Re: " ++ subject (row_msg original)) content
                             "personal" (Some message_id) None None
                             (clock env 0)) ;;
                  commit ;;
                  ret (flashing "Reply sent successfully!" "success"
                         (Redirect "messages.inbox")))
                 (fun err =>
                    ret (flashing ("Error sending reply: " ++ err) "error" page))
         end
     end)
    (fun err => flashing ("Error sending reply: " ++ err) "error" ServerError).

Definition mark_as_read (env : Env) (st : Store) (message_id : Z)
  : Store * Outcome :=
  let uid := session_user_id env in
  run_request st (conn env)
    (plain (Json 200 [("success", VBool false);
                      ("error", VStr "Database connection error")]))
    (execute (fun s => with_messages s
                (Sql.update
                   (fun m => (id m =? message_id) && (receiver_id m =? uid))
                   (set_read (clock env 0)) (messages s))) ;;
     commit ;;
     db <- peek_committed ;;
     ret (plain (Json 200 [("success", VBool true);
                           ("unread_count",
                            VInt (get_unread_count env db uid))])))
    (fun err =>
       plain (Json 200 [("success", VBool false); ("error", VStr err)])).

Definition delete_message (env : Env) (st : Store) (message_id : Z)
  : Store * Outcome :=
  let uid := session_user_id env in
  run_request st (conn env)
    (plain (Json 200 [("success", VBool false);
                      ("error", VStr "Database connection error")]))
    (message <- query (fun s =>
        Sql.fetchone (fun m => id m =? message_id) (messages s)) ;;
     match message with
     | None =>
         ret (plain (Json 200 [("success", VBool false);
                               ("error", VStr "Message not found")]))
     | Some m =>
         if sender_id m =? uid then
           execute (fun s => with_messages s
                      (Sql.update (fun x => id x =? message_id)
                         set_deleted_by_sender (messages s))) ;;
           commit ;;
           ret (plain (Json 200 [("success", VBool true)]))
         else if receiver_id m =? uid then
           execute (fun s => with_messages s
                      (Sql.update (fun x => id x =? message_id)
                         set_deleted_by_receiver (messages s))) ;;
           commit ;;
           ret (plain (Json 200 [("success", VBool true)]))
         else
           ret (plain (Json 200 [("success", VBool false);
                                 ("error", VStr "Access denied")]))
     end)
    (fun err =>
       plain (Json 200 [("success", VBool false); ("error", VStr err)])).

Definition check_publication_request (env : Env) (st : Store) (content_id : Z)
  : Store * Outcome :=
  let uid := session_user_id env in
  run_request st (conn env)
    (plain (Json 200 [("exists", VBool false);
                      ("error", VStr "Database connection error")]))
    (n <- query (fun s =>
        Sql.count (publication_request uid 1 content_id) (messages s)) ;;
     ret (plain (Json 200 [("exists", VBool (0 <? n))])))
    (fun err =>
       plain (Json 200 [("exists", VBool false); ("error", VStr err)])).

Definition duplicate_error : string :=
  "You have already sent a publication request for this content. Please wait for admin review.".

(** [None] and [0] are false in Python: the validation
    [not receiver_id or not subject or not content] lets through a
    receiver that is a non-zero integer, and the duplicate guard
    ['Publication Request' in subject and related_content_id] looks at the
    store for a content id that is a non-zero integer.  Without a JSON
    object, [data.get] raises and the handler answers 500. *)
Definition send_message (env : Env) (st : Store) (data : option SendPayload)
  : Store * Outcome :=
  let uid := session_user_id env in
  match data with
  | None =>
      (st, plain (Json 500
                    [("success", VBool false);
                     ("error", VStr "'NoneType' object has no attribute 'get'")]))
  | Some d =>
      let subject := Text.strip (p_subject d) in
      let content := Text.strip (p_content d) in
      let related_content_id := p_related_content_id d in
      match p_receiver_id d with
      | Some receiver_id =>
          if negb (receiver_id =? 0) && Text.nonempty subject
             && Text.nonempty content
          then
            run_request st (conn env)
              (plain (Json 200 [("success", VBool false);
                                ("error", VStr "Database connection error")]))
              (existing <-
                 (match related_content_id with
                  | Some cid =>
                      if Text.contains marker subject && negb (cid =? 0) then
                        query (fun s =>
                          Sql.count (publication_request uid receiver_id cid)
                            (messages s))
                      else ret 0
                  | None => ret 0
                  end) ;;
               if 0 <? existing then
                 ret (plain (Json 400 [("success", VBool false);
                                       ("error", VStr duplicate_error)]))
               else
                 execute (Sql.insert_message uid receiver_id subject content
                            "personal" None related_content_id None
                            (clock env 0)) ;;
                 commit ;;
                 ret (plain (Json 200
                               [("success", VBool true);
                                ("message", VStr "Message sent successfully")])))
              (fun err =>
                 plain (Json 500 [("success", VBool false);
                                  ("error", VStr err)]))
          else
            (st, plain (Json 400 [("success", VBool false);
                                  ("error", VStr "All fields are required")]))
      | None =>
          (st, plain (Json 400 [("success", VBool false);
                                ("error", VStr "All fields are required")]))
      end
  end.

Definition notification_types : list string :=
  ["new_message"; "message_reply"; "system_announcement"; "content_feedback"].

(** One turn of the loop of [update_notification_settings]: the [k]-th
    reading of the clock stamps the rows it rewrites. *)
Definition update_one (env : Env) (form : list (string * string)) (k : nat)
    (notification_type' : string) (s : Store) : Store :=
  let is_enabled := form_on form (notification_type' ++ "_enabled") in
  let email_enabled := form_on form (notification_type' ++ "_email") in
  with_notifications s
    (Sql.update
       (fun r => (ns_user_id r =? session_user_id env)
                 && String.eqb (notification_type r) notification_type')
       (set_flags is_enabled email_enabled (clock env k))
       (message_notifications s)).

Fixpoint update_each (env : Env) (form : list (string * string)) (k : nat)
    (types : list string) : DB unit :=
  match types with
  | [] => ret tt
  | t :: rest =>
      execute (update_one env form k t) ;;
      update_each env form (S k) rest
  end.

Definition update_notification_settings (env : Env) (st : Store)
    (form : list (string * string)) : Store * Outcome :=
  run_request st (conn env)
    (flashing "Database connection error." "error"
       (Redirect "messages.notification_settings"))
    (update_each env form 0 notification_types ;;
     commit ;;
     ret (flashing "Notification settings updated successfully!" "success"
            (Redirect "messages.notification_settings")))
    (fun err =>
       flashing ("Error updating settings: " ++ err) "error"
         (Redirect "messages.notification_settings")).

Definition send_system_message (env : Env) (st : Store) (receiver_id : Z)
    (subject content message_type : string)
    (related_content_id related_user_id : option Z) : Store * bool :=
  run_request st (conn env)
    false
    (execute (Sql.insert_message 1 receiver_id subject content message_type
                None related_content_id related_user_id (clock env 0)) ;;
     commit ;;
     ret true)
    (fun _ => false).

(* ===================================================================== *)
(** ** Vocabulary of the statements *)
(* ===================================================================== *)

(** [id] is the primary key of [messages]. *)
Definition primary_key (ms : list Message) : Prop := NoDup (map id ms).

(** [a] may stand before [b] under [ORDER BY sent_at DESC]. *)
Definition later_first (a b : Message) : Prop := sent_at b <= sent_at a.

(** The handler's connection opens and no driver call on it raises.  For
    a request that brings an id in its URL or its JSON body this asks that
    the id can be bound; the statements below say so with
    [sqlite_integer]. *)
Definition healthy (env : Env) : Prop := conn env = Connected None.

(** The connection opens and none of the first [ncalls] driver calls on it
    raises. *)
Definition undisturbed (status : ConnStatus) (ncalls : nat) : bool :=
  match status with
  | Unavailable => false
  | Connected None => true
  | Connected (Some (n, _)) => (ncalls <=? n)%nat
  end.

(** The answers the handlers share. *)
Definition not_found_or_denied : Outcome :=
  flashing "Message not found or access denied." "error"
    (Redirect "messages.inbox").

Definition json_error (status : Z) (msg : string) : Outcome :=
  plain (Json status [("success", VBool false); ("error", VStr msg)]).

Definition json_success : Outcome :=
  plain (Json 200 [("success", VBool true)]).

Definition sent_ok : Outcome :=
  plain (Json 200 [("success", VBool true);
                   ("message", VStr "Message sent successfully")]).

(** Every column but the two deletion flags. *)
Definition same_columns (m m' : Message) : Prop :=
  id m' = id m /\ sender_id m' = sender_id m
  /\ receiver_id m' = receiver_id m /\ subject m' = subject m
  /\ content m' = content m /\ message_type m' = message_type m
  /\ parent_message_id m' = parent_message_id m
  /\ related_content_id m' = related_content_id m
  /\ related_user_id m' = related_user_id m /\ sent_at m' = sent_at m
  /\ is_read m' = is_read m /\ read_at m' = read_at m.

(** The row [m] of [before] has become [m'] in [after], every other row is
    as it was. *)
Definition row_replaced (m m' : Message) (before after : list Message) : Prop :=
  Forall2 (fun x x' => x' = if id x =? id m then m' else x) before after.

(** A publication request about content [cid] that [sender] sent to
    [receiver] and that neither of them has deleted.  The subject is
    matched the way SQLite's [LIKE] does: up to ASCII case, and in the
    part before its first NUL. *)
Definition live_request (sender receiver cid : Z) (m : Message) : Prop :=
  sender_id m = sender /\ receiver_id m = receiver
  /\ related_content_id m = Some cid
  /\ Text.ci_contains marker (Text.c_str (subject m)) = true
  /\ is_deleted_by_sender m = false /\ is_deleted_by_receiver m = false.

(** The integers that SQLite stores and that the [sqlite3] module binds
    to a statement: 64 bits, signed.  For any other Python integer the
    binding raises [OverflowError]; the ids that a URL or a JSON body
    brings are taken from this range below. *)
Definition sqlite_integer (n : Z) : Prop := - 2 ^ 63 <= n < 2 ^ 63.

(** What one turn of the loop does to one row. *)
Definition turn (env : Env) (form : list (string * string)) (k : nat)
    (key : string) (r : NotificationSetting) : NotificationSetting :=
  if (ns_user_id r =? session_user_id env)
     && String.eqb (notification_type r) key
  then set_flags (form_on form (key ++ "_enabled"))
         (form_on form (key ++ "_email")) (clock env k) r
  else r.

(** What the settings form does to one row [r], giving [r'], spelled out:
    user and key stay; a row of the requester under one of the four keys
    is enabled exactly when the form has "on" under [<key>_enabled], has
    e-mail enabled exactly when the form has "on" under [<key>_email], and
    carries the time of the turn of its key; any other row is as it
    was. *)
Definition settings_updated (env : Env) (form : list (string * string))
    (r r' : NotificationSetting) : Prop :=
  let keys := ["new_message"; "message_reply"; "system_announcement";
               "content_feedback"] in
  ns_user_id r' = ns_user_id r
  /\ notification_type r' = notification_type r
  /\ (ns_user_id r = session_user_id env ->
      forall k, nth_error keys k = Some (notification_type r) ->
        (is_enabled r' = true
         <-> form_get form (notification_type r ++ "_enabled") = Some "on")
        /\ (email_enabled r' = true
            <-> form_get form (notification_type r ++ "_email") = Some "on")
        /\ updated_at r' = clock env k)
  /\ (~ (ns_user_id r = session_user_id env
         /\ In (notification_type r) keys) -> r' = r).

(** The rows under one notification key. *)
Definition of_key (key : string) (r : NotificationSetting) : bool :=
  String.eqb (notification_type r) key.

(* ===================================================================== *)
(** ** A small store to run the handlers on *)
(* ===================================================================== *)

Module Sample.

(** User 5 wrote "Hello" to user 8, and asked user 1 to publish content 3;
    user 1 has read the request at time 100. *)
Definition hello : Message :=
  mkMessage 1 5 8 "Hello" "Hi there" "personal" None None None 10
    false None false false.

Definition request : Message :=
  mkMessage 2 5 1 "Publication Request: Algebra" "Please publish."
    "personal" None (Some 3) None 20 true (Some 100) false false.

Definition store : Store :=
  mkStore [hello; request]
    [mkSetting 8 "new_message" true true 0;
     mkSetting 5 "new_message" true false 0]
    [mkUser 1 "Admin" "admin@edu.mate"; mkUser 5 "Ann" "ann@edu.mate";
     mkUser 8 "Bob" "bob@edu.mate"]
    [mkContent 3 "Algebra"].

(** A request of user [u] whose clock shows [t], [t + 1], ... *)
Definition env (u t : Z) : Env :=
  mkEnv u (fun k => t + Z.of_nat k) (Connected None) (Connected None).

End Sample.

(* ===================================================================== *)
(** ** The other routes, and the blueprint as a whole *)
(* ===================================================================== *)

(** [GET /messages/api/unread-count]: the badge count, read through the
    connection [get_unread_count] opens for itself. *)
Definition api_unread_count (env : Env) (st : Store) : Store * Outcome :=
  (st, plain (Json 200
                [("count",
                  VInt (get_unread_count env st (session_user_id env)))])).

(** What [notification_settings] hands to its one template,
    [messages/notifications.html]: the rows and the flashed notices. *)
Record SettingsPage : Type := mkSettingsPage {
  notifications : list NotificationSetting;
  page_flashes : list (string * string)
}.

(** [GET /messages/notifications]:
    [SELECT * FROM message_notifications WHERE user_id = ?] *)
Definition notification_settings (env : Env) (st : Store)
  : Store * SettingsPage :=
  let uid := session_user_id env in
  run_request st (conn env)
    (mkSettingsPage [] [("Database connection error.", "error")])
    (rows <- query (fun s =>
        filter (fun r => ns_user_id r =? uid) (message_notifications s)) ;;
     ret (mkSettingsPage rows []))
    (fun err =>
       mkSettingsPage []
         [("Error loading notification settings: " ++ err, "error")]).

(** What a request meets besides the session and the store. *)
Record World : Type := mkWorld {
  w_clock : nat -> Z;
  w_conn : ConnStatus;
  w_aux_conn : ConnStatus
}.

(** The decorator [login_required]: without [user_id] in the session the
    view is not entered. *)
Definition login_required (session : option Z) (w : World)
    (f : Env -> Store -> Store * Outcome) (st : Store) : Store * Outcome :=
  match session with
  | None =>
      (st, flashing "Please log in to access this page." "warning"
             (Redirect "auth.login"))
  | Some uid => f (mkEnv uid (w_clock w) (w_conn w) (w_aux_conn w)) st
  end.

(** The routes of the blueprint, with what the URL, the form or the JSON
    body carries: all of them but the compose form and the settings page,
    which are modelled on their own. *)
Inductive Request : Type :=
| ApiUnreadCount
| Inbox
| ViewMessage (message_id : Z)
| ReplyMessage (message_id : Z) (method : Method)
    (form : list (string * string))
| MarkAsRead (message_id : Z)
| DeleteMessage (message_id : Z)
| CheckPublicationRequest (content_id : Z)
| SendMessage (data : option SendPayload)
| UpdateNotificationSettings (form : list (string * string)).

(** [messages_bp]: each route is its view behind [login_required]. *)
Definition messages_bp (session : option Z) (w : World) (r : Request)
    (st : Store) : Store * Outcome :=
  login_required session w
    (fun env st =>
       match r with
       | ApiUnreadCount => api_unread_count env st
       | Inbox => inbox env st
       | ViewMessage message_id => view_message env st message_id
       | ReplyMessage message_id method form =>
           reply_message env st message_id method form
       | MarkAsRead message_id => mark_as_read env st message_id
       | DeleteMessage message_id => delete_message env st message_id
       | CheckPublicationRequest content_id =>
           check_publication_request env st content_id
       | SendMessage data => send_message env st data
       | UpdateNotificationSettings form =>
           update_notification_settings env st form
       end)
    st.

(** One request after the other, each on the store the last one left. *)
Record Call : Type := mkCall {
  call_session : option Z;
  call_world : World;
  call_request : Request
}.

Fixpoint serve (calls : list Call) (st : Store) : Store :=
  match calls with
  | [] => st
  | c :: rest =>
      serve rest
        (fst (messages_bp (call_session c) (call_world c) (call_request c) st))
  end.

(* ===================================================================== *)
(** ** Vocabulary of the further statements *)
(* ===================================================================== *)

(** The error the injected fault raises at driver call [n], if any. *)
Definition due (fault : option (nat * string)) (n : nat) : option string :=
  match fault with
  | Some (i, e) => if Nat.eqb i n then Some e else None
  | None => None
  end.

(** The connection [get_unread_count] opens works. *)
Definition counting (env : Env) : Prop := aux_conn env = Connected None.

(** The columns that are written once, by the [INSERT]. *)
Definition same_letter (m m' : Message) : Prop :=
  id m' = id m /\ sender_id m' = sender_id m
  /\ receiver_id m' = receiver_id m /\ subject m' = subject m
  /\ content m' = content m /\ message_type m' = message_type m
  /\ parent_message_id m' = parent_message_id m
  /\ related_content_id m' = related_content_id m
  /\ related_user_id m' = related_user_id m /\ sent_at m' = sent_at m.

(** A row later on: the same letter, and no flag taken back. *)
Definition row_history (m m' : Message) : Prop :=
  same_letter m m'
  /\ (is_read m = true -> is_read m' = true)
  /\ (read_at m <> None -> read_at m' <> None)
  /\ (is_deleted_by_sender m = true -> is_deleted_by_sender m' = true)
  /\ (is_deleted_by_receiver m = true -> is_deleted_by_receiver m' = true).

(** What one request of user [u] may have done to a row. *)
Definition row_step (u : Z) (m m' : Message) : Prop :=
  row_history m m'
  /\ (is_read m' <> is_read m \/ read_at m' <> read_at m -> receiver_id m = u)
  /\ (is_deleted_by_sender m' <> is_deleted_by_sender m -> sender_id m = u)
  /\ (is_deleted_by_receiver m' <> is_deleted_by_receiver m ->
      receiver_id m = u).

(** A row as an [INSERT] of user [u] leaves it. *)
Definition fresh_from (u : Z) (m : Message) : Prop :=
  sender_id m = u /\ is_read m = false /\ read_at m = None
  /\ is_deleted_by_sender m = false /\ is_deleted_by_receiver m = false.

(** A store later on: the old messages in their places, each with its
    history, new ones behind them; the same notification rows by user and
    key; the same users and contents. *)
Definition store_history (st st' : Store) : Prop :=
  users st' = users st /\ contents st' = contents st
  /\ Forall2 (fun r r' => ns_user_id r' = ns_user_id r
                          /\ notification_type r' = notification_type r)
       (message_notifications st) (message_notifications st')
  /\ exists kept added,
       messages st' = (kept ++ added)%list
       /\ Forall2 row_history (messages st) kept.

(** What one request of user [u] may have done to the store. *)
Definition store_step (u : Z) (st st' : Store) : Prop :=
  users st' = users st /\ contents st' = contents st
  /\ Forall2 (fun r r' => ns_user_id r' = ns_user_id r
                          /\ notification_type r' = notification_type r
                          /\ (ns_user_id r <> u -> r' = r))
       (message_notifications st) (message_notifications st')
  /\ exists kept added,
       messages st' = (kept ++ added)%list
       /\ Forall2 (row_step u) (messages st) kept
       /\ Forall (fresh_from u) added
       /\ (List.length added <= 1)%nat.

(** The stores the writing handlers commit. *)
Definition marked_read (t mid : Z) (st : Store) : Store :=
  with_messages st
    (Sql.update (fun x => id x =? mid) (set_read t) (messages st)).

Definition marked_read_for (u t mid : Z) (st : Store) : Store :=
  with_messages st
    (Sql.update (fun x => (id x =? mid) && (receiver_id x =? u))
       (set_read t) (messages st)).

Definition deleted_by_sender (mid : Z) (st : Store) : Store :=
  with_messages st
    (Sql.update (fun x => id x =? mid) set_deleted_by_sender (messages st)).

Definition deleted_by_receiver (mid : Z) (st : Store) : Store :=
  with_messages st
    (Sql.update (fun x => id x =? mid) set_deleted_by_receiver (messages st)).

Definition settings_saved (env : Env) (form : list (string * string))
    (st : Store) : Store :=
  update_one env form 3 "content_feedback"
    (update_one env form 2 "system_announcement"
       (update_one env form 1 "message_reply"
          (update_one env form 0 "new_message" st))).

(** What each route answers when it has done its work. *)
Definition reports_success (r : Request) (out : Outcome) : Prop :=
  match r with
  | ViewMessage _ =>
      exists row,
        out = plain (Render "messages/view.html" [("message", VRow row)])
  | ReplyMessage _ _ _ =>
      out = flashing "Reply sent successfully!" "success"
              (Redirect "messages.inbox")
  | MarkAsRead _ =>
      exists n,
        out = plain (Json 200 [("success", VBool true);
                               ("unread_count", VInt n)])
  | DeleteMessage _ => out = json_success
  | SendMessage _ => out = sent_ok
  | UpdateNotificationSettings _ =>
      out = flashing "Notification settings updated successfully!" "success"
              (Redirect "messages.notification_settings")
  | ApiUnreadCount | Inbox | CheckPublicationRequest _ => False
  end.

(** The store still holds, under the id [mid], a message user [u] sent to
    themself and has not deleted as receiver. *)
Definition keeps_own_note (u mid : Z) (st : Store) : Prop :=
  exists m, In m (messages st) /\ id m = mid
            /\ sender_id m = u /\ receiver_id m = u
            /\ is_deleted_by_receiver m = false.

(** The sample store with one more message: a note user 8 wrote to
    themself. *)
Module Desk.

Definition note : Message :=
  mkMessage 3 8 8 "Todo" "Buy chalk" "personal" None None None 30
    false None false false.

Definition store : Store :=
  with_messages Sample.store (messages Sample.store ++ [note]).

Definition world (t : Z) : World :=
  mkWorld (fun k => t + Z.of_nat k) (Connected None) (Connected None).

End Desk.

(** The id of the row inserted last. *)
Definition newest_id (st : Store) : Z :=
  match rev (messages st) with
  | m :: _ => id m
  | [] => 0
  end.


(** [request.form.get(key, '')] *)
Definition form_text (form : list (string * string)) (key : string) : string :=
  match form_get form key with
  | Some v => v
  | None => ""
  end.

(** [POST /messages/compose].  The field [receiver_id] is what the select
    of the compose page sends: nothing ([None] here, false in Python like
    the empty string), or the numeral of a user id (any such text is true
    in Python, the numeral of 0 too), which the integer column stores as
    that integer.  The message is inserted without [related_content_id],
    and no duplicate check is made.  The GET branch only lists users, by
    columns the store here does not carry, and is left out. *)
Definition compose_message (env : Env) (st : Store) (receiver_id : option Z)
    (form : list (string * string)) : Store * Outcome :=
  let uid := session_user_id env in
  let subject := Text.strip (form_text form "subject") in
  let content := Text.strip (form_text form "content") in
  let required :=
    flashing "All fields are required." "error"
      (Redirect "messages.compose_message") in
  match receiver_id with
  | Some receiver =>
      if Text.nonempty subject && Text.nonempty content then
        run_request st (conn env)
          (flashing "Database connection error." "error"
             (Redirect "messages.compose_message"))
          (execute (Sql.insert_message uid receiver subject content
                      "personal" None None None (clock env 0)) ;;
           commit ;;
           ret (flashing "Message sent successfully!" "success"
                  (Redirect "messages.inbox")))
          (fun err =>
             flashing ("Error sending message: " ++ err) "error"
               (Redirect "messages.compose_message"))
      else (st, required)
  | None => (st, required)
  end.

Definition composed_ok : Outcome :=
  flashing "Message sent successfully!" "success" (Redirect "messages.inbox").

Definition fields_required : Outcome :=
  flashing "All fields are required." "error"
    (Redirect "messages.compose_message").

(* ===================================================================== *)
(** ** Facts about text matching *)
(* ===================================================================== *)

Module TextFacts.
Import Text.

Lemma matches_star (p s : string) :
  matches (String "%" p) s =
  matches p s ||
  match s with
  | EmptyString => false
  | String _ s' => matches (String "%" p) s'
  end.
Proof. destruct s; reflexivity. Qed.

Lemma matches_any (s : string) : matches "%" s = true.
Proof.
  induction s as [|c s IH]; rewrite matches_star.
  - reflexivity.
  - rewrite IH. apply orb_true_r.
Qed.

Lemma matches_literal_prefix (x : string) :
  literal x = true -> forall s, matches (x ++ "%") s = ci_prefix x s.
Proof.
  induction x as [|c x IH]; intros Hlit s.
  - apply matches_any.
  - simpl in Hlit. apply andb_true_iff in Hlit as [Hc Hx].
    apply negb_true_iff in Hc. unfold is_wildcard in Hc.
    apply orb_false_iff in Hc as [Hpct Hund].
    cbn [append matches]. rewrite Hpct, Hund.
    destruct s as [|d s]; cbn [ci_prefix]; [reflexivity|].
    now rewrite IH.
Qed.

(** The pattern [%x%] for a wildcard-free [x] is a substring test up to
    ASCII case. *)
Lemma matches_infix (x : string) :
  literal x = true ->
  forall s, matches (String "%" (x ++ "%")) s = ci_contains x s.
Proof.
  intros Hlit s. induction s as [|c s IH].
  - rewrite matches_star, matches_literal_prefix by assumption. reflexivity.
  - rewrite matches_star, matches_literal_prefix by assumption.
    cbn [ci_contains]. now rewrite IH.
Qed.

Lemma prefix_ci_prefix (x s : string) :
  String.prefix x s = true -> ci_prefix x s = true.
Proof.
  revert s. induction x as [|c x IH]; intros [|d s] H; simpl in *;
    try reflexivity; try discriminate.
  destruct (ascii_dec c d) as [->|]; [|discriminate].
  rewrite Ascii.eqb_refl. simpl. now apply IH.
Qed.

(** Whatever Python's [in] finds in a text, a case-blind search of the
    same text finds too. *)
Lemma contains_ci_contains (x s : string) :
  contains x s = true -> ci_contains x s = true.
Proof.
  induction s as [|c s IH]; cbn [contains ci_contains]; intros H.
  - apply orb_true_iff in H as [H|H]; [|discriminate].
    rewrite (prefix_ci_prefix _ _ H). reflexivity.
  - apply orb_true_iff in H as [H|H].
    + rewrite (prefix_ci_prefix _ _ H). reflexivity.
    + rewrite (IH H). apply orb_true_r.
Qed.

Lemma contains_nonempty (x s : string) :
  nonempty x = true -> contains x s = true -> nonempty s = true.
Proof.
  destruct s; [|reflexivity].
  destruct x; simpl; intros; discriminate.
Qed.

(** *** Prefixes and occurrences *)

Lemma prefix_empty (s : string) : String.prefix "" s = true.
Proof. now destruct s. Qed.

Lemma prefix_cons (a : ascii) (x s : string) :
  String.prefix (String a x) (String a s) = String.prefix x s.
Proof. simpl. destruct (ascii_dec a a); [reflexivity|contradiction]. Qed.

Lemma prefix_cons_inv (a c : ascii) (x s : string) :
  String.prefix (String a x) (String c s) = true ->
  a = c /\ String.prefix x s = true.
Proof. simpl. destruct (ascii_dec a c); [auto|discriminate]. Qed.

Lemma prefix_contains (x s : string) :
  String.prefix x s = true -> contains x s = true.
Proof. intros H. destruct s; cbn [contains]; now rewrite H. Qed.

Lemma contains_empty (x : string) :
  nonempty x = true -> contains x "" = false.
Proof. destruct x; [discriminate|reflexivity]. Qed.

Lemma prefix_app (x a b : string) :
  String.prefix x a = true -> String.prefix x (a ++ b) = true.
Proof.
  revert a. induction x as [|c x IH]; intros a H; [apply prefix_empty|].
  destruct a as [|d a]; [discriminate|].
  apply prefix_cons_inv in H as [<- H]. cbn [append].
  rewrite prefix_cons. now apply IH.
Qed.

Lemma contains_app (x a b : string) :
  contains x a = true -> contains x (a ++ b) = true.
Proof.
  induction a as [|c a IH]; intros H.
  - cbn [contains] in H. rewrite orb_false_r in H.
    destruct x; [|discriminate]. apply prefix_contains, prefix_empty.
  - cbn [contains] in H. cbn [append contains].
    apply orb_true_iff in H as [H|H].
    + change (String c (a ++ b)) with (String c a ++ b).
      now rewrite (prefix_app _ _ b H).
    + rewrite (IH H). apply orb_true_r.
Qed.

(** *** White space holds no ink *)

Lemma space_inkless (c : ascii) : is_space c = true -> is_ink c = false.
Proof. intros H. unfold is_ink. rewrite H. apply andb_false_r. Qed.

Lemma high_inkless (c : ascii) :
  (128 <= nat_of_ascii c)%nat -> is_ink c = false.
Proof.
  intros H. unfold is_ink. apply Nat.ltb_ge in H. now rewrite H.
Qed.

Lemma space2_high (c d : ascii) :
  is_space2 c d = true ->
  (128 <= nat_of_ascii c)%nat /\ (128 <= nat_of_ascii d)%nat.
Proof.
  unfold is_space2.
  rewrite !andb_true_iff, !orb_true_iff, !Nat.eqb_eq. lia.
Qed.

Lemma space3_high (c d e : ascii) :
  is_space3 c d e = true ->
  (128 <= nat_of_ascii c)%nat /\ (128 <= nat_of_ascii d)%nat
  /\ (128 <= nat_of_ascii e)%nat.
Proof.
  unfold is_space3.
  rewrite !orb_true_iff, !andb_true_iff, !orb_true_iff, !andb_true_iff,
    !Nat.eqb_eq, !Nat.leb_le.
  lia.
Qed.

(** What [lstrip] takes off holds no ink. *)
Lemma lstrip_split (s : string) :
  exists pre, s = pre ++ lstrip s /\ inkless pre = true.
Proof.
  remember (String.length s) as n eqn:Hn.
  assert (Hle : (String.length s <= n)%nat) by lia. clear Hn.
  revert s Hle. induction n as [|n IH]; intros s Hle.
  - destruct s; [|simpl in Hle; lia]. now exists "".
  - destruct s as [|c s1]; [now exists ""|].
    cbn [lstrip]. destruct (is_space c) eqn:Ec.
    { destruct (IH s1) as (pre & E & Hpre); [simpl in *; lia|].
      exists (String c pre). cbn [append inkless].
      rewrite <- E, (space_inkless c Ec), Hpre. auto. }
    destruct s1 as [|d s2]; [now exists ""|].
    destruct (is_space2 c d) eqn:E2.
    { apply space2_high in E2 as [Hc Hd].
      destruct (IH s2) as (pre & E & Hpre); [simpl in *; lia|].
      exists (String c (String d pre)). cbn [append inkless].
      rewrite <- E, (high_inkless c Hc), (high_inkless d Hd), Hpre. auto. }
    destruct s2 as [|e s3]; [now exists ""|].
    destruct (is_space3 c d e) eqn:E3; [|now exists ""].
    apply space3_high in E3 as (Hc & Hd & He).
    destruct (IH s3) as (pre & E & Hpre); [simpl in *; lia|].
    exists (String c (String d (String e pre))). cbn [append inkless].
    rewrite <- E, (high_inkless c Hc), (high_inkless d Hd),
      (high_inkless e He), Hpre.
    auto.
Qed.

Lemma blank_inkless (s : string) : blank s = true -> inkless s = true.
Proof.
  unfold blank. intros H. destruct (lstrip_split s) as (pre & E & Hpre).
  destruct (lstrip s); [|discriminate].
  rewrite E. clear E. induction pre as [|c pre IH]; [reflexivity|].
  cbn [inkless] in *. apply andb_true_iff in Hpre as [Hc Hpre].
  cbn [append inkless]. rewrite Hc. now apply IH.
Qed.

(** What [rstrip] takes off holds no ink. *)
Lemma rstrip_split (s : string) :
  exists post, s = rstrip s ++ post /\ inkless post = true.
Proof.
  induction s as [|c s IH]; [now exists ""|].
  cbn [rstrip]. destruct (blank (String c s)) eqn:Eb.
  - exists (String c s). split; [reflexivity|]. now apply blank_inkless.
  - destruct IH as (post & E & Hpost). exists post.
    cbn [append]. now rewrite <- E.
Qed.

(** *** Stripping keeps an occurrence that begins and ends with ink *)

Lemma contains_skip_inkless (x pre t : string) :
  starts_solid x = true -> inkless pre = true ->
  contains x (pre ++ t) = true -> contains x t = true.
Proof.
  intros Hs. induction pre as [|c pre IH]; intros Hpre H; [exact H|].
  cbn [inkless] in Hpre. apply andb_true_iff in Hpre as [Hc Hpre].
  cbn [append contains] in H. apply orb_true_iff in H as [H|H]; [|auto].
  destruct x as [|a x]; [discriminate|].
  apply prefix_cons_inv in H as [-> _]. simpl in Hs.
  rewrite Hs in Hc. discriminate.
Qed.

Lemma prefix_trim_inkless (x : string) :
  ends_solid x = true ->
  forall t post, inkless post = true ->
    String.prefix x (t ++ post) = true -> String.prefix x t = true.
Proof.
  induction x as [|a x IH]; intros He t post Hpost Hp; [discriminate|].
  destruct t as [|c t].
  - exfalso. cbn [append] in Hp.
    destruct post as [|c post]; [discriminate|].
    apply prefix_cons_inv in Hp as [<- Hp].
    cbn [inkless] in Hpost. apply andb_true_iff in Hpost as [Ha Hpost].
    destruct x as [|b x].
    + simpl in He. rewrite He in Ha. discriminate.
    + specialize (IH He "" post Hpost Hp). discriminate.
  - cbn [append] in Hp. apply prefix_cons_inv in Hp as [<- Hp].
    rewrite prefix_cons. destruct x as [|b x]; [apply prefix_empty|].
    exact (IH He t post Hpost Hp).
Qed.

Lemma contains_inkless (x post : string) :
  ends_solid x = true -> inkless post = true -> contains x post = false.
Proof.
  intros He. assert (Hx : nonempty x = true) by (now destruct x).
  induction post as [|c post IH]; intros Hpost; [now apply contains_empty|].
  cbn [contains]. apply orb_false_iff. split.
  - apply not_true_is_false. intros H.
    pose proof (prefix_trim_inkless x He "" (String c post) Hpost H) as Hnil.
    destruct x; discriminate.
  - apply IH. cbn [inkless] in Hpost.
    now apply andb_true_iff in Hpost as [_ Hpost].
Qed.

Lemma contains_trim_inkless (x t post : string) :
  ends_solid x = true -> inkless post = true ->
  contains x (t ++ post) = true -> contains x t = true.
Proof.
  intros He Hpost. induction t as [|c t IH]; intros H.
  - cbn [append] in H. now rewrite contains_inkless in H.
  - cbn [append contains] in H. cbn [contains].
    apply orb_true_iff in H as [H|H].
    + change (String c (t ++ post)) with (String c t ++ post) in H.
      now rewrite (prefix_trim_inkless x He _ post Hpost H).
    + rewrite (IH H). apply orb_true_r.
Qed.

Lemma contains_lstrip (x s : string) :
  starts_solid x = true -> contains x s = true -> contains x (lstrip s) = true.
Proof.
  intros Hs H. destruct (lstrip_split s) as (pre & E & Hpre).
  rewrite E in H. exact (contains_skip_inkless x pre _ Hs Hpre H).
Qed.

Lemma contains_rstrip (x s : string) :
  ends_solid x = true -> contains x s = true -> contains x (rstrip s) = true.
Proof.
  intros He H. destruct (rstrip_split s) as (post & E & Hpost).
  rewrite E in H. exact (contains_trim_inkless x _ post He Hpost H).
Qed.

(** [strip] cannot cut into an occurrence of a needle that begins and
    ends with ink. *)
Lemma contains_strip (x s : string) :
  starts_solid x = true -> ends_solid x = true ->
  contains x s = true -> contains x (strip s) = true.
Proof.
  intros Hs He H. unfold strip.
  apply contains_rstrip; [assumption|]. now apply contains_lstrip.
Qed.

(** *** The part of a text before its first NUL *)

Lemma c_str_prefix (s : string) : exists rest, s = c_str s ++ rest.
Proof.
  induction s as [|c s IH]; [now exists ""|].
  cbn [c_str]. destruct (Ascii.eqb c Ascii.zero).
  - now exists (String c s).
  - destruct IH as (rest & E). exists rest. cbn [append]. now rewrite <- E.
Qed.

Lemma contains_c_str (x s : string) :
  contains x (c_str s) = true -> contains x s = true.
Proof.
  intros H. destruct (c_str_prefix s) as (rest & E). rewrite E.
  now apply contains_app.
Qed.

Lemma ink_nul (c : ascii) : Ascii.eqb c Ascii.zero = true -> is_ink c = true.
Proof. intros H. apply Ascii.eqb_eq in H. now subst c. Qed.

Lemma c_str_inkless (s : string) : inkless s = true -> c_str s = s.
Proof.
  induction s as [|c s IH]; [reflexivity|].
  cbn [inkless c_str]. intros H. apply andb_true_iff in H as [Hc Hs].
  destruct (Ascii.eqb c Ascii.zero) eqn:E.
  - rewrite (ink_nul c E) in Hc. discriminate.
  - now rewrite IH.
Qed.

Lemma c_str_skip_inkless (pre t : string) :
  inkless pre = true -> c_str (pre ++ t) = pre ++ c_str t.
Proof.
  induction pre as [|c pre IH]; [reflexivity|].
  cbn [inkless append c_str]. intros H. apply andb_true_iff in H as [Hc Hp].
  destruct (Ascii.eqb c Ascii.zero) eqn:E.
  - rewrite (ink_nul c E) in Hc. discriminate.
  - now rewrite IH.
Qed.

Lemma c_str_trim_inkless (t post : string) :
  inkless post = true ->
  c_str (t ++ post) = c_str t \/ c_str (t ++ post) = c_str t ++ post.
Proof.
  intros Hpost. induction t as [|c t IH].
  - right. cbn [append c_str]. now apply c_str_inkless.
  - cbn [append c_str]. destruct (Ascii.eqb c Ascii.zero); [now left|].
    destruct IH as [->| ->]; [now left|now right].
Qed.

(** An occurrence before the first NUL is still there, and still before
    the first NUL, when the text is stripped. *)
Lemma contains_c_str_strip (x s : string) :
  starts_solid x = true -> ends_solid x = true ->
  contains x (c_str s) = true -> contains x (c_str (strip s)) = true.
Proof.
  intros Hs He H. unfold strip.
  destruct (lstrip_split s) as (pre & E & Hpre).
  rewrite E, (c_str_skip_inkless pre _ Hpre) in H.
  apply (contains_skip_inkless x pre _ Hs Hpre) in H.
  destruct (rstrip_split (lstrip s)) as (post & E' & Hpost).
  rewrite E' in H.
  destruct (c_str_trim_inkless (rstrip (lstrip s)) post Hpost) as [Ec|Ec];
    rewrite Ec in H; [exact H|].
  exact (contains_trim_inkless x _ post He Hpost H).
Qed.

(** The white space that is stripped, character by character. *)
Lemma strip_samples :
  strip (String "009" (String "010" " a b ")) = "a b"
  /\ strip (String "194" (String "160" "a")) = "a"
  /\ strip (String "a" (String "227" (String "128" (String "128" "")))) = "a"
  /\ strip (String "195" (String "160" " ")) = String "195" (String "160" "")
  /\ nonempty (strip (String "194" (String "133" ""))) = false
  /\ nonempty (strip (String "000" "")) = true.
Proof. repeat split. Qed.

End TextFacts.

(** [LIKE '%Publication Request%'] looks for the marker, up to ASCII case,
    in the part of the text before its first NUL. *)
Lemma like_marker (s : string) :
  Text.like marker_pattern s = Text.ci_contains marker (Text.c_str s).
Proof.
  unfold Text.like. change (Text.c_str marker_pattern) with marker_pattern.
  apply (TextFacts.matches_infix marker). reflexivity.
Qed.

(* ===================================================================== *)
(** ** Facts about the SQL building blocks *)
(* ===================================================================== *)

Module SqlFacts.
Import Sql.

Section Rows.
Context {A : Type}.
Variable cond : A -> bool.

Lemma count_app (l1 l2 : list A) :
  count cond (l1 ++ l2) = count cond l1 + count cond l2.
Proof.
  unfold count. rewrite filter_app, length_app. lia.
Qed.

Lemma count_single (a : A) :
  count cond [a] = if cond a then 1 else 0.
Proof. unfold count. simpl. now destruct (cond a). Qed.

Lemma count_positive (l : list A) :
  (0 <? count cond l) = true <-> exists a, In a l /\ cond a = true.
Proof.
  unfold count. rewrite Z.ltb_lt. split.
  - destruct (filter cond l) as [|a l'] eqn:E; simpl; [lia|].
    intros _. exists a. apply filter_In. rewrite E. now left.
  - intros (a & Hin & Ha).
    assert (Hf : In a (filter cond l)) by (apply filter_In; auto).
    destruct (filter cond l); simpl in *; [contradiction|lia].
Qed.



Lemma fetchone_none (l : list A) :
  (forall a, In a l -> cond a = false) -> fetchone cond l = None.
Proof.
  intros H. unfold fetchone. destruct (find cond l) as [a|] eqn:E; [|reflexivity].
  apply find_some in E as [Hin Ha]. rewrite (H a Hin) in Ha. discriminate.
Qed.

Lemma update_untouched (f : A -> A) (l : list A) :
  (forall a, In a l -> cond a = false) -> update cond f l = l.
Proof.
  intros H. unfold update. induction l as [|a l IH]; [reflexivity|].
  simpl. rewrite (H a) by now left. f_equal.
  apply IH. intros; apply H; now right.
Qed.

(** What an [UPDATE] does to each row, as a relation between the table
    before and after. *)
Lemma update_Forall2 (f : A -> A) (l : list A) :
  Forall2 (fun r r' => r' = if cond r then f r else r) l (update cond f l).
Proof.
  induction l as [|a l IH]; simpl; constructor; auto.
Qed.

End Rows.

Lemma fetchone_primary_key (cond : Message -> bool) (ms : list Message)
    (m : Message) :
  primary_key ms -> In m ms -> cond m = true ->
  (forall x, cond x = true -> id x = id m) ->
  fetchone cond ms = Some m.
Proof.
  unfold primary_key, fetchone.
  induction ms as [|x ms IH]; intros Hpk Hin Hm Hid; [contradiction|].
  simpl in *. inversion Hpk as [|? ? Hnotin Hpk']; subst.
  destruct Hin as [->|Hin].
  - now rewrite Hm.
  - destruct (cond x) eqn:Hx.
    + exfalso. apply Hnotin. rewrite (Hid x Hx). now apply in_map.
    + now apply IH.
Qed.

Lemma primary_key_unique (ms : list Message) (x y : Message) :
  primary_key ms -> In x ms -> In y ms -> id x = id y -> x = y.
Proof.
  unfold primary_key. induction ms as [|z ms IH]; [contradiction|].
  cbn [map]. intros Hpk Hx Hy E.
  inversion Hpk as [|? ? Hnz Hms]; subst.
  destruct Hx as [->|Hx], Hy as [->|Hy]; auto.
  - exfalso. apply Hnz. rewrite E. now apply in_map.
  - exfalso. apply Hnz. rewrite <- E. now apply in_map.
Qed.

Lemma update_keeps_ids (cond : Message -> bool) (f : Message -> Message)
    (ms : list Message) :
  (forall m, id (f m) = id m) -> map id (update cond f ms) = map id ms.
Proof.
  intros Hf. unfold update. rewrite map_map. apply map_ext.
  intros m. destruct (cond m); auto.
Qed.

Lemma In_update (cond : Message -> bool) (f : Message -> Message)
    (ms : list Message) (m : Message) :
  In m ms -> In (if cond m then f m else m) (update cond f ms).
Proof.
  intros H. unfold update.
  apply (in_map (fun r => if cond r then f r else r)) in H. exact H.
Qed.

(** *** [ORDER BY sent_at DESC] *)

Lemma insert_desc_perm (m : Message) (l : list Message) :
  Permutation (m :: l) (insert_desc m l).
Proof.
  induction l as [|x l IH]; simpl; [reflexivity|].
  destruct (sent_at x <=? sent_at m); [reflexivity|].
  rewrite perm_swap. now constructor.
Qed.

Lemma order_by_perm (l : list Message) :
  Permutation l (order_by_sent_at_desc l).
Proof.
  induction l as [|m l IH]; simpl; [constructor|].
  rewrite <- insert_desc_perm. now constructor.
Qed.

Lemma insert_desc_hd (m a : Message) (l : list Message) :
  later_first a m -> HdRel later_first a l ->
  HdRel later_first a (insert_desc m l).
Proof.
  intros Ham Hal. destruct l as [|x l]; simpl.
  - now constructor.
  - destruct (sent_at x <=? sent_at m); constructor; auto.
    now inversion Hal.
Qed.

Lemma insert_desc_sorted (m : Message) (l : list Message) :
  Sorted later_first l -> Sorted later_first (insert_desc m l).
Proof.
  induction l as [|x l IH]; simpl; intros Hs.
  - repeat constructor.
  - inversion Hs as [|? ? Hs' Hhd]; subst.
    destruct (sent_at x <=? sent_at m) eqn:E.
    + apply Z.leb_le in E. constructor; [assumption|].
      constructor. exact E.
    + apply Z.leb_gt in E. constructor; [now apply IH|].
      apply insert_desc_hd; [unfold later_first; lia | assumption].
Qed.

Lemma order_by_sorted (l : list Message) :
  Sorted later_first (order_by_sent_at_desc l).
Proof.
  induction l as [|m l IH]; simpl.
  - constructor.
  - now apply insert_desc_sorted.
Qed.

(** *** [INSERT] *)

Lemma id_le_next_id (ms : list Message) (m : Message) :
  In m ms -> id m < next_id ms.
Proof.
  unfold next_id. induction ms as [|x ms IH]; [contradiction|].
  cbn [fold_right In]. intros [->|H]; [lia|]. specialize (IH H). lia.
Qed.

Lemma insert_keeps_primary_key (ms : list Message) (m : Message) :
  primary_key ms -> id m = next_id ms -> primary_key (ms ++ [m]).
Proof.
  unfold primary_key. intros Hpk Hid.
  rewrite map_app. simpl.
  apply NoDup_app; [assumption | repeat constructor; intros [] |].
  intros x Hx [Hm|[]] . subst x.
  apply in_map_iff in Hx as (y & Hy & Hin).
  apply id_le_next_id in Hin. lia.
Qed.

(** The primary key survives what the handlers do to the table. *)
Lemma update_keeps_primary_key (cond : Message -> bool)
    (f : Message -> Message) (ms : list Message) :
  (forall m, id (f m) = id m) ->
  primary_key ms -> primary_key (update cond f ms).
Proof.
  intros Hf Hpk. unfold primary_key. now rewrite update_keeps_ids.
Qed.

Lemma insert_message_keeps_primary_key (sender receiver : Z)
    (subj body mtype : string) (parent rc ru : option Z) (now : Z) (s : Store) :
  primary_key (messages s) ->
  primary_key
    (messages (insert_message sender receiver subj body mtype parent rc ru
                 now s)).
Proof.
  intros Hpk. unfold insert_message. cbn [messages with_messages].
  now apply insert_keeps_primary_key.
Qed.

End SqlFacts.

(* ===================================================================== *)
(** ** Running a body on a connection without fault *)
(* ===================================================================== *)

Section Healthy.
Context {A B : Type}.
Variables (a b : Store) (n : nat).

Lemma bind_ret (x : A) (k : A -> DB B) (c : Conn) :
  bind (ret x) k c = k x c.
Proof. reflexivity. Qed.

Lemma bind_query (q : Store -> A) (k : A -> DB B) :
  bind (query q) k (mkConn a b n None) = k (q b) (mkConn a b (S n) None).
Proof. reflexivity. Qed.

Lemma bind_execute (f : Store -> Store) (k : unit -> DB B) :
  bind (execute f) k (mkConn a b n None) = k tt (mkConn a (f b) (S n) None).
Proof. reflexivity. Qed.

Lemma bind_commit (k : unit -> DB B) :
  bind commit k (mkConn a b n None) = k tt (mkConn b b (S n) None).
Proof. reflexivity. Qed.

Lemma bind_peek (k : Store -> DB B) (c : Conn) :
  bind peek_committed k c = k (committed c) c.
Proof. reflexivity. Qed.

End Healthy.

Lemma bind_assoc {A B C : Type} (m : DB A) (k : A -> DB B) (h : B -> DB C)
    (c : Conn) :
  bind (bind m k) h c = bind m (fun x => bind (k x) h) c.
Proof. unfold bind. destruct (m c); reflexivity. Qed.

Create Rewrite HintDb db.
#[local] Hint Rewrite @bind_ret @bind_query @bind_execute @bind_commit
  @bind_peek : db.

(** Open the handler's connection and run its statements one by one. *)
Ltac db_steps :=
  repeat first [ rewrite bind_assoc
               | progress autorewrite with db
               | progress cbv beta ].

Ltac run_healthy H :=
  unfold healthy in H; unfold run_request; rewrite H; unfold connect;
  db_steps.

(* ===================================================================== *)
(** ** Viewing and marking as read *)
(* ===================================================================== *)

Lemma view_message_hidden (env : Env) (st : Store) (mid : Z) :
  healthy env ->
  (forall x, In x (messages st) ->
             visible_to (session_user_id env) mid x = false) ->
  view_message env st mid = (st, not_found_or_denied).
Proof.
  intros H Hnone. unfold view_message. run_healthy H.
  rewrite (SqlFacts.fetchone_none _ _ Hnone). reflexivity.
Qed.

Lemma view_message_first (env : Env) (st : Store) (mid : Z) (m : Message) :
  healthy env ->
  Sql.fetchone (visible_to (session_user_id env) mid) (messages st) = Some m ->
  receiver_id m = session_user_id env -> is_read m = false ->
  view_message env st mid =
  (with_messages st
     (Sql.update (fun x => id x =? mid) (set_read (clock env 0)) (messages st)),
   plain (Render "messages/view.html" [("message", VRow (view_row st m))])).
Proof.
  intros H Hm Hrecv Hunread. unfold view_message. run_healthy H.
  rewrite Hm. cbn [option_map row_msg view_row].
  rewrite Hrecv, Z.eqb_refl, Hunread. cbn [negb andb].
  db_steps. reflexivity.
Qed.

Lemma view_message_again (env : Env) (st : Store) (mid : Z) (m : Message) :
  healthy env ->
  Sql.fetchone (visible_to (session_user_id env) mid) (messages st) = Some m ->
  (receiver_id m =? session_user_id env) && negb (is_read m) = false ->
  view_message env st mid =
  (st, plain (Render "messages/view.html" [("message", VRow (view_row st m))])).
Proof.
  intros H Hm Hseen. unfold view_message. run_healthy H.
  rewrite Hm. cbn [option_map row_msg view_row].
  rewrite Hseen. db_steps. reflexivity.
Qed.

Lemma mark_as_read_store (env : Env) (st : Store) (mid : Z) :
  healthy env ->
  fst (mark_as_read env st mid) =
  with_messages st
    (Sql.update
       (fun m => (id m =? mid) && (receiver_id m =? session_user_id env))
       (set_read (clock env 0)) (messages st)).
Proof.
  intros H. unfold mark_as_read. run_healthy H. reflexivity.
Qed.

(** Whatever its read state, a message of the requester is stamped anew. *)
Lemma mark_as_read_overwrites (env : Env) (st : Store) (m : Message) :
  healthy env -> In m (messages st) ->
  receiver_id m = session_user_id env ->
  In (set_read (clock env 0) m) (messages (fst (mark_as_read env st (id m)))).
Proof.
  intros H Hin Hr. rewrite mark_as_read_store by assumption.
  cbn [messages with_messages].
  pose proof (SqlFacts.In_update
                (fun x => (id x =? id m) && (receiver_id x =? session_user_id env))
                (set_read (clock env 0)) _ _ Hin) as Hi.
  cbv beta in Hi. now rewrite Hr, !Z.eqb_refl in Hi.
Qed.

Lemma visible_to_id (u mid : Z) (x : Message) :
  visible_to u mid x = true -> id x = mid.
Proof.
  unfold visible_to. intros H. apply andb_true_iff in H as [H _].
  now apply Z.eqb_eq.
Qed.

Lemma receiver_sees (u : Z) (m : Message) :
  receiver_id m = u -> is_deleted_by_receiver m = false ->
  visible_to u (id m) m = true.
Proof.
  intros Hr Hd. unfold visible_to, received_by.
  now rewrite Z.eqb_refl, Hr, Z.eqb_refl, Hd.
Qed.

(** C4.  A message of the store ([id] being the primary key) that its
    receiver has not deleted and not yet read: the receiver's first view
    rewrites this row to [is_read = true] with [read_at] the time of that
    view and touches no other row; the second view changes nothing, so the
    row still carries the time of the first view, whatever the clock shows
    at the second. *)
Theorem view_message_idempotent (env1 env2 : Env) (st : Store) (m : Message) :
  healthy env1 -> healthy env2 ->
  session_user_id env1 = receiver_id m ->
  session_user_id env2 = receiver_id m ->
  primary_key (messages st) -> In m (messages st) ->
  is_deleted_by_receiver m = false -> is_read m = false ->
  let st1 := fst (view_message env1 st (id m)) in
  let st2 := fst (view_message env2 st1 (id m)) in
  Forall2 (fun x x' => x' = if id x =? id m
                            then set_read (clock env1 0) x else x)
    (messages st) (messages st1)
  /\ In (set_read (clock env1 0) m) (messages st1)
  /\ st2 = st1
  /\ (forall x, In x (messages st2) -> id x = id m ->
                is_read x = true /\ read_at x = Some (clock env1 0)).
Proof.
  intros H1 H2 Hu1 Hu2 Hpk Hin Hdel Hunread st1 st2.
  assert (Hfetch : Sql.fetchone (visible_to (session_user_id env1) (id m))
                     (messages st) = Some m).
  { apply SqlFacts.fetchone_primary_key; auto.
    - apply receiver_sees; auto.
    - intros x Hx. now apply visible_to_id in Hx. }
  assert (Est1 : st1 = with_messages st
                   (Sql.update (fun x => id x =? id m)
                      (set_read (clock env1 0)) (messages st))).
  { unfold st1. now rewrite (view_message_first env1 st (id m) m). }
  set (m' := set_read (clock env1 0) m).
  assert (Hin' : In m' (messages st1)).
  { rewrite Est1. cbn [messages with_messages].
    pose proof (SqlFacts.In_update (fun x => id x =? id m)
                  (set_read (clock env1 0)) _ _ Hin) as Hi.
    cbv beta in Hi. now rewrite Z.eqb_refl in Hi. }
  assert (Hpk' : primary_key (messages st1)).
  { rewrite Est1. cbn [messages with_messages].
    now apply SqlFacts.update_keeps_primary_key. }
  assert (Est2 : st2 = st1).
  { unfold st2.
    rewrite (view_message_again env2 st1 (id m) m'); [reflexivity|assumption| |].
    - apply (SqlFacts.fetchone_primary_key _ _ m'); auto.
      + apply (receiver_sees _ m'); auto.
      + intros x Hx. now apply visible_to_id in Hx.
    - cbn. apply andb_false_r. }
  repeat split.
  - rewrite Est1. apply SqlFacts.update_Forall2.
  - exact Hin'.
  - exact Est2.
  - rewrite Est2 in H.
    now rewrite (SqlFacts.primary_key_unique _ x m' Hpk' H Hin' H0).
  - rewrite Est2 in H. rewrite Est1 in H. cbn [messages with_messages] in H.
    unfold Sql.update in H. apply in_map_iff in H as (y & Hy & _).
    destruct (id y =? id m) eqn:E; subst x; [reflexivity|].
    apply Z.eqb_neq in E. contradiction.
Qed.

Lemma sample_primary_key : primary_key (messages Sample.store).
Proof.
  unfold primary_key. cbn.
  repeat constructor; cbn; intuition discriminate.
Qed.

Lemma view_message_idempotent_witness :
  let st1 := fst (view_message (Sample.env 8 200) Sample.store 1) in
  let st2 := fst (view_message (Sample.env 8 300) st1 1) in
  Forall2 (fun x x' => x' = if id x =? 1 then set_read 200 x else x)
    (messages Sample.store) (messages st1)
  /\ In (set_read 200 Sample.hello) (messages st1)
  /\ st2 = st1
  /\ (forall x, In x (messages st2) -> id x = 1 ->
                is_read x = true /\ read_at x = Some 200).
Proof.
  apply (view_message_idempotent (Sample.env 8 200) (Sample.env 8 300)
           Sample.store Sample.hello).
  - reflexivity.
  - reflexivity.
  - reflexivity.
  - reflexivity.
  - exact sample_primary_key.
  - simpl. auto.
  - reflexivity.
  - reflexivity.
Defined.

(** C1.  The receiver (user 8) views the unread message 1 at time 100 and
    then posts to the mark-read endpoint at time 200: the view stamps
    [read_at] with 100, and the later [mark_as_read] overwrites it with
    200, since its [UPDATE] has no [is_read = FALSE] guard. *)
Theorem mark_as_read_restamps :
  let st1 := fst (view_message (Sample.env 8 100) Sample.store 1) in
  let st2 := fst (mark_as_read (Sample.env 8 200) st1 1) in
  map read_at (filter (fun m => id m =? 1) (messages st1)) = [Some 100]
  /\ map read_at (filter (fun m => id m =? 1) (messages st2)) = [Some 200]
  /\ map is_read (filter (fun m => id m =? 1) (messages st2)) = [true].
Proof. repeat split. Qed.

(* ===================================================================== *)
(** ** Soft deletion *)
(* ===================================================================== *)

Lemma delete_message_absent (env : Env) (st : Store) (mid : Z) :
  healthy env ->
  (forall x, In x (messages st) -> id x <> mid) ->
  delete_message env st mid = (st, json_error 200 "Message not found").
Proof.
  intros H Habs. unfold delete_message. run_healthy H.
  rewrite SqlFacts.fetchone_none; [reflexivity|].
  intros x Hx. apply Z.eqb_neq. now apply Habs.
Qed.

Lemma delete_message_sender (env : Env) (st : Store) (mid : Z) (m : Message) :
  healthy env ->
  Sql.fetchone (fun x => id x =? mid) (messages st) = Some m ->
  sender_id m = session_user_id env ->
  delete_message env st mid =
  (with_messages st
     (Sql.update (fun x => id x =? mid) set_deleted_by_sender (messages st)),
   json_success).
Proof.
  intros H Hm Hs. unfold delete_message. run_healthy H.
  rewrite Hm, Hs, Z.eqb_refl. db_steps. reflexivity.
Qed.

Lemma delete_message_receiver (env : Env) (st : Store) (mid : Z) (m : Message) :
  healthy env ->
  Sql.fetchone (fun x => id x =? mid) (messages st) = Some m ->
  sender_id m <> session_user_id env ->
  receiver_id m = session_user_id env ->
  delete_message env st mid =
  (with_messages st
     (Sql.update (fun x => id x =? mid) set_deleted_by_receiver (messages st)),
   json_success).
Proof.
  intros H Hm Hs Hr. unfold delete_message. run_healthy H.
  apply Z.eqb_neq in Hs. rewrite Hm, Hs, Hr, Z.eqb_refl. db_steps.
  reflexivity.
Qed.

Lemma delete_message_stranger (env : Env) (st : Store) (mid : Z) (m : Message) :
  healthy env ->
  Sql.fetchone (fun x => id x =? mid) (messages st) = Some m ->
  sender_id m <> session_user_id env ->
  receiver_id m <> session_user_id env ->
  delete_message env st mid = (st, json_error 200 "Access denied").
Proof.
  intros H Hm Hs Hr. unfold delete_message. run_healthy H.
  apply Z.eqb_neq in Hs. apply Z.eqb_neq in Hr. rewrite Hm, Hs, Hr.
  reflexivity.
Qed.

Lemma fetchone_by_id (ms : list Message) (m : Message) :
  primary_key ms -> In m ms ->
  Sql.fetchone (fun x => id x =? id m) ms = Some m.
Proof.
  intros Hpk Hin. apply SqlFacts.fetchone_primary_key; auto.
  - apply Z.eqb_refl.
  - intros x Hx. now apply Z.eqb_eq.
Qed.

(** Under the primary key an [UPDATE ... WHERE id = ?] rewrites the one row
    with that id. *)
Lemma update_by_id (f : Message -> Message) (ms : list Message) (m : Message) :
  primary_key ms -> In m ms ->
  Forall2 (fun x x' => x' = if id x =? id m then f m else x)
    ms (Sql.update (fun x => id x =? id m) f ms).
Proof.
  intros Hpk Hin.
  assert (Hall : forall x, In x ms -> id x = id m -> x = m).
  { intros x Hx E. now apply (SqlFacts.primary_key_unique ms). }
  clear Hpk Hin. induction ms as [|x ms IH]; cbn; constructor.
  - destruct (id x =? id m) eqn:E; [|reflexivity].
    apply Z.eqb_eq in E. now rewrite (Hall x (or_introl eq_refl) E).
  - apply IH. intros y Hy. apply Hall. now right.
Qed.

(** C6.  Deleting a message [m] of the store ([id] being the primary key):
    when the requester is the sender, the row gets [is_deleted_by_sender]
    set and keeps its receiver flag and every other column; when the
    requester is the receiver (and not also the sender: for a message a
    user sent to themself the [if] on the sender comes first), the row
    gets [is_deleted_by_receiver] set and keeps its sender flag and every
    other column; in both cases no other row and no other table changes.
    A requester who is neither is answered "Access denied" and the store
    is unchanged. *)
Theorem delete_message_frame (env : Env) (st : Store) (m : Message) :
  healthy env -> primary_key (messages st) -> In m (messages st) ->
  let u := session_user_id env in
  let st' := fst (delete_message env st (id m)) in
  let out := snd (delete_message env st (id m)) in
  (message_notifications st' = message_notifications st
   /\ users st' = users st /\ contents st' = contents st)
  /\ (sender_id m = u ->
      out = json_success
      /\ exists m', row_replaced m m' (messages st) (messages st')
           /\ same_columns m m'
           /\ is_deleted_by_sender m' = true
           /\ is_deleted_by_receiver m' = is_deleted_by_receiver m)
  /\ (sender_id m <> u -> receiver_id m = u ->
      out = json_success
      /\ exists m', row_replaced m m' (messages st) (messages st')
           /\ same_columns m m'
           /\ is_deleted_by_receiver m' = true
           /\ is_deleted_by_sender m' = is_deleted_by_sender m)
  /\ (sender_id m <> u -> receiver_id m <> u ->
      out = json_error 200 "Access denied" /\ st' = st).
Proof.
  intros H Hpk Hin u st' out.
  pose proof (fetchone_by_id _ _ Hpk Hin) as Hf.
  split; [|split; [|split]].
  - subst st'. destruct (Z.eq_dec (sender_id m) u) as [Hs|Hs].
    + rewrite (delete_message_sender env st (id m) m); auto.
    + destruct (Z.eq_dec (receiver_id m) u) as [Hr|Hr].
      * rewrite (delete_message_receiver env st (id m) m); auto.
      * rewrite (delete_message_stranger env st (id m) m); auto.
  - intros Hs. subst st' out.
    rewrite (delete_message_sender env st (id m) m) by auto.
    split; [reflexivity|]. exists (set_deleted_by_sender m).
    split; [apply update_by_id; assumption|].
    unfold same_columns. cbn. tauto.
  - intros Hs Hr. subst st' out.
    rewrite (delete_message_receiver env st (id m) m) by auto.
    split; [reflexivity|]. exists (set_deleted_by_receiver m).
    split; [apply update_by_id; assumption|].
    unfold same_columns. cbn. tauto.
  - intros Hs Hr. subst st' out.
    rewrite (delete_message_stranger env st (id m) m) by auto.
    split; reflexivity.
Qed.

Lemma delete_message_frame_witness :
  let env := Sample.env 8 50 in
  let st' := fst (delete_message env Sample.store 1) in
  let out := snd (delete_message env Sample.store 1) in
  (message_notifications st' = message_notifications Sample.store
   /\ users st' = users Sample.store /\ contents st' = contents Sample.store)
  /\ (5 = 8 ->
      out = json_success
      /\ exists m', row_replaced Sample.hello m'
                      (messages Sample.store) (messages st')
           /\ same_columns Sample.hello m'
           /\ is_deleted_by_sender m' = true
           /\ is_deleted_by_receiver m' = false)
  /\ (5 <> 8 -> 8 = 8 ->
      out = json_success
      /\ exists m', row_replaced Sample.hello m'
                      (messages Sample.store) (messages st')
           /\ same_columns Sample.hello m'
           /\ is_deleted_by_receiver m' = true
           /\ is_deleted_by_sender m' = false)
  /\ (5 <> 8 -> 8 <> 8 ->
      out = json_error 200 "Access denied" /\ st' = Sample.store).
Proof.
  apply (delete_message_frame (Sample.env 8 50) Sample.store Sample.hello).
  - reflexivity.
  - exact sample_primary_key.
  - simpl. auto.
Defined.

(** C2 fails for deletion: user 9 is no party to message 1 and there is no
    message 7, and [delete_message] answers the two requests differently. *)
Lemma delete_message_tells_cause :
  let env := Sample.env 9 50 in
  Forall (fun x => sender_id x <> 9 /\ receiver_id x <> 9 /\ id x <> 7)
    (messages Sample.store)
  /\ In Sample.hello (messages Sample.store)
  /\ snd (delete_message env Sample.store 1)
     <> snd (delete_message env Sample.store 7).
Proof.
  repeat split; cbn; repeat constructor; cbn; intuition discriminate.
Qed.

(** C2, amended.  Take an id no message has (in SQLite's integer range,
    so that it can be bound), and a message [m] of the store.
    [view_message] answers a requester who is not a party to [m] that has
    kept it (neither its receiver without the receiver's deletion flag nor
    its sender without the sender's one) and a request for the missing id
    alike: the flash "Message not found or access denied.", a redirect to
    the inbox, and nothing changed.  [delete_message] gives three answers:
    "Message not found" for the missing id and "Access denied" for a
    requester who is neither sender nor receiver of [m], both with
    success false and nothing changed; and success for the sender and for
    the receiver of [m], whether or not they had deleted it before. *)
Theorem refusal_signals (env : Env) (st : Store) (absent : Z) (m : Message) :
  healthy env -> primary_key (messages st) ->
  sqlite_integer absent ->
  (forall x, In x (messages st) -> id x <> absent) ->
  In m (messages st) ->
  let u := session_user_id env in
  (received_by u m = false -> sent_by u m = false ->
   view_message env st absent = (st, not_found_or_denied)
   /\ view_message env st (id m) = (st, not_found_or_denied))
  /\ delete_message env st absent = (st, json_error 200 "Message not found")
  /\ (sender_id m <> u -> receiver_id m <> u ->
      delete_message env st (id m) = (st, json_error 200 "Access denied"))
  /\ (sender_id m = u \/ receiver_id m = u ->
      snd (delete_message env st (id m)) = json_success).
Proof.
  intros H Hpk _ Habs Hin u.
  pose proof (fetchone_by_id _ _ Hpk Hin) as Hf.
  split; [|split; [|split]].
  - intros Hr Hs. split; apply view_message_hidden; auto; intros x Hx;
      unfold visible_to.
    + apply Habs in Hx. apply Z.eqb_neq in Hx. now rewrite Hx.
    + destruct (id x =? id m) eqn:E; [|reflexivity].
      apply Z.eqb_eq in E.
      rewrite (SqlFacts.primary_key_unique _ x m Hpk Hx Hin E).
      fold u. now rewrite Hr, Hs.
  - now apply delete_message_absent.
  - intros Hs Hr. now apply (delete_message_stranger env st (id m) m).
  - intros Hparty. destruct (Z.eq_dec (sender_id m) u) as [Hs|Hs].
    + now rewrite (delete_message_sender env st (id m) m).
    + destruct Hparty as [Hs'|Hr]; [contradiction|].
      now rewrite (delete_message_receiver env st (id m) m).
Qed.

Lemma refusal_signals_witness :
  let gone := set_deleted_by_receiver Sample.hello in
  let st := with_messages Sample.store [gone; Sample.request] in
  (view_message (Sample.env 9 50) Sample.store 7
   = (Sample.store, not_found_or_denied)
   /\ view_message (Sample.env 9 50) Sample.store 1
      = (Sample.store, not_found_or_denied)
   /\ delete_message (Sample.env 9 50) Sample.store 7
      = (Sample.store, json_error 200 "Message not found")
   /\ delete_message (Sample.env 9 50) Sample.store 1
      = (Sample.store, json_error 200 "Access denied"))
  /\ (view_message (Sample.env 8 50) st 7 = (st, not_found_or_denied)
      /\ view_message (Sample.env 8 50) st 1 = (st, not_found_or_denied)
      /\ snd (delete_message (Sample.env 8 50) st 1) = json_success).
Proof.
  intros gone st.
  assert (Habsent : sqlite_integer 7) by (unfold sqlite_integer; lia).
  split.
  - assert (Hpk := sample_primary_key).
    assert (Hnone : forall x, In x (messages Sample.store) -> id x <> 7)
      by (cbn; intros x [<-|[<-|[]]]; discriminate).
    assert (Hin : In Sample.hello (messages Sample.store)) by (simpl; auto).
    destruct (refusal_signals (Sample.env 9 50) Sample.store 7 Sample.hello
                eq_refl Hpk Habsent Hnone Hin) as (Hv & Hd1 & Hd2 & _).
    destruct (Hv eq_refl eq_refl) as [Hv1 Hv2].
    repeat split; auto; apply Hd2; discriminate.
  - assert (Hpk : primary_key (messages st))
      by (unfold primary_key; cbn; repeat constructor; cbn;
          intuition discriminate).
    assert (Hnone : forall x, In x (messages st) -> id x <> 7)
      by (cbn; intros x [<-|[<-|[]]]; discriminate).
    assert (Hin : In gone (messages st)) by (simpl; auto).
    destruct (refusal_signals (Sample.env 8 50) st 7 gone
                eq_refl Hpk Habsent Hnone Hin) as (Hv & _ & _ & Hd).
    destruct (Hv eq_refl eq_refl) as [Hv1 Hv2].
    repeat split; auto; apply Hd; now right.
Defined.

(* ===================================================================== *)
(** ** Publication requests *)
(* ===================================================================== *)

Lemma publication_request_spec (sender receiver cid : Z) (m : Message) :
  publication_request sender receiver cid m = true
  <-> live_request sender receiver cid m.
Proof.
  unfold publication_request, live_request, Sql.col_eq.
  rewrite like_marker, !andb_true_iff, !negb_true_iff, !Z.eqb_eq.
  destruct (related_content_id m) as [x|].
  - rewrite Z.eqb_eq. intuition congruence.
  - intuition congruence.
Qed.

Section Send.
Variables (env : Env) (st : Store) (d : SendPayload) (r cid : Z).
Hypothesis Hhealthy : healthy env.
Hypothesis Hreceiver : p_receiver_id d = Some r.
Hypothesis Hr : r <> 0.
Hypothesis Hrelated : p_related_content_id d = Some cid.
Hypothesis Hcid : cid <> 0.
Hypothesis Hsubject : Text.contains marker (Text.strip (p_subject d)) = true.
Hypothesis Hcontent : Text.nonempty (Text.strip (p_content d)) = true.

Lemma send_message_guarded :
  send_message env st (Some d) =
  if 0 <? Sql.count (publication_request (session_user_id env) r cid)
            (messages st)
  then (st, json_error 400 duplicate_error)
  else (Sql.insert_message (session_user_id env) r (Text.strip (p_subject d))
          (Text.strip (p_content d)) "personal" None (Some cid) None
          (clock env 0) st,
        sent_ok).
Proof.
  unfold send_message. rewrite Hreceiver, Hrelated.
  apply Z.eqb_neq in Hr. apply Z.eqb_neq in Hcid.
  rewrite Hr, Hcid, Hsubject, Hcontent.
  rewrite (TextFacts.contains_nonempty marker _ eq_refl Hsubject).
  cbn [negb andb]. run_healthy Hhealthy.
  destruct (0 <? Sql.count (publication_request (session_user_id env) r cid)
                   (messages st));
    db_steps; reflexivity.
Qed.

End Send.

Lemma marker_survives_strip (s : string) :
  Text.contains marker s = true -> Text.contains marker (Text.strip s) = true.
Proof. apply TextFacts.contains_strip; reflexivity. Qed.

Lemma count_after_insert (cond : Message -> bool) (sender receiver : Z)
    (subj body mtype : string) (parent rc ru : option Z) (now : Z) (s : Store) :
  Sql.count cond
    (messages (Sql.insert_message sender receiver subj body mtype parent rc ru
                 now s)) =
  Sql.count cond (messages s)
  + (if cond (Sql.new_row (messages s) sender receiver subj body mtype parent
                rc ru now)
     then 1 else 0).
Proof.
  unfold Sql.insert_message. cbn [messages with_messages].
  now rewrite SqlFacts.count_app, SqlFacts.count_single.
Qed.

(** A marker that stands before the first NUL of a subject is found by
    Python's [in] in the stripped subject, and by [LIKE] in the stored
    one. *)
Lemma marker_before_nul (s : string) :
  Text.contains marker (Text.c_str s) = true ->
  Text.contains marker (Text.strip s) = true
  /\ Text.ci_contains marker (Text.c_str (Text.strip s)) = true.
Proof.
  intros H. split.
  - apply marker_survives_strip. now apply TextFacts.contains_c_str.
  - apply TextFacts.contains_ci_contains.
    now apply TextFacts.contains_c_str_strip.
Qed.

Lemma new_row_is_request (ms : list Message) (u r cid : Z)
    (subj body mtype : string) (parent ru : option Z) (now : Z) :
  Text.ci_contains marker (Text.c_str subj) = true ->
  publication_request u r cid
    (Sql.new_row ms u r subj body mtype parent (Some cid) ru now) = true.
Proof.
  intros Hs. apply publication_request_spec. unfold live_request. cbn.
  repeat split; auto.
Qed.




(* ===================================================================== *)
(** ** The publication-request check *)
(* ===================================================================== *)

Lemma check_publication_request_healthy (env : Env) (st : Store) (cid : Z) :
  healthy env ->
  check_publication_request env st cid =
  (st, plain (Json 200
                [("exists",
                  VBool (0 <? Sql.count
                                (publication_request (session_user_id env) 1 cid)
                                (messages st)))])).
Proof.
  intros H. unfold check_publication_request. run_healthy H. reflexivity.
Qed.

(** C10 fails on the letter case: the subject is tested with [LIKE], which
    is blind to the case of ASCII letters.  User 5 has sent user 1 a
    request about content 3 under the subject "publication request";
    no subject in the store contains "Publication Request", and the
    check still answers that a request exists. *)
Lemma check_publication_request_ignores_case :
  let asked := mkMessage 1 5 1 "publication request: algebra" "Please publish."
                 "personal" None (Some 3) None 20 false None false false in
  let st := with_messages Sample.store [asked] in
  (forall m, In m (messages st) -> Text.contains marker (subject m) = false)
  /\ check_publication_request (Sample.env 5 50) st 3
     = (st, plain (Json 200 [("exists", VBool true)])).
Proof.
  split; [|reflexivity].
  intros m [<-|[]]. reflexivity.
Qed.

(** C10, amended.  On a working connection, for a content id in SQLite's
    integer range, the check answers [{exists: b}] and leaves the store
    alone, where [b] holds exactly when the store has a message from the
    requester to user 1 with that content id, with neither deletion flag
    set, and with a subject that has "Publication Request", in whatever
    case of its letters, before its first NUL character.  Requests to
    other receivers do not count: when every such request of the requester
    goes to someone other than user 1 the answer is false, although
    [send_message] refuses a further request to such a receiver [r] as a
    duplicate. *)
Theorem check_publication_request_admin_only (env : Env) (st : Store)
    (cid : Z) :
  healthy env -> sqlite_integer cid ->
  let u := session_user_id env in
  exists b : bool,
    check_publication_request env st cid
    = (st, plain (Json 200 [("exists", VBool b)]))
    /\ (b = true <->
        exists m, In m (messages st)
          /\ sender_id m = u /\ receiver_id m = 1
          /\ related_content_id m = Some cid
          /\ Text.ci_contains "Publication Request" (Text.c_str (subject m))
             = true
          /\ is_deleted_by_sender m = false
          /\ is_deleted_by_receiver m = false)
    /\ ((forall m, In m (messages st) ->
                   live_request u (receiver_id m) cid m -> receiver_id m <> 1)
        -> b = false)
    /\ (forall (d : SendPayload) (r : Z),
          p_receiver_id d = Some r -> r <> 0 -> sqlite_integer r ->
          p_related_content_id d = Some cid -> cid <> 0 ->
          Text.contains marker (p_subject d) = true ->
          Text.nonempty (Text.strip (p_content d)) = true ->
          (exists m, In m (messages st) /\ live_request u r cid m) ->
          send_message env st (Some d) = (st, json_error 400 duplicate_error)).
Proof.
  intros H _ u.
  exists (0 <? Sql.count (publication_request u 1 cid) (messages st)).
  assert (Hiff : (0 <? Sql.count (publication_request u 1 cid) (messages st))
                 = true
                 <-> exists m, In m (messages st) /\ live_request u 1 cid m).
  { rewrite SqlFacts.count_positive.
    split; intros (m & Hin & Hm); exists m; split; auto;
      now apply publication_request_spec. }
  split; [now apply check_publication_request_healthy|].
  split; [exact Hiff|]. split.
  - intros Hother.
    apply not_true_is_false. intros E.
    apply Hiff in E as (m & Hin & Hm).
    apply (Hother m Hin).
    + destruct Hm as (Hs & Hr1 & Hrest). unfold live_request.
      rewrite Hr1. auto.
    + now destruct Hm as (_ & Hr1 & _).
  - intros d r Hrecv Hr _ Hrel Hcid Hsubj Hbody (m & Hin & Hm).
    apply marker_survives_strip in Hsubj.
    rewrite (send_message_guarded env st d r cid) by assumption.
    fold u.
    assert (Hpos : (0 <? Sql.count (publication_request u r cid) (messages st))
                   = true).
    { apply SqlFacts.count_positive. exists m. split; auto.
      now apply publication_request_spec. }
    now rewrite Hpos.
Qed.

Lemma check_publication_request_admin_only_witness :
  let other := mkMessage 3 5 8 "PUBLICATION REQUEST" "Please publish."
                 "personal" None (Some 4) None 30 false None false false in
  let st := with_messages Sample.store
              [Sample.hello; Sample.request; other] in
  check_publication_request (Sample.env 5 50) st 3
  = (st, plain (Json 200 [("exists", VBool true)]))
  /\ check_publication_request (Sample.env 5 50) st 4
     = (st, plain (Json 200 [("exists", VBool false)]))
  /\ send_message (Sample.env 5 50) st
       (Some (mkPayload (Some 8) "Publication Request" "Again." (Some 4)))
     = (st, json_error 400 duplicate_error).
Proof.
  intros other st.
  assert (H3 : sqlite_integer 3) by (unfold sqlite_integer; lia).
  assert (H4 : sqlite_integer 4) by (unfold sqlite_integer; lia).
  assert (H8 : sqlite_integer 8) by (unfold sqlite_integer; lia).
  destruct (check_publication_request_admin_only (Sample.env 5 50) st 3
              eq_refl H3) as (b3 & E3 & Hiff & _).
  destruct (check_publication_request_admin_only (Sample.env 5 50) st 4
              eq_refl H4) as (b4 & E4 & _ & Hother & Hsend).
  assert (Hb3 : b3 = true).
  { apply Hiff. exists Sample.request. split; [simpl; auto|].
    repeat split. }
  assert (Hb4 : b4 = false).
  { apply Hother. cbn.
    intros m [<-|[<-|[<-|[]]]] (_ & _ & E & _); cbn in *;
      try discriminate E; lia. }
  rewrite Hb3 in E3. rewrite Hb4 in E4.
  split; [exact E3|]. split; [exact E4|].
  apply (Hsend _ 8); try reflexivity; try lia; try exact H8.
  exists other. split; [simpl; auto|]. repeat split.
Defined.

(* ===================================================================== *)
(** ** System messages *)
(* ===================================================================== *)

(** C9.  [send_system_message] always returns a boolean: true exactly when
    the connection opens and neither the [INSERT] nor the commit raises.
    When it returns true the store has gained exactly one message, whose
    sender is user 1 whatever the arguments, and whose other columns are
    the arguments and the defaults; no duplicate check stands in the way,
    so a publication request that is already there is simply doubled:
    what the guard of [send_message] would count goes up by one whenever
    its [LIKE] matches the subject, and stays otherwise.  When it returns
    false the store is as it was. *)
Theorem send_system_message_best_effort (env : Env) (st : Store)
    (receiver : Z) (subj body mtype : string) (rc ru : option Z) :
  let result := send_system_message env st receiver subj body mtype rc ru in
  let st' := fst result in
  snd result = undisturbed (conn env) 2
  /\ (snd result = true ->
      (exists m, messages st' = (messages st ++ [m])%list
         /\ sender_id m = 1 /\ receiver_id m = receiver
         /\ subject m = subj /\ content m = body /\ message_type m = mtype
         /\ related_content_id m = rc /\ related_user_id m = ru
         /\ parent_message_id m = None /\ sent_at m = clock env 0
         /\ is_read m = false /\ read_at m = None
         /\ is_deleted_by_sender m = false /\ is_deleted_by_receiver m = false)
      /\ message_notifications st' = message_notifications st
      /\ users st' = users st /\ contents st' = contents st
      /\ (forall cid, rc = Some cid ->
            Sql.count (publication_request 1 receiver cid) (messages st')
            = Sql.count (publication_request 1 receiver cid) (messages st)
              + (if Text.like marker_pattern subj then 1 else 0)))
  /\ (snd result = false -> st' = st).
Proof.
  intros result st'.
  assert (Hcases :
            (result = (Sql.insert_message 1 receiver subj body mtype None rc ru
                         (clock env 0) st, true)
             /\ undisturbed (conn env) 2 = true)
            \/ (result = (st, false) /\ undisturbed (conn env) 2 = false)).
  { unfold result, send_system_message, run_request.
    destruct (conn env) as [|[[n e]|]]; [now right| |now left].
    destruct n as [|[|n]]; [now right|now right|now left]. }
  destruct Hcases as [[E Hu]|[E Hu]]; subst st'; rewrite E, Hu; cbn [fst snd].
  - split; [reflexivity|]. split; [|discriminate].
    intros _. split; [|repeat split].
    + eexists. split; [reflexivity|]. cbn. repeat split.
    + intros cid ->. rewrite count_after_insert. f_equal.
      unfold publication_request. cbn [Sql.new_row sender_id receiver_id
        related_content_id subject is_deleted_by_sender is_deleted_by_receiver
        Sql.col_eq negb].
      now rewrite !Z.eqb_refl, !andb_true_r.
  - split; [reflexivity|]. split; [discriminate|reflexivity].
Qed.

(* ===================================================================== *)
(** ** Replies *)
(* ===================================================================== *)

Lemma replyable_by_spec (u mid : Z) (x : Message) :
  replyable_by u mid x = true
  <-> id x = mid /\ receiver_id x = u /\ is_deleted_by_receiver x = false.
Proof.
  unfold replyable_by.
  rewrite !andb_true_iff, negb_true_iff, !Z.eqb_eq. tauto.
Qed.

Lemma reply_message_sent (env : Env) (st : Store) (mid : Z)
    (form : list (string * string)) (original : Message) (body : string) :
  healthy env ->
  Sql.fetchone (replyable_by (session_user_id env) mid) (messages st)
  = Some original ->
  form_get form "content" = Some body ->
  Text.nonempty (Text.strip body) = true ->
  reply_message env st mid POST form =
  (Sql.insert_message (session_user_id env) (sender_id original)
     ("Re: " ++ subject original) (Text.strip body) "personal" (Some mid)
     None None (clock env 0) st,
   flashing "Reply sent successfully!" "success" (Redirect "messages.inbox")).
Proof.
  intros H Hf Hform Hbody. unfold reply_message. run_healthy H.
  rewrite Hf, Hform. cbn [option_map row_msg reply_row].
  rewrite Hbody. cbn [negb]. reflexivity.
Qed.

(** Without an original the requester may answer, nothing is written,
    whatever the method, the form and the state of the connection. *)
Lemma reply_message_inaccessible (env : Env) (st : Store) (mid : Z)
    (method : Method) (form : list (string * string)) :
  (forall x, In x (messages st) ->
             replyable_by (session_user_id env) mid x = false) ->
  fst (reply_message env st mid method form) = st.
Proof.
  intros Hnone. unfold reply_message, run_request.
  destruct (conn env) as [|[[n e]|]]; [reflexivity| |].
  - destruct n as [|n]; [reflexivity|].
    unfold bind, query, driver_call, connect. cbn.
    now rewrite (SqlFacts.fetchone_none _ _ Hnone).
  - unfold bind, query, driver_call, connect. cbn.
    now rewrite (SqlFacts.fetchone_none _ _ Hnone).
Qed.

(** C5.  The requester is the receiver of a message [original] of the
    store ([id] being the primary key) and has not deleted it: posting a
    reply whose content is not blank appends exactly one message, from the
    requester to the sender of the original, with "Re: " in front of the
    original subject, the original's id as parent and the current time as
    [sent_at], and changes nothing else.  For an id under which the
    requester has no such message, no request writes anything. *)
Theorem reply_message_threads (env : Env) (st : Store) (original : Message)
    (form : list (string * string)) (body : string) :
  healthy env -> primary_key (messages st) ->
  In original (messages st) ->
  receiver_id original = session_user_id env ->
  is_deleted_by_receiver original = false ->
  form_get form "content" = Some body ->
  Text.nonempty (Text.strip body) = true ->
  let st' := fst (reply_message env st (id original) POST form) in
  (exists reply,
      messages st' = (messages st ++ [reply])%list
      /\ sender_id reply = session_user_id env
      /\ receiver_id reply = sender_id original
      /\ subject reply = "Re: " ++ subject original
      /\ parent_message_id reply = Some (id original)
      /\ sent_at reply = clock env 0
      /\ content reply = Text.strip body
      /\ message_type reply = "personal"
      /\ is_read reply = false /\ read_at reply = None
      /\ is_deleted_by_sender reply = false
      /\ is_deleted_by_receiver reply = false)
  /\ message_notifications st' = message_notifications st
  /\ users st' = users st /\ contents st' = contents st
  /\ (forall (env' : Env) (other : Z) (method : Method)
             (form' : list (string * string)),
        (forall x, In x (messages st) ->
                   ~ (id x = other /\ receiver_id x = session_user_id env'
                      /\ is_deleted_by_receiver x = false)) ->
        fst (reply_message env' st other method form') = st).
Proof.
  intros H Hpk Hin Hrecv Hdel Hform Hbody st'.
  assert (Hf : Sql.fetchone (replyable_by (session_user_id env) (id original))
                 (messages st) = Some original).
  { apply SqlFacts.fetchone_primary_key; auto.
    - apply replyable_by_spec. auto.
    - intros x Hx. now apply replyable_by_spec in Hx. }
  subst st'. rewrite (reply_message_sent env st _ form original body) by auto.
  cbn [fst]. split; [|repeat split].
  - eexists. split; [reflexivity|]. cbn. repeat split.
  - intros env' other method form' Hnone.
    apply reply_message_inaccessible. intros x Hx.
    apply not_true_is_false. intros E. apply replyable_by_spec in E.
    exact (Hnone x Hx E).
Qed.

Lemma reply_message_threads_witness :
  let st' := fst (reply_message (Sample.env 8 60) Sample.store 1 POST
                    [("content", String "194" (String "160" " Thanks "))]) in
  (exists reply,
      messages st' = (messages Sample.store ++ [reply])%list
      /\ sender_id reply = 8
      /\ receiver_id reply = 5
      /\ subject reply = "Re: Hello"
      /\ parent_message_id reply = Some 1
      /\ sent_at reply = 60
      /\ content reply = "Thanks"
      /\ message_type reply = "personal"
      /\ is_read reply = false /\ read_at reply = None
      /\ is_deleted_by_sender reply = false
      /\ is_deleted_by_receiver reply = false)
  /\ message_notifications st' = message_notifications Sample.store
  /\ users st' = users Sample.store /\ contents st' = contents Sample.store
  /\ (forall (env' : Env) (other : Z) (method : Method)
             (form' : list (string * string)),
        (forall x, In x (messages Sample.store) ->
                   ~ (id x = other /\ receiver_id x = session_user_id env'
                      /\ is_deleted_by_receiver x = false)) ->
        fst (reply_message env' Sample.store other method form')
        = Sample.store).
Proof.
  apply (reply_message_threads (Sample.env 8 60) Sample.store Sample.hello
           [("content", String "194" (String "160" " Thanks "))]
           (String "194" (String "160" " Thanks "))).
  - reflexivity.
  - exact sample_primary_key.
  - simpl. auto.
  - reflexivity.
  - reflexivity.
  - reflexivity.
  - reflexivity.
Defined.

(* ===================================================================== *)
(** ** The inbox *)
(* ===================================================================== *)

Lemma inbox_healthy (env : Env) (st : Store) :
  healthy env ->
  inbox env st =
  (st, plain (Render "messages/inbox.html"
                [("received_messages",
                  VRows (received_messages st (session_user_id env)));
                 ("sent_messages",
                  VRows (sent_messages st (session_user_id env)));
                 ("unread_count",
                  VInt (get_unread_count env st (session_user_id env)))])).
Proof.
  intros H. unfold inbox. run_healthy H. reflexivity.
Qed.

Lemma later_first_trans : RelationClasses.Transitive later_first.
Proof. unfold later_first. intros a b c Hab Hbc. lia. Qed.

Section Listing.
Variables (keep : Message -> bool) (join : Message -> Row).
Hypothesis join_msg : forall m, row_msg (join m) = m.

Lemma listing_rows (ms : list Message) :
  map row_msg (listing keep join ms) = Sql.order_by_sent_at_desc (filter keep ms).
Proof.
  unfold listing. rewrite map_map. rewrite (map_ext _ (fun m => m) join_msg).
  apply map_id.
Qed.

Lemma listing_sorted (ms : list Message) :
  StronglySorted later_first (map row_msg (listing keep join ms)).
Proof.
  rewrite listing_rows. apply Sorted_StronglySorted.
  - exact later_first_trans.
  - apply SqlFacts.order_by_sorted.
Qed.

Lemma listing_perm (ms : list Message) :
  Permutation (map row_msg (listing keep join ms)) (filter keep ms).
Proof.
  rewrite listing_rows. symmetry. apply SqlFacts.order_by_perm.
Qed.

Lemma listing_In (ms : list Message) (m : Message) :
  In m (map row_msg (listing keep join ms)) <-> In m ms /\ keep m = true.
Proof.
  rewrite <- filter_In. split; apply Permutation_in.
  - apply listing_perm.
  - symmetry. apply listing_perm.
Qed.

End Listing.

Lemma received_by_spec (u : Z) (m : Message) :
  received_by u m = true
  <-> receiver_id m = u /\ is_deleted_by_receiver m = false.
Proof.
  unfold received_by. now rewrite andb_true_iff, negb_true_iff, Z.eqb_eq.
Qed.

Lemma sent_by_spec (u : Z) (m : Message) :
  sent_by u m = true <-> sender_id m = u /\ is_deleted_by_sender m = false.
Proof.
  unfold sent_by. now rewrite andb_true_iff, negb_true_iff, Z.eqb_eq.
Qed.

(** C7.  On a working connection the inbox page gets two lists, each with
    later messages before earlier ones.  The rows of the first are, with
    their multiplicity, the messages of the store that the user received
    and has not deleted as receiver; the rows of the second those the user
    sent and has not deleted as sender.  So a message its sender has
    deleted is still listed for its receiver, and the other way round.
    The store is unchanged. *)
Theorem inbox_listing (env : Env) (st : Store) :
  healthy env ->
  let u := session_user_id env in
  exists (received sent : list Row) (unread : Z),
    inbox env st =
    (st, plain (Render "messages/inbox.html"
                  [("received_messages", VRows received);
                   ("sent_messages", VRows sent);
                   ("unread_count", VInt unread)]))
    /\ StronglySorted later_first (map row_msg received)
    /\ StronglySorted later_first (map row_msg sent)
    /\ Permutation (map row_msg received)
         (filter (received_by u) (messages st))
    /\ Permutation (map row_msg sent) (filter (sent_by u) (messages st))
    /\ (forall m, In m (map row_msg received) <->
                  In m (messages st) /\ receiver_id m = u
                  /\ is_deleted_by_receiver m = false)
    /\ (forall m, In m (map row_msg sent) <->
                  In m (messages st) /\ sender_id m = u
                  /\ is_deleted_by_sender m = false)
    /\ (forall m, In m (messages st) -> receiver_id m = u ->
                  is_deleted_by_sender m = true ->
                  is_deleted_by_receiver m = false ->
                  In m (map row_msg received))
    /\ (forall m, In m (messages st) -> sender_id m = u ->
                  is_deleted_by_receiver m = true ->
                  is_deleted_by_sender m = false ->
                  In m (map row_msg sent)).
Proof.
  intros H u.
  exists (received_messages st u), (sent_messages st u),
    (get_unread_count env st u).
  assert (Hrecv : forall m, In m (map row_msg (received_messages st u)) <->
                            In m (messages st) /\ receiver_id m = u
                            /\ is_deleted_by_receiver m = false).
  { intros m. unfold received_messages.
    rewrite (listing_In (received_by u) (received_row st)) by reflexivity.
    now rewrite received_by_spec. }
  assert (Hsent : forall m, In m (map row_msg (sent_messages st u)) <->
                            In m (messages st) /\ sender_id m = u
                            /\ is_deleted_by_sender m = false).
  { intros m. unfold sent_messages.
    rewrite (listing_In (sent_by u) (sent_row st)) by reflexivity.
    now rewrite sent_by_spec. }
  split; [now apply inbox_healthy|].
  split; [apply (listing_sorted (received_by u) (received_row st)); reflexivity|].
  split; [apply (listing_sorted (sent_by u) (sent_row st)); reflexivity|].
  split; [apply (listing_perm (received_by u) (received_row st)); reflexivity|].
  split; [apply (listing_perm (sent_by u) (sent_row st)); reflexivity|].
  split; [exact Hrecv|]. split; [exact Hsent|]. split.
  - intros m Hin Hr _ Hd. apply Hrecv. auto.
  - intros m Hin Hs _ Hd. apply Hsent. auto.
Qed.

Lemma inbox_listing_witness :
  exists (received sent : list Row) (unread : Z),
    inbox (Sample.env 8 70) Sample.store =
    (Sample.store,
     plain (Render "messages/inbox.html"
              [("received_messages", VRows received);
               ("sent_messages", VRows sent);
               ("unread_count", VInt unread)]))
    /\ StronglySorted later_first (map row_msg received)
    /\ StronglySorted later_first (map row_msg sent)
    /\ Permutation (map row_msg received)
         (filter (received_by 8) (messages Sample.store))
    /\ Permutation (map row_msg sent)
         (filter (sent_by 8) (messages Sample.store))
    /\ (forall m, In m (map row_msg received) <->
                  In m (messages Sample.store) /\ receiver_id m = 8
                  /\ is_deleted_by_receiver m = false)
    /\ (forall m, In m (map row_msg sent) <->
                  In m (messages Sample.store) /\ sender_id m = 8
                  /\ is_deleted_by_sender m = false)
    /\ (forall m, In m (messages Sample.store) -> receiver_id m = 8 ->
                  is_deleted_by_sender m = true ->
                  is_deleted_by_receiver m = false ->
                  In m (map row_msg received))
    /\ (forall m, In m (messages Sample.store) -> sender_id m = 8 ->
                  is_deleted_by_receiver m = true ->
                  is_deleted_by_sender m = false ->
                  In m (map row_msg sent)).
Proof.
  apply (inbox_listing (Sample.env 8 70) Sample.store). reflexivity.
Defined.

(* ===================================================================== *)
(** ** Notification settings *)
(* ===================================================================== *)

Lemma update_notification_settings_healthy (env : Env) (st : Store)
    (form : list (string * string)) :
  healthy env ->
  update_notification_settings env st form =
  (update_one env form 3 "content_feedback"
     (update_one env form 2 "system_announcement"
        (update_one env form 1 "message_reply"
           (update_one env form 0 "new_message" st))),
   flashing "Notification settings updated successfully!" "success"
     (Redirect "messages.notification_settings")).
Proof.
  intros H. unfold update_notification_settings, notification_types.
  cbn [update_each]. run_healthy H. reflexivity.
Qed.

Lemma update_one_rows (env : Env) (form : list (string * string)) (k : nat)
    (key : string) (s : Store) :
  message_notifications (update_one env form k key s)
  = map (turn env form k key) (message_notifications s).
Proof. reflexivity. Qed.

(** An [UPDATE] for a key under which the user has no row is a no-op. *)
Lemma update_one_missing (env : Env) (form : list (string * string)) (k : nat)
    (key : string) (s : Store) :
  (forall r, In r (message_notifications s) ->
             ~ (ns_user_id r = session_user_id env
                /\ notification_type r = key)) ->
  update_one env form k key s = s.
Proof.
  intros Hnone. unfold update_one.
  rewrite SqlFacts.update_untouched; [now destruct s|].
  intros r Hr. apply not_true_is_false. intros E.
  apply andb_true_iff in E as [Eu Ek].
  apply Z.eqb_eq in Eu. apply String.eqb_eq in Ek.
  exact (Hnone r Hr (conj Eu Ek)).
Qed.

Lemma form_on_spec (form : list (string * string)) (key : string) :
  form_on form key = true <-> form_get form key = Some "on".
Proof.
  unfold form_on. destruct (form_get form key) as [v|].
  - rewrite String.eqb_eq. split; congruence.
  - split; discriminate.
Qed.

Ltac which_turn k Hk :=
  destruct k as [|[|[|[|k]]]]; cbn in Hk;
  try discriminate Hk; try (destruct k; discriminate Hk).

Ltac matched_turn :=
  repeat (progress (cbn; rewrite ?Z.eqb_refl));
  split; [reflexivity|]; split; [reflexivity|]; split;
  [ let k := fresh "k" in let Hk := fresh "Hk" in
    intros _ k Hk; which_turn k Hk;
    repeat split; try apply form_on_spec; auto
  | let Hn := fresh "Hn" in
    intros Hn; exfalso; apply Hn; tauto ].

Ltac next_turn :=
  cbn [ns_user_id notification_type]; rewrite ?Z.eqb_refl; cbn [andb].

Lemma loop_on_row (env : Env) (form : list (string * string))
    (r : NotificationSetting) :
  settings_updated env form r
    (turn env form 3 "content_feedback"
       (turn env form 2 "system_announcement"
          (turn env form 1 "message_reply"
             (turn env form 0 "new_message" r)))).
Proof.
  destruct r as [ru rt re rm rtm]. unfold settings_updated, turn.
  cbn [ns_user_id notification_type].
  destruct (ru =? session_user_id env) eqn:Eu; cbn [andb].
  - apply Z.eqb_eq in Eu. subst ru.
    destruct (String.eqb rt "new_message") eqn:E0.
    { apply String.eqb_eq in E0. subst rt. matched_turn. }
    next_turn. destruct (String.eqb rt "message_reply") eqn:E1.
    { apply String.eqb_eq in E1. subst rt. matched_turn. }
    next_turn. destruct (String.eqb rt "system_announcement") eqn:E2.
    { apply String.eqb_eq in E2. subst rt. matched_turn. }
    next_turn. destruct (String.eqb rt "content_feedback") eqn:E3.
    { apply String.eqb_eq in E3. subst rt. matched_turn. }
    apply String.eqb_neq in E0, E1, E2, E3.
    split; [reflexivity|]. split; [reflexivity|]. split; [|reflexivity].
    intros _ k Hk. exfalso.
    destruct k as [|[|[|[|k]]]]; cbn in Hk; try congruence.
    destruct k; discriminate Hk.
  - repeat (progress (cbn [ns_user_id notification_type andb]; rewrite ?Eu)).
    apply Z.eqb_neq in Eu.
    split; [reflexivity|]. split; [reflexivity|]. split; [|reflexivity].
    intros E. contradiction.
Qed.

Lemma Forall2_map_fun {A : Type} (R : A -> A -> Prop) (f : A -> A)
    (l : list A) :
  (forall x, R x (f x)) -> Forall2 R l (map f l).
Proof. intros H. induction l; cbn; constructor; auto. Qed.

Lemma missing_key_untouched (env : Env) (form : list (string * string))
    (key : string) (before after : list NotificationSetting) :
  Forall2 (settings_updated env form) before after ->
  (forall r, In r before ->
             ~ (ns_user_id r = session_user_id env
                /\ notification_type r = key)) ->
  filter (of_key key) after = filter (of_key key) before
  /\ (forall r', In r' after ->
                 ~ (ns_user_id r' = session_user_id env
                    /\ notification_type r' = key)).
Proof.
  induction 1 as [|r r' l l' Hr Hl IH]; intros Hnone; [split; auto|].
  destruct IH as [IHf IHn]; [intros x Hx; apply Hnone; now right|].
  destruct Hr as (Hu & Ht & _ & Hkeep).
  assert (Hmine : ~ (ns_user_id r = session_user_id env
                     /\ notification_type r = key))
    by (apply Hnone; now left).
  split.
  - cbn [filter].
    assert (Ek : of_key key r' = of_key key r)
      by (unfold of_key; now rewrite Ht).
    rewrite Ek. destruct (of_key key r) eqn:E; [|exact IHf].
    apply String.eqb_eq in E. rewrite Hkeep, IHf; [reflexivity|].
    intros [Hu' _]. apply Hmine. auto.
  - intros x [<-|Hx]; [|now apply IHn].
    rewrite Hu, Ht. exact Hmine.
Qed.

(** C8.  On a working connection the update runs through the four keys
    [new_message], [message_reply], [system_announcement] and
    [content_feedback].  Each row of the requester under one of these keys
    gets [is_enabled] from the form field [<key>_enabled] and
    [email_enabled] from [<key>_email] (true exactly for the value "on")
    and the time of that turn; every other row is left as it was, and the
    table has the same rows in the same places, with the same user and key
    each, so no row is created.  For a key under which the requester has
    no row, the [UPDATE] of that turn changes nothing, there is still no
    such row afterwards, and the rows under that key are what they were.
    The other tables are untouched. *)
Theorem update_notification_settings_update_only (env : Env) (st : Store)
    (form : list (string * string)) :
  healthy env ->
  let u := session_user_id env in
  let st' := fst (update_notification_settings env st form) in
  Forall2 (settings_updated env form)
    (message_notifications st) (message_notifications st')
  /\ messages st' = messages st /\ users st' = users st
  /\ contents st' = contents st
  /\ (forall key,
        (forall r, In r (message_notifications st) ->
                   ~ (ns_user_id r = u /\ notification_type r = key)) ->
        (forall k, update_one env form k key st = st)
        /\ (forall r', In r' (message_notifications st') ->
                       ~ (ns_user_id r' = u /\ notification_type r' = key))
        /\ filter (of_key key) (message_notifications st')
           = filter (of_key key) (message_notifications st)).
Proof.
  intros H u st'.
  assert (Hrows : Forall2 (settings_updated env form)
                    (message_notifications st) (message_notifications st')).
  { subst st'. rewrite update_notification_settings_healthy by assumption.
    cbn [fst]. rewrite !update_one_rows, !map_map.
    apply Forall2_map_fun. apply loop_on_row. }
  split; [exact Hrows|].
  split; [|split; [|split]];
    try (subst st'; rewrite update_notification_settings_healthy by assumption;
         reflexivity).
  intros key Hnone.
  destruct (missing_key_untouched env form key _ _ Hrows Hnone) as [Hf Hn].
  split; [|split]; auto.
  intros k. now apply update_one_missing.
Qed.

Lemma update_notification_settings_update_only_witness :
  let env := Sample.env 8 80 in
  let form := [("new_message_enabled", "on"); ("message_reply_email", "on")] in
  let st' := fst (update_notification_settings env Sample.store form) in
  message_notifications st'
  = [mkSetting 8 "new_message" true false 80;
     mkSetting 5 "new_message" true false 0]
  /\ messages st' = messages Sample.store /\ users st' = users Sample.store
  /\ contents st' = contents Sample.store
  /\ filter (of_key "message_reply") (message_notifications st') = [].
Proof.
  intros env form st'.
  destruct (update_notification_settings_update_only env Sample.store form
              eq_refl) as (Hrows & Hm & Hu & Hc & Hkey).
  fold st' in Hrows, Hm, Hu, Hc, Hkey.
  split; [|split; [exact Hm|split; [exact Hu|split; [exact Hc|]]]].
  - remember (message_notifications st') as rows eqn:E. clear E.
    cbn [Sample.store message_notifications] in Hrows.
    inversion Hrows as [|r1 r1' l l' H1 Hrest]; subst.
    inversion Hrest as [|r2 r2' l2 l2' H2 Hnil]; subst.
    inversion Hnil; subst.
    destruct H1 as (Hu1 & Ht1 & Hset & _).
    destruct (Hset eq_refl 0%nat eq_refl) as (He & Hem & Hat).
    destruct H2 as (_ & _ & _ & Hkeep).
    rewrite Hkeep by (cbn; intros [E _]; discriminate E).
    destruct r1' as [u t e m a]. cbn in Hu1, Ht1, He, Hem, Hat.
    subst u t a.
    assert (Ee : e = true) by (now apply He).
    assert (Em : m = false)
      by (destruct m; [destruct Hem as [Hem _]; discriminate (Hem eq_refl)
                      |reflexivity]).
    now rewrite Ee, Em.
  - destruct (Hkey "message_reply") as (_ & _ & Hf).
    + cbn. intros r [<-|[<-|[]]] [_ E]; discriminate E.
    + exact Hf.
Defined.

(* ===================================================================== *)
(** ** Running a body on any connection *)
(* ===================================================================== *)

Section AnyConnection.
Context {A B : Type}.
Variables (a b : Store) (n : nat) (f : option (nat * string)).

Lemma bind_query_due (q : Store -> A) (k : A -> DB B) :
  bind (query q) k (mkConn a b n f) =
  match due f n with
  | Some e => Raised e (mkConn a b (S n) f)
  | None => k (q b) (mkConn a b (S n) f)
  end.
Proof.
  unfold query, bind, driver_call, due.
  destruct f as [[i e]|]; cbv beta iota delta [conn_fault calls];
    [destruct (Nat.eqb i n)|]; reflexivity.
Qed.

Lemma bind_execute_due (g : Store -> Store) (k : unit -> DB B) :
  bind (execute g) k (mkConn a b n f) =
  match due f n with
  | Some e => Raised e (mkConn a b (S n) f)
  | None => k tt (mkConn a (g b) (S n) f)
  end.
Proof.
  unfold execute, bind, driver_call, due.
  destruct f as [[i e]|]; cbv beta iota delta [conn_fault calls];
    [destruct (Nat.eqb i n)|]; reflexivity.
Qed.

Lemma bind_commit_due (k : unit -> DB B) :
  bind commit k (mkConn a b n f) =
  match due f n with
  | Some e => Raised e (mkConn a b (S n) f)
  | None => k tt (mkConn b b (S n) f)
  end.
Proof.
  unfold commit, bind, driver_call, due.
  destruct f as [[i e]|]; cbv beta iota delta [conn_fault calls];
    [destruct (Nat.eqb i n)|]; reflexivity.
Qed.

End AnyConnection.

Lemma due_none (n : nat) : due None n = None.
Proof. reflexivity. Qed.

Create Rewrite HintDb anydb.
#[local] Hint Rewrite @bind_ret @bind_peek @bind_query_due @bind_execute_due
  @bind_commit_due : anydb.

(** Run the next statement of a body, whatever the connection does. *)
Ltac db_any :=
  repeat first [ rewrite bind_assoc
               | progress autorewrite with anydb
               | progress cbv beta ].

(** The fault is due at the next call, or it is not. *)
Ltac next_call :=
  match goal with
  | |- context [due ?f ?n] => destruct (due f n) as [?e|] eqn:?Hdue
  end.

(* ===================================================================== *)
(** ** What each handler can leave behind *)
(* ===================================================================== *)

Lemma view_message_cases (env : Env) (st : Store) (mid : Z) :
  let u := session_user_id env in
  let r := view_message env st mid in
  fst r = st
  \/ exists m,
       Sql.fetchone (visible_to u mid) (messages st) = Some m
       /\ receiver_id m = u /\ is_read m = false
       /\ r = (marked_read (clock env 0) mid st,
               plain (Render "messages/view.html"
                        [("message", VRow (view_row st m))])).
Proof.
  intros u r. subst r. unfold view_message, run_request.
  destruct (conn env) as [|f]; [now left|]. unfold connect. db_any.
  next_call; [now left|]. fold u.
  destruct (Sql.fetchone (visible_to u mid) (messages st)) as [m|] eqn:Hm;
    cbn [option_map]; [|now left].
  cbn [row_msg view_row].
  destruct ((receiver_id m =? u) && negb (is_read m)) eqn:Hc; db_any;
    [|now left].
  next_call; [now left|]. next_call; [now left|].
  apply andb_true_iff in Hc as [Hr Hu]. apply Z.eqb_eq in Hr.
  apply negb_true_iff in Hu. right. exists m. auto.
Qed.

Lemma mark_as_read_cases (env : Env) (st : Store) (mid : Z) :
  let u := session_user_id env in
  let st' := marked_read_for u (clock env 0) mid st in
  let r := mark_as_read env st mid in
  fst r = st
  \/ r = (st', plain (Json 200 [("success", VBool true);
                                ("unread_count",
                                 VInt (get_unread_count env st' u))])).
Proof.
  intros u st' r. subst r. unfold mark_as_read, run_request.
  destruct (conn env) as [|f]; [now left|]. unfold connect. db_any.
  next_call; [now left|]. next_call; [now left|]. now right.
Qed.

Lemma delete_message_cases (env : Env) (st : Store) (mid : Z) :
  let u := session_user_id env in
  let r := delete_message env st mid in
  fst r = st
  \/ (exists m, Sql.fetchone (fun x => id x =? mid) (messages st) = Some m
                /\ sender_id m = u
                /\ r = (deleted_by_sender mid st, json_success))
  \/ (exists m, Sql.fetchone (fun x => id x =? mid) (messages st) = Some m
                /\ sender_id m <> u /\ receiver_id m = u
                /\ r = (deleted_by_receiver mid st, json_success)).
Proof.
  intros u r. subst r. unfold delete_message, run_request.
  destruct (conn env) as [|f]; [now left|]. unfold connect. db_any.
  next_call; [now left|]. fold u.
  destruct (Sql.fetchone (fun x => id x =? mid) (messages st)) as [m|] eqn:Hm;
    [|now left].
  destruct (sender_id m =? u) eqn:Hs.
  - db_any. next_call; [now left|]. next_call; [now left|].
    apply Z.eqb_eq in Hs. right. left. exists m. auto.
  - destruct (receiver_id m =? u) eqn:Hr; [|now left].
    db_any. next_call; [now left|]. next_call; [now left|].
    apply Z.eqb_neq in Hs. apply Z.eqb_eq in Hr.
    right. right. exists m. auto.
Qed.

Lemma reply_message_cases (env : Env) (st : Store) (mid : Z) (method : Method)
    (form : list (string * string)) :
  let u := session_user_id env in
  let r := reply_message env st mid method form in
  fst r = st
  \/ exists original body,
       Sql.fetchone (replyable_by u mid) (messages st) = Some original
       /\ method = POST
       /\ form_get form "content" = Some body
       /\ Text.nonempty (Text.strip body) = true
       /\ r = (Sql.insert_message u (sender_id original)
                 ("Re: " ++ subject original) (Text.strip body) "personal"
                 (Some mid) None None (clock env 0) st,
               flashing "Reply sent successfully!" "success"
                 (Redirect "messages.inbox")).
Proof.
  intros u r. subst r. unfold reply_message, run_request.
  destruct (conn env) as [|f]; [now left|]. unfold connect. db_any.
  next_call; [now left|]. fold u.
  destruct (Sql.fetchone (replyable_by u mid) (messages st)) as [m|] eqn:Hm;
    cbn [option_map]; [|now left].
  destruct method; [now left|]. cbn [row_msg reply_row].
  destruct (form_get form "content") as [body|] eqn:Hform; [|now left].
  destruct (Text.nonempty (Text.strip body)) eqn:Hbody; cbn [negb];
    [|now left].
  unfold try_except. db_any.
  next_call; [now left|]. next_call; [now left|].
  right. exists m, body. auto.
Qed.

Lemma send_message_cases (env : Env) (st : Store) (data : option SendPayload) :
  let u := session_user_id env in
  let r := send_message env st data in
  fst r = st
  \/ exists d receiver,
       data = Some d /\ p_receiver_id d = Some receiver /\ receiver <> 0
       /\ Text.nonempty (Text.strip (p_subject d)) = true
       /\ Text.nonempty (Text.strip (p_content d)) = true
       /\ r = (Sql.insert_message u receiver (Text.strip (p_subject d))
                 (Text.strip (p_content d)) "personal" None
                 (p_related_content_id d) None (clock env 0) st,
               sent_ok).
Proof.
  intros u r. subst r. unfold send_message.
  destruct data as [d|]; [|now left].
  destruct (p_receiver_id d) as [receiver|] eqn:Hrecv; [|now left].
  destruct (receiver =? 0) eqn:Hz; cbn [negb andb]; [now left|].
  destruct (Text.nonempty (Text.strip (p_subject d))) eqn:Hs; cbn [andb];
    [|now left].
  destruct (Text.nonempty (Text.strip (p_content d))) eqn:Hb; [|now left].
  apply Z.eqb_neq in Hz.
  unfold run_request. destruct (conn env) as [|f]; [now left|].
  unfold connect. fold u.
  destruct (p_related_content_id d) as [cid|] eqn:Hrel.
  - destruct (Text.contains marker (Text.strip (p_subject d)) && negb (cid =? 0)).
    + db_any. next_call; [now left|].
      destruct (0 <? Sql.count (publication_request u receiver cid) (messages st));
        [now left|].
      db_any. next_call; [now left|]. next_call; [now left|].
      right. exists d, receiver. rewrite Hrel. auto 10.
    + db_any. cbn [Z.ltb Z.compare]. db_any.
      next_call; [now left|]. next_call; [now left|].
      right. exists d, receiver. rewrite Hrel. auto 10.
  - db_any. cbn [Z.ltb Z.compare]. db_any.
    next_call; [now left|]. next_call; [now left|].
    right. exists d, receiver. rewrite Hrel. auto 10.
Qed.

Lemma update_notification_settings_cases (env : Env) (st : Store)
    (form : list (string * string)) :
  let r := update_notification_settings env st form in
  fst r = st
  \/ r = (settings_saved env form st,
          flashing "Notification settings updated successfully!" "success"
            (Redirect "messages.notification_settings")).
Proof.
  intros r. subst r.
  unfold update_notification_settings, notification_types, run_request.
  destruct (conn env) as [|f]; [now left|]. unfold connect.
  cbn [update_each]. db_any.
  do 5 (next_call; [now left|]). now right.
Qed.

Lemma inbox_reads_only (env : Env) (st : Store) : fst (inbox env st) = st.
Proof.
  unfold inbox, run_request. destruct (conn env) as [|f]; [reflexivity|].
  unfold connect. db_any. next_call; [reflexivity|]. now next_call.
Qed.

Lemma check_publication_request_reads_only (env : Env) (st : Store) (cid : Z) :
  fst (check_publication_request env st cid) = st.
Proof.
  unfold check_publication_request, run_request.
  destruct (conn env) as [|f]; [reflexivity|].
  unfold connect. db_any. now next_call.
Qed.

(* ===================================================================== *)
(** ** Histories of rows and stores *)
(* ===================================================================== *)

Lemma Forall2_same {A : Type} (R : A -> A -> Prop) (l : list A) :
  (forall x, In x l -> R x x) -> Forall2 R l l.
Proof.
  induction l as [|x l IH]; intros H; constructor.
  - apply H. now left.
  - apply IH. intros y Hy. apply H. now right.
Qed.

Lemma Forall2_update {A : Type} (R : A -> A -> Prop) (cond : A -> bool)
    (f : A -> A) (l : list A) :
  (forall x, In x l -> R x (if cond x then f x else x)) ->
  Forall2 R l (Sql.update cond f l).
Proof.
  induction l as [|x l IH]; intros H; cbn; constructor.
  - apply H. now left.
  - apply IH. intros y Hy. apply H. now right.
Qed.

Lemma Forall2_trans {A : Type} (R : A -> A -> Prop) :
  (forall x y z, R x y -> R y z -> R x z) ->
  forall l1 l2 l3, Forall2 R l1 l2 -> Forall2 R l2 l3 -> Forall2 R l1 l3.
Proof.
  intros Ht l1 l2 l3 H12. revert l3.
  induction H12 as [|x y l1 l2 Hxy _ IH]; intros l3 H23;
    inversion H23; subst; constructor; eauto.
Qed.

Lemma Forall2_weaken {A : Type} (R S : A -> A -> Prop) (l1 l2 : list A) :
  (forall x y, R x y -> S x y) -> Forall2 R l1 l2 -> Forall2 S l1 l2.
Proof. intros H. induction 1; constructor; auto. Qed.

Lemma same_letter_refl (m : Message) : same_letter m m.
Proof. unfold same_letter. tauto. Qed.

Lemma same_letter_trans (a b c : Message) :
  same_letter a b -> same_letter b c -> same_letter a c.
Proof. unfold same_letter. intuition congruence. Qed.

Lemma row_history_refl (m : Message) : row_history m m.
Proof. unfold row_history. pose proof (same_letter_refl m). tauto. Qed.

Lemma row_history_trans (a b c : Message) :
  row_history a b -> row_history b c -> row_history a c.
Proof.
  unfold row_history. intros (L1 & ?) (L2 & ?).
  pose proof (same_letter_trans _ _ _ L1 L2). tauto.
Qed.

Lemma row_step_refl (u : Z) (m : Message) : row_step u m m.
Proof.
  unfold row_step. pose proof (row_history_refl m). intuition congruence.
Qed.

Lemma row_step_history (u : Z) (m m' : Message) :
  row_step u m m' -> row_history m m'.
Proof. now intros [H _]. Qed.

Lemma row_step_read (u t : Z) (m : Message) :
  receiver_id m = u -> row_step u m (set_read t m).
Proof.
  intros Hr. unfold row_step, row_history, same_letter. cbn.
  repeat split; auto; congruence.
Qed.

Lemma row_step_deleted_by_sender (u : Z) (m : Message) :
  sender_id m = u -> row_step u m (set_deleted_by_sender m).
Proof.
  intros Hs. unfold row_step, row_history, same_letter. cbn.
  repeat split; auto; try congruence; intuition congruence.
Qed.

Lemma row_step_deleted_by_receiver (u : Z) (m : Message) :
  receiver_id m = u -> row_step u m (set_deleted_by_receiver m).
Proof.
  intros Hr. unfold row_step, row_history, same_letter. cbn.
  repeat split; auto; try congruence; intuition congruence.
Qed.

Lemma store_step_refl (u : Z) (st : Store) : store_step u st st.
Proof.
  unfold store_step. repeat split.
  - apply Forall2_same. auto.
  - exists (messages st), []. rewrite app_nil_r. repeat split.
    + apply Forall2_same. intros. apply row_step_refl.
    + constructor.
    + cbn. lia.
Qed.

Lemma store_step_update (u : Z) (cond : Message -> bool)
    (f : Message -> Message) (st : Store) :
  (forall m, In m (messages st) -> cond m = true -> row_step u m (f m)) ->
  store_step u st (with_messages st (Sql.update cond f (messages st))).
Proof.
  intros H. unfold store_step. cbn [users contents message_notifications
                                     messages with_messages].
  repeat split.
  - apply Forall2_same. auto.
  - exists (Sql.update cond f (messages st)), []. rewrite app_nil_r.
    repeat split.
    + apply Forall2_update. intros m Hin.
      destruct (cond m) eqn:E; [now apply H | apply row_step_refl].
    + constructor.
    + cbn. lia.
Qed.

Lemma store_step_insert (u receiver : Z) (subj body mtype : string)
    (parent rc ru : option Z) (now : Z) (st : Store) :
  store_step u st
    (Sql.insert_message u receiver subj body mtype parent rc ru now st).
Proof.
  unfold store_step, Sql.insert_message.
  cbn [users contents message_notifications messages with_messages].
  repeat split.
  - apply Forall2_same. auto.
  - eexists (messages st), [_]. repeat split.
    + apply Forall2_same. intros. apply row_step_refl.
    + constructor; [|constructor]. unfold fresh_from. cbn. tauto.
    + cbn. lia.
Qed.

Lemma store_step_settings (env : Env) (form : list (string * string))
    (st : Store) :
  store_step (session_user_id env) st (settings_saved env form st).
Proof.
  unfold store_step, settings_saved. repeat split.
  - rewrite !update_one_rows, !map_map. apply Forall2_map_fun.
    intros r. destruct (loop_on_row env form r) as (Hu & Ht & _ & Hkeep).
    repeat split; auto. intros Hother. apply Hkeep. tauto.
  - exists (messages st), []. rewrite app_nil_r. repeat split.
    + apply Forall2_same. intros. apply row_step_refl.
    + constructor.
    + cbn. lia.
Qed.

Lemma store_step_history (u : Z) (st st' : Store) :
  store_step u st st' -> store_history st st'.
Proof.
  intros (Hu & Hc & Hn & kept & added & Hm & Hk & _).
  unfold store_history. repeat split; auto.
  - eapply Forall2_weaken; [|exact Hn]. cbv beta. tauto.
  - exists kept, added. split; [assumption|].
    eapply Forall2_weaken; [|exact Hk]. apply row_step_history.
Qed.

Lemma store_history_refl (st : Store) : store_history st st.
Proof. apply (store_step_history 0). apply store_step_refl. Qed.

Lemma store_history_trans (a b c : Store) :
  store_history a b -> store_history b c -> store_history a c.
Proof.
  intros (Hu1 & Hc1 & Hn1 & k1 & a1 & Hm1 & Hk1)
         (Hu2 & Hc2 & Hn2 & k2 & a2 & Hm2 & Hk2).
  unfold store_history. repeat split; try congruence.
  - eapply Forall2_trans; [|exact Hn1|exact Hn2].
    cbv beta. intuition congruence.
  - rewrite Hm1 in Hk2.
    apply Forall2_app_inv_l in Hk2 as (k2' & rest & Hk2' & _ & ->).
    exists k2', (rest ++ a2)%list. split.
    + rewrite Hm2. now rewrite app_assoc.
    + eapply Forall2_trans; [|exact Hk1|exact Hk2'].
      apply row_history_trans.
Qed.

(* ===================================================================== *)
(** ** What a request may change *)
(* ===================================================================== *)

Lemma fetchone_found {A : Type} (cond : A -> bool) (l : list A) (a : A) :
  Sql.fetchone cond l = Some a -> In a l /\ cond a = true.
Proof. apply find_some. Qed.

Lemma view_message_step (env : Env) (st : Store) (mid : Z) :
  primary_key (messages st) ->
  store_step (session_user_id env) st (fst (view_message env st mid)).
Proof.
  intros Hpk.
  destruct (view_message_cases env st mid) as [->|(m & Hm & Hr & _ & ->)];
    [apply store_step_refl|].
  apply fetchone_found in Hm as [Hin Hv]. apply visible_to_id in Hv.
  cbn [fst]. apply store_step_update. intros x Hx Eid.
  apply Z.eqb_eq in Eid.
  assert (x = m) as -> by (apply (SqlFacts.primary_key_unique _ x m Hpk);
                           auto; congruence).
  now apply row_step_read.
Qed.

Lemma mark_as_read_step (env : Env) (st : Store) (mid : Z) :
  store_step (session_user_id env) st (fst (mark_as_read env st mid)).
Proof.
  destruct (mark_as_read_cases env st mid) as [->| ->];
    [apply store_step_refl|].
  cbn [fst]. apply store_step_update. intros x _ E.
  apply andb_true_iff in E as [_ E]. apply Z.eqb_eq in E.
  now apply row_step_read.
Qed.

Lemma delete_message_step (env : Env) (st : Store) (mid : Z) :
  primary_key (messages st) ->
  store_step (session_user_id env) st (fst (delete_message env st mid)).
Proof.
  intros Hpk.
  destruct (delete_message_cases env st mid)
    as [->|[(m & Hm & Hs & ->)|(m & Hm & _ & Hr & ->)]];
    [apply store_step_refl| |];
    apply fetchone_found in Hm as [Hin Hid]; apply Z.eqb_eq in Hid;
    cbn [fst]; apply store_step_update; intros x Hx Eid;
    apply Z.eqb_eq in Eid;
    (assert (x = m) as -> by (apply (SqlFacts.primary_key_unique _ x m Hpk);
                              auto; congruence)).
  - now apply row_step_deleted_by_sender.
  - now apply row_step_deleted_by_receiver.
Qed.

Lemma reply_message_step (env : Env) (st : Store) (mid : Z) (method : Method)
    (form : list (string * string)) :
  store_step (session_user_id env) st
    (fst (reply_message env st mid method form)).
Proof.
  destruct (reply_message_cases env st mid method form)
    as [->|(m & body & _ & _ & _ & _ & ->)];
    [apply store_step_refl | apply store_step_insert].
Qed.

Lemma send_message_step (env : Env) (st : Store) (data : option SendPayload) :
  store_step (session_user_id env) st (fst (send_message env st data)).
Proof.
  destruct (send_message_cases env st data)
    as [->|(d & r & _ & _ & _ & _ & _ & ->)];
    [apply store_step_refl | apply store_step_insert].
Qed.

Lemma update_notification_settings_step (env : Env) (st : Store)
    (form : list (string * string)) :
  store_step (session_user_id env) st
    (fst (update_notification_settings env st form)).
Proof.
  destruct (update_notification_settings_cases env st form) as [->| ->];
    [apply store_step_refl | apply store_step_settings].
Qed.

Lemma messages_bp_step (u : Z) (w : World) (r : Request) (st : Store) :
  primary_key (messages st) ->
  store_step u st (fst (messages_bp (Some u) w r st)).
Proof.
  intros Hpk. unfold messages_bp, login_required.
  set (env := mkEnv u (w_clock w) (w_conn w) (w_aux_conn w)).
  change u with (session_user_id env).
  destruct r.
  - apply store_step_refl.
  - rewrite inbox_reads_only. apply store_step_refl.
  - now apply view_message_step.
  - apply reply_message_step.
  - apply mark_as_read_step.
  - now apply delete_message_step.
  - rewrite check_publication_request_reads_only. apply store_step_refl.
  - apply send_message_step.
  - apply update_notification_settings_step.
Qed.

(* ===================================================================== *)
(** ** The primary key is kept *)
(* ===================================================================== *)

Lemma messages_bp_primary_key (session : option Z) (w : World) (r : Request)
    (st : Store) :
  primary_key (messages st) ->
  primary_key (messages (fst (messages_bp session w r st))).
Proof.
  intros Hpk. unfold messages_bp, login_required.
  destruct session as [u|]; [|exact Hpk].
  set (env := mkEnv u (w_clock w) (w_conn w) (w_aux_conn w)).
  destruct r.
  - exact Hpk.
  - now rewrite inbox_reads_only.
  - destruct (view_message_cases env st message_id)
      as [->|(m & _ & _ & _ & ->)]; [exact Hpk|].
    now apply SqlFacts.update_keeps_primary_key.
  - destruct (reply_message_cases env st message_id method form)
      as [->|(m & body & _ & _ & _ & _ & ->)]; [exact Hpk|].
    now apply SqlFacts.insert_message_keeps_primary_key.
  - destruct (mark_as_read_cases env st message_id) as [->| ->]; [exact Hpk|].
    now apply SqlFacts.update_keeps_primary_key.
  - destruct (delete_message_cases env st message_id)
      as [->|[(m & _ & _ & ->)|(m & _ & _ & _ & ->)]]; [exact Hpk| |];
      now apply SqlFacts.update_keeps_primary_key.
  - now rewrite check_publication_request_reads_only.
  - destruct (send_message_cases env st data)
      as [->|(d & rc & _ & _ & _ & _ & _ & ->)]; [exact Hpk|].
    now apply SqlFacts.insert_message_keeps_primary_key.
  - destruct (update_notification_settings_cases env st form) as [->| ->];
      exact Hpk.
Qed.

Lemma serve_primary_key (calls : list Call) (st : Store) :
  primary_key (messages st) -> primary_key (messages (serve calls st)).
Proof.
  revert st. induction calls as [|c calls IH]; intros st Hpk; [exact Hpk|].
  cbn [serve]. apply IH. now apply messages_bp_primary_key.
Qed.

(* ===================================================================== *)
(** ** Nothing is taken back *)
(* ===================================================================== *)

Lemma row_history_read (t : Z) (m : Message) : row_history m (set_read t m).
Proof. apply (row_step_history (receiver_id m)). now apply row_step_read. Qed.

Lemma row_history_deleted_by_sender (m : Message) :
  row_history m (set_deleted_by_sender m).
Proof.
  apply (row_step_history (sender_id m)). now apply row_step_deleted_by_sender.
Qed.

Lemma row_history_deleted_by_receiver (m : Message) :
  row_history m (set_deleted_by_receiver m).
Proof.
  apply (row_step_history (receiver_id m)).
  now apply row_step_deleted_by_receiver.
Qed.

Lemma store_history_update (cond : Message -> bool) (f : Message -> Message)
    (st : Store) :
  (forall m, row_history m (f m)) ->
  store_history st (with_messages st (Sql.update cond f (messages st))).
Proof.
  intros H. unfold store_history.
  cbn [users contents message_notifications messages with_messages].
  repeat split.
  - apply Forall2_same. auto.
  - exists (Sql.update cond f (messages st)), []. rewrite app_nil_r.
    split; [reflexivity|]. apply Forall2_update. intros m _.
    destruct (cond m); [apply H | apply row_history_refl].
Qed.

Lemma messages_bp_history (session : option Z) (w : World) (r : Request)
    (st : Store) :
  store_history st (fst (messages_bp session w r st)).
Proof.
  unfold messages_bp, login_required.
  destruct session as [u|]; [|apply store_history_refl].
  set (env := mkEnv u (w_clock w) (w_conn w) (w_aux_conn w)).
  destruct r.
  - apply store_history_refl.
  - rewrite inbox_reads_only. apply store_history_refl.
  - destruct (view_message_cases env st message_id)
      as [->|(m & _ & _ & _ & ->)]; [apply store_history_refl|].
    apply store_history_update, row_history_read.
  - apply (store_step_history u). apply (reply_message_step env).
  - apply (store_step_history u). apply (mark_as_read_step env).
  - destruct (delete_message_cases env st message_id)
      as [->|[(m & _ & _ & ->)|(m & _ & _ & _ & ->)]];
      [apply store_history_refl| |]; apply store_history_update.
    + apply row_history_deleted_by_sender.
    + apply row_history_deleted_by_receiver.
  - rewrite check_publication_request_reads_only. apply store_history_refl.
  - apply (store_step_history u). apply (send_message_step env).
  - apply (store_step_history u).
    apply (update_notification_settings_step env).
Qed.

Lemma serve_history (calls : list Call) (st : Store) :
  store_history st (serve calls st).
Proof.
  revert st. induction calls as [|c calls IH]; intros st.
  - apply store_history_refl.
  - cbn [serve]. eapply store_history_trans; [|apply IH].
    apply messages_bp_history.
Qed.

Lemma Forall2_In_l {A : Type} (R : A -> A -> Prop) (l k : list A) (x : A) :
  Forall2 R l k -> In x l -> exists y, In y k /\ R x y.
Proof.
  induction 1 as [|a b l k Hab _ IH]; intros Hin; [contradiction|].
  destruct Hin as [->|Hin].
  - exists b. split; [now left|assumption].
  - destruct (IH Hin) as (y & Hy & Hxy). exists y. split; [now right|assumption].
Qed.

(* ===================================================================== *)
(** ** The blueprint as a whole: statements *)
(* ===================================================================== *)

(** X1. Without a user in the session no route of [Request] does anything
    but flash the login notice and redirect to the login page. With user
    [u] in the session and [id] the primary key, whatever the route of
    [Request], the parameters and the state of the connection: the users
    and contents are untouched; the notification rows stay in place with
    their user and key, and those of other users are unchanged; the old
    messages stay in place with the columns the [INSERT] wrote, no flag is
    taken back, read state and receiver's deletion flag change only on
    messages [u] received, the sender's deletion flag only on messages [u]
    sent; and at most one message is added, sent by [u], unread and
    undeleted. *)
Theorem blueprint_respects_ownership (session : option Z) (w : World)
    (r : Request) (st : Store) :
  primary_key (messages st) ->
  match session with
  | None =>
      messages_bp session w r st
      = (st, flashing "Please log in to access this page." "warning"
               (Redirect "auth.login"))
  | Some u => store_step u st (fst (messages_bp session w r st))
  end.
Proof.
  intros Hpk. destruct session as [u|]; [|reflexivity].
  now apply messages_bp_step.
Qed.

Lemma blueprint_respects_ownership_witness :
  store_step 8 Sample.store
    (fst (messages_bp (Some 8)
            (mkWorld (fun _ => 90) (Connected None) (Connected None))
            (ViewMessage 1) Sample.store)).
Proof.
  apply (blueprint_respects_ownership (Some 8)
           (mkWorld (fun _ => 90) (Connected None) (Connected None))
           (ViewMessage 1) Sample.store).
  exact sample_primary_key.
Defined.

(** X2. Whatever requests of [Request] are served one after the other, by
    whomever and on whatever connections, a table of messages with distinct
    ids still has distinct ids afterwards. *)
Theorem serve_keeps_primary_key (calls : list Call) (st : Store) :
  primary_key (messages st) -> primary_key (messages (serve calls st)).
Proof. apply serve_primary_key. Qed.

Lemma serve_keeps_primary_key_witness :
  primary_key
    (messages
       (serve [mkCall (Some 5)
                 (mkWorld (fun _ => 90) (Connected None) (Connected None))
                 (SendMessage (Some (mkPayload (Some 8) "Hi" "again" None)));
               mkCall (Some 8)
                 (mkWorld (fun _ => 95) (Connected None) (Connected None))
                 (DeleteMessage 1)]
          Sample.store)).
Proof.
  apply (serve_keeps_primary_key
           [mkCall (Some 5)
              (mkWorld (fun _ => 90) (Connected None) (Connected None))
              (SendMessage (Some (mkPayload (Some 8) "Hi" "again" None)));
            mkCall (Some 8)
              (mkWorld (fun _ => 95) (Connected None) (Connected None))
              (DeleteMessage 1)]
           Sample.store).
  exact sample_primary_key.
Defined.

(** X3. Whatever requests of [Request] are served one after the other, no
    message is removed or moved and none of its written-once columns
    changes: every message of the store is found afterwards with the same
    id, sender, receiver, subject, content, type, links and [sent_at]; a
    message that was read is still read and still has a [read_at]; a
    deletion flag that was set is still set. Users and contents are the
    same, and so are the notification rows by user and key. *)
Theorem serve_never_takes_back (calls : list Call) (st : Store) :
  store_history st (serve calls st)
  /\ (forall m, In m (messages st) ->
        exists m', In m' (messages (serve calls st)) /\ row_history m m').
Proof.
  pose proof (serve_history calls st) as H. split; [exact H|].
  destruct H as (_ & _ & _ & kept & added & Hm & Hk).
  intros m Hin. destruct (Forall2_In_l _ _ _ m Hk Hin) as (m' & Hin' & Hh).
  exists m'. split; [|exact Hh]. rewrite Hm. apply in_or_app. now left.
Qed.

(* ===================================================================== *)
(** ** The unread count *)
(* ===================================================================== *)

Lemma get_unread_count_any (env : Env) (st : Store) (u : Z) :
  get_unread_count env st u =
  if undisturbed (aux_conn env) 1
  then Sql.count (unread_for u) (messages st) else 0.
Proof.
  unfold get_unread_count, run_request, undisturbed.
  destruct (aux_conn env) as [|[[n e]|]]; [reflexivity| |reflexivity].
  destruct n; reflexivity.
Qed.

Lemma get_unread_count_counting (env : Env) (st : Store) (u : Z) :
  counting env ->
  get_unread_count env st u = Sql.count (unread_for u) (messages st).
Proof.
  unfold counting. intros H. now rewrite get_unread_count_any, H.
Qed.

Lemma filter_length_perm {A : Type} (f : A -> bool) (l l' : list A) :
  Permutation l l' ->
  List.length (filter f l) = List.length (filter f l').
Proof.
  induction 1 as [|x l l' _ IH|x y l|l l' l'' _ IH1 _ IH2]; cbn.
  - reflexivity.
  - destruct (f x); cbn; now rewrite IH.
  - destruct (f x), (f y); reflexivity.
  - now rewrite IH1.
Qed.

Lemma filter_both {A : Type} (f g : A -> bool) (l : list A) :
  filter f (filter g l) = filter (fun x => g x && f x) l.
Proof.
  induction l as [|x l IH]; [reflexivity|]. cbn.
  destruct (g x); cbn; [destruct (f x)|]; now rewrite IH.
Qed.

Lemma filter_map_rows (f : Message -> bool) (join : Message -> Row)
    (l : list Message) :
  (forall m, row_msg (join m) = m) ->
  List.length (filter (fun r => f (row_msg r)) (map join l))
  = List.length (filter f l).
Proof.
  intros Hj. induction l as [|m l IH]; [reflexivity|]. cbn.
  rewrite Hj. destruct (f m); cbn; now rewrite IH.
Qed.

(** The unread rows of the received list are what the count query counts. *)
Lemma unread_rows_counted (st : Store) (u : Z) :
  Z.of_nat (List.length (filter (fun r => negb (is_read (row_msg r)))
                           (received_messages st u)))
  = Sql.count (unread_for u) (messages st).
Proof.
  unfold received_messages, listing, Sql.count. f_equal.
  rewrite (filter_map_rows (fun m => negb (is_read m))) by reflexivity.
  rewrite <- (filter_length_perm _ _ _ (SqlFacts.order_by_perm _)).
  rewrite filter_both. f_equal. apply filter_ext. intros m.
  unfold unread_for, received_by.
  destruct (receiver_id m =? u), (is_read m), (is_deleted_by_receiver m);
    reflexivity.
Qed.

(** X4.  The badge route never touches the store and always answers 200
    with a count.  When the connection it counts on opens and the query
    does not raise, the count is the number of unread rows in the
    received list the inbox shows for the same user and store; otherwise
    it is 0, however many unread messages there are. *)
Theorem badge_counts_unread_rows (env : Env) (st : Store) :
  let u := session_user_id env in
  let unread_rows :=
    filter (fun r => negb (is_read (row_msg r))) (received_messages st u) in
  api_unread_count env st =
  (st, plain (Json 200
                [("count",
                  VInt (if undisturbed (aux_conn env) 1
                        then Z.of_nat (List.length unread_rows) else 0))])).
Proof.
  intros u unread_rows. unfold api_unread_count. fold u.
  rewrite get_unread_count_any. subst unread_rows.
  now rewrite unread_rows_counted.
Qed.

Lemma count_update_one (cond : Message -> bool) (f : Message -> Message)
    (ms : list Message) (m : Message) :
  primary_key ms -> In m ms -> cond m = true -> cond (f m) = false ->
  Sql.count cond (Sql.update (fun x => id x =? id m) f ms)
  = Sql.count cond ms - 1.
Proof.
  unfold primary_key. intros Hpk Hin Hm Hfm.
  induction ms as [|x ms IH]; [contradiction|].
  cbn [map] in Hpk. inversion Hpk as [|? ? Hnx Hms]; subst.
  change (x :: ms) with ([x] ++ ms)%list.
  unfold Sql.update. rewrite map_app. fold (Sql.update (fun y => id y =? id m) f ms).
  rewrite !SqlFacts.count_app. cbn [map]. rewrite !SqlFacts.count_single.
  destruct Hin as [->|Hin].
  - rewrite Z.eqb_refl, Hm, Hfm.
    rewrite SqlFacts.update_untouched; [lia|].
    intros y Hy. apply Z.eqb_neq. intros E. apply Hnx. rewrite <- E.
    now apply in_map.
  - assert (E : (id x =? id m) = false).
    { apply Z.eqb_neq. intros E. apply Hnx. rewrite E. now apply in_map. }
    rewrite E, (IH Hms Hin). lia.
Qed.

(** X5.  When the receiver views a message of theirs that was unread and
    not deleted, their unread count goes down by exactly one. *)
Theorem view_message_lowers_unread_count (env : Env) (st : Store) (m : Message) :
  healthy env -> counting env ->
  primary_key (messages st) -> In m (messages st) ->
  receiver_id m = session_user_id env ->
  is_deleted_by_receiver m = false -> is_read m = false ->
  let u := session_user_id env in
  get_unread_count env (fst (view_message env st (id m))) u
  = get_unread_count env st u - 1.
Proof.
  intros H Hc Hpk Hin Hr Hd Hu u.
  assert (Hf : Sql.fetchone (visible_to u (id m)) (messages st) = Some m).
  { apply SqlFacts.fetchone_primary_key; auto.
    - now apply receiver_sees.
    - intros x Hx. now apply visible_to_id in Hx. }
  rewrite (view_message_first env st (id m) m) by auto.
  rewrite !get_unread_count_counting by assumption.
  cbn [fst messages with_messages].
  apply count_update_one; auto.
  - unfold unread_for. fold u in Hr. now rewrite Hr, Z.eqb_refl, Hu, Hd.
  - unfold unread_for. cbn. now rewrite andb_false_r.
Qed.

Lemma view_message_lowers_unread_count_witness :
  get_unread_count (Sample.env 8 200)
    (fst (view_message (Sample.env 8 200) Sample.store 1)) 8
  = get_unread_count (Sample.env 8 200) Sample.store 8 - 1.
Proof.
  apply (view_message_lowers_unread_count (Sample.env 8 200) Sample.store
           Sample.hello); try reflexivity.
  - exact sample_primary_key.
  - simpl. auto.
Defined.

Lemma view_message_as_sender (env : Env) (st : Store) (m : Message) :
  healthy env -> primary_key (messages st) -> In m (messages st) ->
  sender_id m = session_user_id env ->
  receiver_id m <> session_user_id env ->
  is_deleted_by_sender m = false ->
  view_message env st (id m)
  = (st, plain (Render "messages/view.html"
                  [("message", VRow (view_row st m))])).
Proof.
  intros H Hpk Hin Hs Hr Hd.
  apply view_message_again; auto.
  - apply SqlFacts.fetchone_primary_key; auto.
    + unfold visible_to, sent_by. rewrite Z.eqb_refl, Hs, Z.eqb_refl, Hd.
      cbn. apply orb_true_r.
    + intros x Hx. now apply visible_to_id in Hx.
  - apply Z.eqb_neq in Hr. now rewrite Hr.
Qed.

(** X6.  Only the receiver's view marks a message as read: when its
    sender, who is not its receiver and has not deleted it, views it, the
    page shows the message and the store stays as it is. *)
Theorem view_message_by_sender_reads_only (env : Env) (st : Store)
    (m : Message) :
  healthy env -> primary_key (messages st) -> In m (messages st) ->
  sender_id m = session_user_id env ->
  receiver_id m <> session_user_id env ->
  is_deleted_by_sender m = false ->
  view_message env st (id m)
  = (st, plain (Render "messages/view.html"
                  [("message", VRow (view_row st m))])).
Proof. apply view_message_as_sender. Qed.

Lemma view_message_by_sender_reads_only_witness :
  view_message (Sample.env 5 200) Sample.store 1
  = (Sample.store,
     plain (Render "messages/view.html"
              [("message", VRow (view_row Sample.store Sample.hello))])).
Proof.
  apply (view_message_by_sender_reads_only (Sample.env 5 200) Sample.store
           Sample.hello); try reflexivity.
  - exact sample_primary_key.
  - simpl. auto.
  - discriminate.
Defined.

Lemma with_messages_same (st : Store) : with_messages st (messages st) = st.
Proof. now destruct st. Qed.

(** X7.  Marking as read an id (one in SQLite's integer range, so that
    it can be bound) under which the requester has received no message,
    because there is none or because it went to someone else, changes
    nothing and is still answered with success and the current unread
    count. *)
Theorem mark_as_read_elsewhere_is_silent (env : Env) (st : Store) (mid : Z) :
  healthy env -> sqlite_integer mid ->
  (forall x, In x (messages st) ->
             ~ (id x = mid /\ receiver_id x = session_user_id env)) ->
  mark_as_read env st mid
  = (st, plain (Json 200
                  [("success", VBool true);
                   ("unread_count",
                    VInt (get_unread_count env st (session_user_id env)))])).
Proof.
  intros H _ Hnone. unfold mark_as_read. run_healthy H.
  cbn [committed].
  rewrite SqlFacts.update_untouched.
  - now rewrite with_messages_same.
  - intros x Hx. apply not_true_is_false. intros E.
    apply andb_true_iff in E as [E1 E2].
    apply Z.eqb_eq in E1, E2. exact (Hnone x Hx (conj E1 E2)).
Qed.

Lemma mark_as_read_elsewhere_is_silent_witness :
  mark_as_read (Sample.env 8 200) Sample.store 2
  = (Sample.store,
     plain (Json 200
              [("success", VBool true);
               ("unread_count",
                VInt (get_unread_count (Sample.env 8 200) Sample.store 8))])).
Proof.
  apply (mark_as_read_elsewhere_is_silent (Sample.env 8 200) Sample.store 2).
  - reflexivity.
  - unfold sqlite_integer. lia.
  - cbn. intros x [<-|[<-|[]]] [E1 E2]; discriminate.
Defined.

Lemma count_update_one_for (cond : Message -> bool) (f : Message -> Message)
    (ms : list Message) (m : Message) (u : Z) :
  primary_key ms -> In m ms -> receiver_id m = u ->
  cond m = true -> cond (f m) = false ->
  Sql.count cond
    (Sql.update (fun x => (id x =? id m) && (receiver_id x =? u)) f ms)
  = Sql.count cond ms - 1.
Proof.
  intros Hpk Hin Hr Hm Hfm.
  rewrite <- (count_update_one cond f ms m) by assumption. f_equal.
  unfold Sql.update. apply map_ext_in. intros x Hx.
  destruct (id x =? id m) eqn:E; [|reflexivity].
  apply Z.eqb_eq in E.
  rewrite (SqlFacts.primary_key_unique ms x m Hpk Hx Hin E), Hr, Z.eqb_refl.
  reflexivity.
Qed.

(** X8.  Marking as read a message the requester received, had not read
    and had not deleted sets the read state of that row, touches no other
    row, and answers with the unread count that is left: one less than
    before. *)
Theorem mark_as_read_reports_count_left (env : Env) (st : Store) (m : Message) :
  healthy env -> counting env ->
  primary_key (messages st) -> In m (messages st) ->
  receiver_id m = session_user_id env ->
  is_deleted_by_receiver m = false -> is_read m = false ->
  let u := session_user_id env in
  let r := mark_as_read env st (id m) in
  row_replaced m (set_read (clock env 0) m) (messages st) (messages (fst r))
  /\ snd r = plain (Json 200
                      [("success", VBool true);
                       ("unread_count", VInt (get_unread_count env st u - 1))])
  /\ get_unread_count env (fst r) u = get_unread_count env st u - 1.
Proof.
  intros H Hc Hpk Hin Hr Hd Hu u r.
  assert (Hcount : get_unread_count env
                     (marked_read_for u (clock env 0) (id m) st) u
                   = get_unread_count env st u - 1).
  { rewrite !get_unread_count_counting by assumption.
    unfold marked_read_for. cbn [messages with_messages].
    apply count_update_one_for; auto.
    - unfold unread_for. fold u in Hr. now rewrite Hr, Z.eqb_refl, Hu, Hd.
    - unfold unread_for. cbn. now rewrite andb_false_r. }
  assert (Er : r = (marked_read_for u (clock env 0) (id m) st,
                    plain (Json 200
                             [("success", VBool true);
                              ("unread_count",
                               VInt (get_unread_count env st u - 1))]))).
  { subst r. unfold mark_as_read. run_healthy H. cbn [committed].
    fold u. fold (marked_read_for u (clock env 0) (id m) st).
    now rewrite Hcount. }
  rewrite Er. cbn [fst snd]. split; [|split; [reflexivity|exact Hcount]].
  unfold row_replaced, marked_read_for. cbn [messages with_messages].
  pose proof (update_by_id (set_read (clock env 0)) (messages st) m Hpk Hin)
    as Hrows.
  assert (Esame : Sql.update (fun x => (id x =? id m) && (receiver_id x =? u))
                    (set_read (clock env 0)) (messages st)
                  = Sql.update (fun x => id x =? id m)
                      (set_read (clock env 0)) (messages st)).
  { unfold Sql.update. apply map_ext_in. intros x Hx.
    destruct (id x =? id m) eqn:E; [|reflexivity].
    apply Z.eqb_eq in E.
    rewrite (SqlFacts.primary_key_unique _ x m Hpk Hx Hin E).
    fold u in Hr. now rewrite Hr, Z.eqb_refl. }
  now rewrite Esame.
Qed.

Lemma mark_as_read_reports_count_left_witness :
  let r := mark_as_read (Sample.env 8 200) Sample.store 1 in
  row_replaced Sample.hello (set_read 200 Sample.hello)
    (messages Sample.store) (messages (fst r))
  /\ snd r = plain (Json 200
                      [("success", VBool true);
                       ("unread_count",
                        VInt (get_unread_count (Sample.env 8 200)
                                Sample.store 8 - 1))])
  /\ get_unread_count (Sample.env 8 200) (fst r) 8
     = get_unread_count (Sample.env 8 200) Sample.store 8 - 1.
Proof.
  apply (mark_as_read_reports_count_left (Sample.env 8 200) Sample.store
           Sample.hello); try reflexivity.
  - exact sample_primary_key.
  - simpl. auto.
Defined.

(* ===================================================================== *)
(** ** All or nothing *)
(* ===================================================================== *)

(** X9. A request that does not end in the route's success answer has
    written nothing: whatever the route of [Request], the session and the
    state of the connection, when the store after the request differs from
    the store before, the answer is the success answer of that route. In
    particular a driver error at any statement or at the commit leaves no
    trace. *)
Theorem failures_write_nothing (session : option Z) (w : World) (r : Request)
    (st : Store) :
  fst (messages_bp session w r st) <> st ->
  reports_success r (snd (messages_bp session w r st)).
Proof.
  unfold messages_bp, login_required.
  destruct session as [u|]; [|intros H; now contradiction H].
  set (env := mkEnv u (w_clock w) (w_conn w) (w_aux_conn w)).
  destruct r; cbn [reports_success]; intros Hch.
  - now contradiction Hch.
  - contradiction Hch. apply inbox_reads_only.
  - destruct (view_message_cases env st message_id)
      as [E|(m & _ & _ & _ & E)]; [contradiction|].
    rewrite E. cbn [snd]. eauto.
  - destruct (reply_message_cases env st message_id method form)
      as [E|(m & body & _ & _ & _ & _ & E)]; [contradiction|].
    now rewrite E.
  - destruct (mark_as_read_cases env st message_id) as [E|E]; [contradiction|].
    rewrite E. cbn [snd]. eauto.
  - destruct (delete_message_cases env st message_id)
      as [E|[(m & _ & _ & E)|(m & _ & _ & _ & E)]]; [contradiction| |];
      now rewrite E.
  - contradiction Hch. apply check_publication_request_reads_only.
  - destruct (send_message_cases env st data)
      as [E|(d & rc & _ & _ & _ & _ & _ & E)]; [contradiction|].
    now rewrite E.
  - destruct (update_notification_settings_cases env st form) as [E|E];
      [contradiction|]. now rewrite E.
Qed.

Lemma failures_write_nothing_witness :
  reports_success (DeleteMessage 1)
    (snd (messages_bp (Some 8)
            (mkWorld (fun _ => 90) (Connected None) (Connected None))
            (DeleteMessage 1) Sample.store)).
Proof.
  apply (failures_write_nothing (Some 8)
           (mkWorld (fun _ => 90) (Connected None) (Connected None))
           (DeleteMessage 1) Sample.store).
  cbn. intros E. discriminate E.
Defined.

(* ===================================================================== *)
(** ** Soft deletion, seen from both sides *)
(* ===================================================================== *)

Lemma update_idempotent {A : Type} (cond : A -> bool) (f : A -> A)
    (l : list A) :
  (forall x, cond (f x) = cond x) -> (forall x, f (f x) = f x) ->
  Sql.update cond f (Sql.update cond f l) = Sql.update cond f l.
Proof.
  intros Hc Hf. unfold Sql.update. rewrite map_map. apply map_ext.
  intros x. destruct (cond x) eqn:E; [|now rewrite E].
  now rewrite Hc, E, Hf.
Qed.

Lemma In_updated_by_id (f : Message -> Message) (ms : list Message)
    (m : Message) :
  In m ms -> In (f m) (Sql.update (fun x => id x =? id m) f ms).
Proof.
  intros Hin.
  pose proof (SqlFacts.In_update (fun x => id x =? id m) f ms m Hin) as H.
  cbv beta in H. now rewrite Z.eqb_refl in H.
Qed.

(** X10.  Deleting is idempotent: a party who deletes a message a second
    time is answered with success again, and the store is as the first
    deletion left it. *)
Theorem delete_message_idempotent (env1 env2 : Env) (st : Store) (m : Message) :
  healthy env1 -> healthy env2 ->
  session_user_id env2 = session_user_id env1 ->
  primary_key (messages st) -> In m (messages st) ->
  sender_id m = session_user_id env1 \/ receiver_id m = session_user_id env1 ->
  let first := delete_message env1 st (id m) in
  let second := delete_message env2 (fst first) (id m) in
  snd first = json_success /\ second = (fst first, json_success).
Proof.
  intros H1 H2 Hu Hpk Hin Hparty first second.
  pose proof (fetchone_by_id _ _ Hpk Hin) as Hf.
  destruct (Z.eq_dec (sender_id m) (session_user_id env1)) as [Hs|Hs].
  - assert (E1 : first = (deleted_by_sender (id m) st, json_success))
      by (apply (delete_message_sender env1 st (id m) m); auto).
    subst second. rewrite E1. cbn [fst snd]. split; [reflexivity|].
    rewrite (delete_message_sender env2 _ (id m) (set_deleted_by_sender m)).
    + unfold deleted_by_sender. cbn [messages with_messages].
      rewrite update_idempotent by reflexivity. reflexivity.
    + assumption.
    + apply (fetchone_by_id _ (set_deleted_by_sender m)).
      * now apply SqlFacts.update_keeps_primary_key.
      * now apply In_updated_by_id.
    + cbn. congruence.
  - destruct Hparty as [Hs'|Hr]; [contradiction|].
    assert (E1 : first = (deleted_by_receiver (id m) st, json_success))
      by (apply (delete_message_receiver env1 st (id m) m); auto).
    subst second. rewrite E1. cbn [fst snd]. split; [reflexivity|].
    rewrite (delete_message_receiver env2 _ (id m) (set_deleted_by_receiver m)).
    + unfold deleted_by_receiver. cbn [messages with_messages].
      rewrite update_idempotent by reflexivity. reflexivity.
    + assumption.
    + apply (fetchone_by_id _ (set_deleted_by_receiver m)).
      * now apply SqlFacts.update_keeps_primary_key.
      * now apply In_updated_by_id.
    + cbn. congruence.
    + cbn. congruence.
Qed.

Lemma delete_message_idempotent_witness :
  let first := delete_message (Sample.env 8 50) Sample.store 1 in
  let second := delete_message (Sample.env 8 60) (fst first) 1 in
  snd first = json_success /\ second = (fst first, json_success).
Proof.
  apply (delete_message_idempotent (Sample.env 8 50) (Sample.env 8 60)
           Sample.store Sample.hello); try reflexivity.
  - exact sample_primary_key.
  - simpl. auto.
  - right. reflexivity.
Defined.

Lemma reply_message_hidden (env : Env) (st : Store) (mid : Z) (method : Method)
    (form : list (string * string)) :
  healthy env ->
  (forall x, In x (messages st) ->
             replyable_by (session_user_id env) mid x = false) ->
  reply_message env st mid method form = (st, not_found_or_denied).
Proof.
  intros H Hnone. unfold reply_message. run_healthy H.
  rewrite (SqlFacts.fetchone_none _ _ Hnone). reflexivity.
Qed.

(** X11.  Once the receiver of a message from someone else has deleted
    it, it is gone for the receiver: it is in no row of their received
    list, viewing it is answered like a message that does not exist, and
    so is replying to it, with either method. *)
Theorem delete_message_hides_from_receiver (env env' : Env) (st : Store)
    (m : Message) (method : Method) (form : list (string * string)) :
  healthy env -> healthy env' ->
  session_user_id env' = session_user_id env ->
  primary_key (messages st) -> In m (messages st) ->
  receiver_id m = session_user_id env -> sender_id m <> session_user_id env ->
  let u := session_user_id env in
  let st' := fst (delete_message env st (id m)) in
  (forall x, In x (map row_msg (received_messages st' u)) -> id x <> id m)
  /\ view_message env' st' (id m) = (st', not_found_or_denied)
  /\ reply_message env' st' (id m) method form = (st', not_found_or_denied).
Proof.
  intros H H' Hu' Hpk Hin Hr Hs u st'.
  pose proof (fetchone_by_id _ _ Hpk Hin) as Hf.
  assert (Est : st' = deleted_by_receiver (id m) st).
  { unfold st'. now rewrite (delete_message_receiver env st (id m) m). }
  assert (Hgone : forall x, In x (messages st') -> id x = id m ->
                            receiver_id x = u
                            /\ sender_id x <> u
                            /\ is_deleted_by_receiver x = true).
  { rewrite Est. unfold deleted_by_receiver. cbn [messages with_messages].
    intros x Hx Eid. unfold Sql.update in Hx.
    apply in_map_iff in Hx as (y & Hy & Hyin).
    assert (Eyid : id y = id m)
      by (destruct (id y =? id m) eqn:E; subst x;
          [now apply Z.eqb_eq in E | exact Eid]).
    rewrite (SqlFacts.primary_key_unique _ y m Hpk Hyin Hin Eyid) in Hy.
    rewrite Z.eqb_refl in Hy. subst x. cbn. auto. }
  split; [|split].
  - intros x Hx Eid. unfold received_messages in Hx.
    rewrite (listing_In (received_by u) (received_row st')) in Hx
      by reflexivity.
    destruct Hx as [Hx Hkeep]. apply received_by_spec in Hkeep as [_ Hd].
    destruct (Hgone x Hx Eid) as (_ & _ & Hdel). congruence.
  - apply view_message_hidden; [assumption|]. rewrite Hu'. fold u.
    intros x Hx. unfold visible_to.
    destruct (id x =? id m) eqn:E; [|reflexivity]. apply Z.eqb_eq in E.
    destruct (Hgone x Hx E) as (Hrx & Hsx & Hdel).
    unfold received_by, sent_by. rewrite Hdel.
    apply Z.eqb_neq in Hsx. rewrite Hsx. cbn. now rewrite andb_false_r.
  - apply reply_message_hidden; [assumption|]. rewrite Hu'. fold u.
    intros x Hx. unfold replyable_by.
    destruct (id x =? id m) eqn:E; [|reflexivity]. apply Z.eqb_eq in E.
    destruct (Hgone x Hx E) as (_ & _ & Hdel). rewrite Hdel.
    apply andb_false_r.
Qed.

Lemma delete_message_hides_from_receiver_witness :
  let st' := fst (delete_message (Sample.env 8 50) Sample.store 1) in
  (forall x, In x (map row_msg (received_messages st' 8)) -> id x <> 1)
  /\ view_message (Sample.env 8 60) st' 1 = (st', not_found_or_denied)
  /\ reply_message (Sample.env 8 60) st' 1 POST [("content", "Hi")]
     = (st', not_found_or_denied).
Proof.
  apply (delete_message_hides_from_receiver (Sample.env 8 50)
           (Sample.env 8 60) Sample.store Sample.hello POST
           [("content", "Hi")]); try reflexivity.
  - exact sample_primary_key.
  - simpl. auto.
  - discriminate.
Defined.

(** X12.  The receiver's deletion does not reach the sender: a message
    its sender has kept is still in the sender's sent list after the
    receiver deleted it, with nothing but the receiver's flag changed,
    and the sender can still view it. *)
Theorem delete_message_spares_sender (env env' : Env) (st : Store)
    (m : Message) :
  healthy env -> healthy env' ->
  primary_key (messages st) -> In m (messages st) ->
  receiver_id m = session_user_id env -> sender_id m <> session_user_id env ->
  session_user_id env' = sender_id m -> is_deleted_by_sender m = false ->
  let st' := fst (delete_message env st (id m)) in
  let m' := set_deleted_by_receiver m in
  In m' (map row_msg (sent_messages st' (sender_id m)))
  /\ view_message env' st' (id m)
     = (st', plain (Render "messages/view.html"
                      [("message", VRow (view_row st' m'))])).
Proof.
  intros H H' Hpk Hin Hr Hs Hu' Hd st' m'.
  pose proof (fetchone_by_id _ _ Hpk Hin) as Hf.
  assert (Est : st' = deleted_by_receiver (id m) st).
  { unfold st'. now rewrite (delete_message_receiver env st (id m) m). }
  assert (Hin' : In m' (messages st')).
  { rewrite Est. unfold deleted_by_receiver. cbn [messages with_messages].
    now apply In_updated_by_id. }
  assert (Hpk' : primary_key (messages st')).
  { rewrite Est. unfold deleted_by_receiver. cbn [messages with_messages].
    now apply SqlFacts.update_keeps_primary_key. }
  split.
  - unfold sent_messages.
    rewrite (listing_In (sent_by (sender_id m)) (sent_row st')) by reflexivity.
    split; [exact Hin'|]. apply sent_by_spec. auto.
  - change (id m) with (id m').
    apply (view_message_as_sender env' st' m'); auto.
    cbn. congruence.
Qed.

Lemma delete_message_spares_sender_witness :
  let st' := fst (delete_message (Sample.env 8 50) Sample.store 1) in
  let m' := set_deleted_by_receiver Sample.hello in
  In m' (map row_msg (sent_messages st' 5))
  /\ view_message (Sample.env 5 60) st' 1
     = (st', plain (Render "messages/view.html"
                      [("message", VRow (view_row st' m'))])).
Proof.
  apply (delete_message_spares_sender (Sample.env 8 50) (Sample.env 5 60)
           Sample.store Sample.hello); try reflexivity.
  - exact sample_primary_key.
  - simpl. auto.
  - discriminate.
Defined.

Lemma keeps_own_note_update (u mid : Z) (cond : Message -> bool)
    (f : Message -> Message) (st : Store) :
  (forall m, id (f m) = id m /\ sender_id (f m) = sender_id m
             /\ receiver_id (f m) = receiver_id m) ->
  (forall m, In m (messages st) -> cond m = true ->
             sender_id m = u -> receiver_id m = u ->
             is_deleted_by_receiver (f m) = is_deleted_by_receiver m) ->
  keeps_own_note u mid st ->
  keeps_own_note u mid
    (with_messages st (Sql.update cond f (messages st))).
Proof.
  intros Hf Hflag (m & Hin & Hid & Hs & Hr & Hd).
  exists (if cond m then f m else m). cbn [messages with_messages].
  split; [now apply SqlFacts.In_update|].
  destruct (cond m) eqn:E; [|auto].
  destruct (Hf m) as (E1 & E2 & E3).
  rewrite E1, E2, E3, (Hflag m Hin E Hs Hr). auto.
Qed.

Lemma keeps_own_note_insert (u mid sender receiver : Z)
    (subj body mtype : string) (parent rc ru : option Z) (now : Z) (st : Store) :
  keeps_own_note u mid st ->
  keeps_own_note u mid
    (Sql.insert_message sender receiver subj body mtype parent rc ru now st).
Proof.
  intros (m & Hin & H). exists m. split; [|exact H].
  unfold Sql.insert_message. cbn [messages with_messages].
  apply in_or_app. now left.
Qed.

Lemma messages_bp_keeps_own_note (u mid : Z) (session : option Z) (w : World)
    (r : Request) (st : Store) :
  primary_key (messages st) -> keeps_own_note u mid st ->
  keeps_own_note u mid (fst (messages_bp session w r st)).
Proof.
  intros Hpk Hnote. unfold messages_bp, login_required.
  destruct session as [v|]; [|exact Hnote].
  set (env := mkEnv v (w_clock w) (w_conn w) (w_aux_conn w)).
  destruct r.
  - exact Hnote.
  - now rewrite inbox_reads_only.
  - destruct (view_message_cases env st message_id)
      as [->|(m & _ & _ & _ & ->)]; [exact Hnote|].
    apply keeps_own_note_update; [intros; cbn; auto| |exact Hnote].
    intros; reflexivity.
  - destruct (reply_message_cases env st message_id method form)
      as [->|(m & body & _ & _ & _ & _ & ->)]; [exact Hnote|].
    now apply keeps_own_note_insert.
  - destruct (mark_as_read_cases env st message_id) as [->| ->];
      [exact Hnote|].
    apply keeps_own_note_update; [intros; cbn; auto| |exact Hnote].
    intros; reflexivity.
  - destruct (delete_message_cases env st message_id)
      as [->|[(m & _ & _ & ->)|(m & Hm & Hs & Hr & ->)]]; [exact Hnote| |].
    + apply keeps_own_note_update; [intros; cbn; auto| |exact Hnote].
      intros; reflexivity.
    + apply keeps_own_note_update; [intros; cbn; auto| |exact Hnote].
      intros x Hx Eid Hxs Hxr. exfalso.
      apply fetchone_found in Hm as [Hin Hid].
      apply Z.eqb_eq in Eid, Hid.
      assert (x = m) by (apply (SqlFacts.primary_key_unique _ x m Hpk);
                         auto; congruence).
      subst x. cbn in Hr, Hs. congruence.
  - now rewrite check_publication_request_reads_only.
  - destruct (send_message_cases env st data)
      as [->|(d & rc & _ & _ & _ & _ & _ & ->)]; [exact Hnote|].
    now apply keeps_own_note_insert.
  - destruct (update_notification_settings_cases env st form) as [->| ->];
      exact Hnote.
Qed.

Lemma serve_keeps_own_note (u mid : Z) (calls : list Call) (st : Store) :
  primary_key (messages st) -> keeps_own_note u mid st ->
  keeps_own_note u mid (serve calls st).
Proof.
  revert st. induction calls as [|c calls IH]; intros st Hpk Hnote;
    [exact Hnote|].
  cbn [serve]. apply IH.
  - now apply messages_bp_primary_key.
  - now apply messages_bp_keeps_own_note.
Qed.

(** X13. A message a user sent to themself can never leave their received
    list: [delete_message] tests the sender first and so only ever sets the
    sender's flag on it. Whatever requests of [Request] are served
    afterwards, by whomever, the inbox of that user still lists a message
    with that id among the received ones. *)
Theorem own_note_stays_received (calls : list Call) (st : Store) (m : Message) :
  primary_key (messages st) -> In m (messages st) ->
  sender_id m = receiver_id m -> is_deleted_by_receiver m = false ->
  exists m', In m' (map row_msg
                      (received_messages (serve calls st) (receiver_id m)))
             /\ id m' = id m /\ is_deleted_by_receiver m' = false.
Proof.
  intros Hpk Hin Hself Hd.
  destruct (serve_keeps_own_note (receiver_id m) (id m) calls st Hpk)
    as (m' & Hin' & Hid & _ & Hr & Hd').
  { exists m. auto. }
  exists m'. split; [|auto]. unfold received_messages.
  rewrite (listing_In (received_by (receiver_id m)) (received_row _))
    by reflexivity.
  split; [exact Hin'|]. apply received_by_spec. auto.
Qed.

Lemma desk_primary_key : primary_key (messages Desk.store).
Proof.
  unfold primary_key. cbn.
  repeat constructor; cbn; intuition discriminate.
Qed.

Lemma own_note_stays_received_witness :
  exists m', In m' (map row_msg
                      (received_messages
                         (serve [mkCall (Some 8) (Desk.world 40)
                                   (DeleteMessage 3);
                                 mkCall (Some 8) (Desk.world 50)
                                   (DeleteMessage 3)]
                            Desk.store) 8))
             /\ id m' = 3 /\ is_deleted_by_receiver m' = false.
Proof.
  apply (own_note_stays_received
           [mkCall (Some 8) (Desk.world 40) (DeleteMessage 3);
            mkCall (Some 8) (Desk.world 50) (DeleteMessage 3)]
           Desk.store Desk.note).
  - exact desk_primary_key.
  - cbn. auto.
  - reflexivity.
  - reflexivity.
Defined.

(* ===================================================================== *)
(** ** Sending: validation, the guard and the inbox *)
(* ===================================================================== *)



Lemma send_message_unguarded_aux (env : Env) (st : Store) (d : SendPayload)
    (r : Z) :
  healthy env ->
  p_receiver_id d = Some r -> r <> 0 ->
  Text.nonempty (Text.strip (p_subject d)) = true ->
  Text.nonempty (Text.strip (p_content d)) = true ->
  p_related_content_id d = None \/ p_related_content_id d = Some 0
  \/ Text.contains marker (Text.strip (p_subject d)) = false ->
  send_message env st (Some d)
  = (Sql.insert_message (session_user_id env) r (Text.strip (p_subject d))
       (Text.strip (p_content d)) "personal" None (p_related_content_id d)
       None (clock env 0) st,
     sent_ok).
Proof.
  intros H Hrecv Hr Hs Hb Hfree. unfold send_message.
  apply Z.eqb_neq in Hr. rewrite Hrecv, Hr, Hs, Hb. cbn [negb andb].
  assert (E : (match p_related_content_id d with
               | Some cid =>
                   if Text.contains marker (Text.strip (p_subject d))
                      && negb (cid =? 0)
                   then query (fun s =>
                          Sql.count
                            (publication_request (session_user_id env) r cid)
                            (messages s))
                   else ret 0
               | None => ret 0
               end) = ret 0).
  { destruct Hfree as [E|[E|E]]; rewrite E; try reflexivity.
    - now rewrite andb_false_r.
    - now destruct (p_related_content_id d). }
  rewrite E. run_healthy H. reflexivity.
Qed.

(** X15.  The duplicate guard looks only at messages that carry the
    marker "Publication Request" in the subject and a non-zero content
    id.  Any other valid message (ids in SQLite's integer range, subject
    and content not blank), and even a publication request without a
    content id or with content id 0, is stored on a working connection
    whatever the store already holds: sent twice, it is stored twice. *)
Theorem send_message_unguarded (env env' : Env) (st : Store) (d : SendPayload)
    (r : Z) :
  healthy env -> healthy env' ->
  session_user_id env' = session_user_id env ->
  p_receiver_id d = Some r -> r <> 0 -> sqlite_integer r ->
  (forall cid, p_related_content_id d = Some cid -> sqlite_integer cid) ->
  Text.nonempty (Text.strip (p_subject d)) = true ->
  Text.nonempty (Text.strip (p_content d)) = true ->
  p_related_content_id d = None \/ p_related_content_id d = Some 0
  \/ Text.contains marker (Text.strip (p_subject d)) = false ->
  let first := send_message env st (Some d) in
  let second := send_message env' (fst first) (Some d) in
  snd first = sent_ok /\ snd second = sent_ok
  /\ exists m1 m2,
       messages (fst second) = (messages st ++ [m1; m2])%list
       /\ sender_id m1 = session_user_id env /\ sender_id m2 = sender_id m1
       /\ receiver_id m1 = r /\ receiver_id m2 = r
       /\ subject m1 = Text.strip (p_subject d) /\ subject m2 = subject m1
       /\ content m1 = Text.strip (p_content d) /\ content m2 = content m1
       /\ related_content_id m1 = p_related_content_id d
       /\ related_content_id m2 = related_content_id m1.
Proof.
  intros H H' Hu Hrecv Hr _ _ Hs Hb Hfree first second.
  subst second first.
  rewrite (send_message_unguarded_aux env st d r) by assumption.
  cbn [fst snd].
  rewrite (send_message_unguarded_aux env' _ d r) by assumption.
  cbn [fst snd]. split; [reflexivity|]. split; [reflexivity|].
  unfold Sql.insert_message. cbn [messages with_messages].
  rewrite <- app_assoc. cbn [app].
  eexists _, _. split; [reflexivity|]. cbn. rewrite Hu. repeat split.
Qed.

Lemma send_message_unguarded_witness :
  let d := mkPayload (Some 8) "Hello" "Are you there?" None in
  let first := send_message (Sample.env 5 30) Sample.store (Some d) in
  let second := send_message (Sample.env 5 40) (fst first) (Some d) in
  snd first = sent_ok /\ snd second = sent_ok
  /\ exists m1 m2,
       messages (fst second) = (messages Sample.store ++ [m1; m2])%list
       /\ sender_id m1 = 5 /\ sender_id m2 = sender_id m1
       /\ receiver_id m1 = 8 /\ receiver_id m2 = 8
       /\ subject m1 = "Hello" /\ subject m2 = subject m1
       /\ content m1 = "Are you there?" /\ content m2 = content m1
       /\ related_content_id m1 = None
       /\ related_content_id m2 = related_content_id m1.
Proof.
  apply (send_message_unguarded (Sample.env 5 30) (Sample.env 5 40)
           Sample.store (mkPayload (Some 8) "Hello" "Are you there?" None) 8);
    try reflexivity.
  - discriminate.
  - unfold sqlite_integer. lia.
  - discriminate.
  - left. reflexivity.
Defined.

Lemma send_message_success (env : Env) (st : Store) (data : option SendPayload) :
  snd (send_message env st data) = sent_ok ->
  exists d receiver,
    data = Some d /\ p_receiver_id d = Some receiver /\ receiver <> 0
    /\ send_message env st data
       = (Sql.insert_message (session_user_id env) receiver
            (Text.strip (p_subject d)) (Text.strip (p_content d)) "personal"
            None (p_related_content_id d) None (clock env 0) st,
          sent_ok).
Proof.
  unfold send_message.
  destruct data as [d|]; [|discriminate].
  destruct (p_receiver_id d) as [receiver|] eqn:Hrecv; [|discriminate].
  destruct (receiver =? 0) eqn:Hz; cbn [negb andb]; [discriminate|].
  destruct (Text.nonempty (Text.strip (p_subject d))) eqn:Hs; cbn [andb];
    [|discriminate].
  destruct (Text.nonempty (Text.strip (p_content d))) eqn:Hb; [|discriminate].
  apply Z.eqb_neq in Hz.
  unfold run_request. destruct (conn env) as [|f]; [discriminate|].
  unfold connect.
  destruct (p_related_content_id d) as [cid|] eqn:Hrel.
  - destruct (Text.contains marker (Text.strip (p_subject d)) && negb (cid =? 0)).
    + db_any. next_call; [discriminate|].
      destruct (0 <? Sql.count
                       (publication_request (session_user_id env) receiver cid)
                       (messages st));
        [discriminate|].
      db_any. next_call; [discriminate|]. next_call; [discriminate|].
      intros _. exists d, receiver. rewrite Hrel. auto 10.
    + db_any. cbn [Z.ltb Z.compare]. db_any.
      next_call; [discriminate|]. next_call; [discriminate|].
      intros _. exists d, receiver. rewrite Hrel. auto 10.
  - db_any. cbn [Z.ltb Z.compare]. db_any.
    next_call; [discriminate|]. next_call; [discriminate|].
    intros _. exists d, receiver. rewrite Hrel. auto 10.
Qed.

Lemma count_grows_by_one (cond : Message -> bool) (sender receiver : Z)
    (subj body mtype : string) (parent rc ru : option Z) (now : Z) (s : Store) :
  cond (Sql.new_row (messages s) sender receiver subj body mtype parent rc ru
          now) = true ->
  Sql.count cond
    (messages (Sql.insert_message sender receiver subj body mtype parent rc ru
                 now s))
  = Sql.count cond (messages s) + 1.
Proof. intros H. now rewrite count_after_insert, H. Qed.

(** X16.  What [send_message] reports as sent has arrived, whatever the
    connection did on the way: the store has exactly one more message, it
    is from the requester, it is listed among the received messages of its
    receiver and among the sent messages of the requester, and the
    receiver's unread count is one higher than before. *)
Theorem sent_message_arrives (env env' : Env) (st : Store)
    (data : option SendPayload) :
  snd (send_message env st data) = sent_ok -> counting env' ->
  let u := session_user_id env in
  let st' := fst (send_message env st data) in
  exists m,
    messages st' = (messages st ++ [m])%list
    /\ sender_id m = u /\ is_read m = false
    /\ In m (map row_msg (received_messages st' (receiver_id m)))
    /\ In m (map row_msg (sent_messages st' u))
    /\ get_unread_count env' st' (receiver_id m)
       = get_unread_count env' st (receiver_id m) + 1.
Proof.
  intros Hok Hc u st'.
  destruct (send_message_success env st data Hok)
    as (d & r & _ & _ & _ & E).
  subst st'. rewrite E. cbn [fst]. fold u.
  set (m := Sql.new_row (messages st) u r (Text.strip (p_subject d))
              (Text.strip (p_content d)) "personal" None
              (p_related_content_id d) None (clock env 0)).
  exists m.
  assert (Hin : In m (messages (Sql.insert_message u r
                  (Text.strip (p_subject d)) (Text.strip (p_content d))
                  "personal" None (p_related_content_id d) None
                  (clock env 0) st))).
  { unfold Sql.insert_message. cbn [messages with_messages].
    apply in_or_app. right. now left. }
  split; [reflexivity|]. split; [reflexivity|]. split; [reflexivity|].
  split; [|split].
  - unfold received_messages.
    rewrite (listing_In (received_by (receiver_id m)) (received_row _))
      by reflexivity.
    split; [exact Hin|]. apply received_by_spec. auto.
  - unfold sent_messages.
    rewrite (listing_In (sent_by u) (sent_row _)) by reflexivity.
    split; [exact Hin|]. apply sent_by_spec. auto.
  - rewrite !get_unread_count_counting by assumption.
    apply count_grows_by_one. unfold unread_for. cbn.
    now rewrite Z.eqb_refl.
Qed.

Lemma sent_message_arrives_witness :
  let data := Some (mkPayload (Some 8) "Hello" "Are you there?" None) in
  let st' := fst (send_message (Sample.env 5 30) Sample.store data) in
  exists m,
    messages st' = (messages Sample.store ++ [m])%list
    /\ sender_id m = 5 /\ is_read m = false
    /\ In m (map row_msg (received_messages st' (receiver_id m)))
    /\ In m (map row_msg (sent_messages st' 5))
    /\ get_unread_count (Sample.env 8 40) st' (receiver_id m)
       = get_unread_count (Sample.env 8 40) Sample.store (receiver_id m) + 1.
Proof.
  apply (sent_message_arrives (Sample.env 5 30) (Sample.env 8 40) Sample.store
           (Some (mkPayload (Some 8) "Hello" "Are you there?" None)));
    reflexivity.
Defined.

Lemma fetchone_behind {A : Type} (cond : A -> bool) (l1 l2 : list A) :
  (forall x, In x l1 -> cond x = false) ->
  Sql.fetchone cond (l1 ++ l2) = Sql.fetchone cond l2.
Proof.
  intros H. unfold Sql.fetchone.
  induction l1 as [|x l1 IH]; [reflexivity|].
  cbn. rewrite (H x) by now left. apply IH. intros y Hy. apply H. now right.
Qed.


Lemma old_rows_have_old_ids (ms : list Message) (x : Message) :
  In x ms -> (id x =? Sql.next_id ms) = false.
Proof.
  intros Hin. apply Z.eqb_neq. apply SqlFacts.id_le_next_id in Hin. lia.
Qed.





(** X18.  For requests to user 1 the check and the guard agree.  Take a
    request about a content id that is not zero and in SQLite's integer
    range, with the marker before any NUL character of its subject and a
    content that is not blank: when [check_publication_request] says a
    request exists, sending it is refused as a duplicate; when it says
    none exists, sending it succeeds and the check then says a request
    exists. *)
Theorem check_agrees_with_guard_for_user_1 (env : Env) (st : Store)
    (d : SendPayload) (cid : Z) :
  healthy env ->
  p_receiver_id d = Some 1 ->
  p_related_content_id d = Some cid -> cid <> 0 -> sqlite_integer cid ->
  Text.contains marker (Text.c_str (p_subject d)) = true ->
  Text.nonempty (Text.strip (p_content d)) = true ->
  let answer (b : bool) := plain (Json 200 [("exists", VBool b)]) in
  let sent := send_message env st (Some d) in
  (snd (check_publication_request env st cid) = answer true
   /\ sent = (st, json_error 400 duplicate_error))
  \/ (snd (check_publication_request env st cid) = answer false
      /\ snd sent = sent_ok
      /\ snd (check_publication_request env (fst sent) cid) = answer true).
Proof.
  intros H Hrecv Hrel Hcid _ Hsubj Hbody answer sent.
  apply marker_before_nul in Hsubj as [Hsubj Hlike].
  subst sent.
  rewrite (send_message_guarded env st d 1 cid) by (auto; discriminate).
  rewrite !check_publication_request_healthy by assumption. cbn [snd].
  destruct (0 <? Sql.count
                   (publication_request (session_user_id env) 1 cid)
                   (messages st)) eqn:E.
  - left. split; reflexivity.
  - right. split; [reflexivity|]. split; [reflexivity|].
    cbn [fst snd].
    rewrite count_after_insert, new_row_is_request by assumption.
    assert (Hpos : (0 <? Sql.count
                           (publication_request (session_user_id env) 1 cid)
                           (messages st) + 1) = true).
    { apply Z.ltb_lt. unfold Sql.count in *. lia. }
    unfold answer. now rewrite Hpos.
Qed.

Lemma check_agrees_with_guard_for_user_1_witness :
  let d := mkPayload (Some 1) "Publication Request: Geometry"
             "Please publish." (Some 4) in
  let answer (b : bool) := plain (Json 200 [("exists", VBool b)]) in
  let sent := send_message (Sample.env 5 30) Sample.store (Some d) in
  (snd (check_publication_request (Sample.env 5 30) Sample.store 4)
   = answer true
   /\ sent = (Sample.store, json_error 400 duplicate_error))
  \/ (snd (check_publication_request (Sample.env 5 30) Sample.store 4)
      = answer false
      /\ snd sent = sent_ok
      /\ snd (check_publication_request (Sample.env 5 30) (fst sent) 4)
         = answer true).
Proof.
  apply (check_agrees_with_guard_for_user_1 (Sample.env 5 30) Sample.store
           (mkPayload (Some 1) "Publication Request: Geometry"
              "Please publish." (Some 4)) 4);
    try reflexivity; try lia.
  unfold sqlite_integer. lia.
Defined.



(* ===================================================================== *)
(** ** Replies: the form, the thread and the failures *)
(* ===================================================================== *)

Lemma fetchone_replyable (u : Z) (ms : list Message) (m : Message) :
  primary_key ms -> In m ms -> receiver_id m = u ->
  is_deleted_by_receiver m = false ->
  Sql.fetchone (replyable_by u (id m)) ms = Some m.
Proof.
  intros Hpk Hin Hr Hd. apply SqlFacts.fetchone_primary_key; auto.
  - apply replyable_by_spec. auto.
  - intros x Hx. now apply replyable_by_spec in Hx.
Qed.

(** X20.  For a message the requester received and has not deleted, the
    reply route shows the reply form with the original on GET, and on a
    POST whose content is missing, empty or only white space it shows the
    form again with "Message content is required."; neither writes
    anything. *)
Theorem reply_message_form (env : Env) (st : Store) (m : Message)
    (form : list (string * string)) :
  healthy env -> primary_key (messages st) -> In m (messages st) ->
  receiver_id m = session_user_id env -> is_deleted_by_receiver m = false ->
  let page := Render "messages/reply.html"
                [("original_message", VRow (reply_row st m))] in
  reply_message env st (id m) GET form = (st, plain page)
  /\ (match form_get form "content" with
      | Some body => Text.nonempty (Text.strip body) = false
      | None => True
      end ->
      reply_message env st (id m) POST form
      = (st, flashing "Message content is required." "error" page)).
Proof.
  intros H Hpk Hin Hr Hd page.
  pose proof (fetchone_replyable _ _ m Hpk Hin Hr Hd) as Hf.
  split.
  - unfold reply_message. run_healthy H. now rewrite Hf.
  - intros Hblank. unfold reply_message. run_healthy H. rewrite Hf.
    cbn [option_map row_msg reply_row].
    destruct (form_get form "content") as [body|]; [now rewrite Hblank|].
    reflexivity.
Qed.

Lemma reply_message_form_witness :
  let page := Render "messages/reply.html"
                [("original_message",
                  VRow (reply_row Sample.store Sample.hello))] in
  reply_message (Sample.env 8 60) Sample.store 1 GET [("content", "  ")]
  = (Sample.store, plain page)
  /\ (Text.nonempty (Text.strip "  ") = false ->
      reply_message (Sample.env 8 60) Sample.store 1 POST [("content", "  ")]
      = (Sample.store,
         flashing "Message content is required." "error" page)).
Proof.
  apply (reply_message_form (Sample.env 8 60) Sample.store Sample.hello
           [("content", "  ")]); try reflexivity.
  - exact sample_primary_key.
  - simpl. auto.
Defined.

(** X21.  Replies chain into a thread: when the receiver of a message
    replies and its sender replies to that reply, the store has gained two
    messages going back and forth between the two, the first with the
    original as parent and "Re: " before its subject, the second with the
    first reply as parent and "Re: Re: " before the original subject. *)
Theorem reply_to_reply_threads (env1 env2 : Env) (st : Store) (m : Message)
    (form1 form2 : list (string * string)) (body1 body2 : string) :
  healthy env1 -> healthy env2 ->
  primary_key (messages st) -> In m (messages st) ->
  receiver_id m = session_user_id env1 -> is_deleted_by_receiver m = false ->
  sender_id m = session_user_id env2 ->
  form_get form1 "content" = Some body1 ->
  Text.nonempty (Text.strip body1) = true ->
  form_get form2 "content" = Some body2 ->
  Text.nonempty (Text.strip body2) = true ->
  let st1 := fst (reply_message env1 st (id m) POST form1) in
  let st2 := fst (reply_message env2 st1 (newest_id st1) POST form2) in
  exists r1 r2,
    messages st2 = (messages st ++ [r1; r2])%list
    /\ id r1 = newest_id st1
    /\ sender_id r1 = receiver_id m /\ receiver_id r1 = sender_id m
    /\ parent_message_id r1 = Some (id m)
    /\ subject r1 = "Re: " ++ subject m
    /\ sender_id r2 = sender_id m /\ receiver_id r2 = receiver_id m
    /\ parent_message_id r2 = Some (id r1)
    /\ subject r2 = "Re: Re: " ++ subject m.
Proof.
  intros H1 H2 Hpk Hin Hr Hd Hs Hf1 Hb1 Hf2 Hb2 st1 st2.
  pose proof (fetchone_replyable _ _ m Hpk Hin Hr Hd) as Hfetch.
  set (r1 := Sql.new_row (messages st) (session_user_id env1) (sender_id m)
               ("Re: " ++ subject m) (Text.strip body1) "personal"
               (Some (id m)) None None (clock env1 0)).
  assert (E1 : st1 = with_messages st (messages st ++ [r1])).
  { unfold st1.
    now rewrite (reply_message_sent env1 st (id m) form1 m body1). }
  assert (Enew : newest_id st1 = id r1).
  { rewrite E1. unfold newest_id. cbn [messages with_messages].
    now rewrite rev_app_distr. }
  assert (Hfetch2 : Sql.fetchone (replyable_by (session_user_id env2) (id r1))
                      (messages st1) = Some r1).
  { rewrite E1. cbn [messages with_messages].
    rewrite fetchone_behind.
    - assert (Hok : replyable_by (session_user_id env2) (id r1) r1 = true)
        by (apply replyable_by_spec; cbn; auto).
      unfold Sql.fetchone. cbn [find]. now rewrite Hok.
    - intros x Hx. unfold replyable_by.
      change (id r1) with (Sql.next_id (messages st)).
      now rewrite (old_rows_have_old_ids _ _ Hx). }
  assert (E2 : st2 = Sql.insert_message (session_user_id env2) (sender_id r1)
                       ("Re: " ++ subject r1) (Text.strip body2) "personal"
                       (Some (id r1)) None None (clock env2 0) st1).
  { unfold st2. rewrite Enew.
    now rewrite (reply_message_sent env2 st1 (id r1) form2 r1 body2). }
  eexists r1, _. rewrite E2, Enew. unfold Sql.insert_message.
  rewrite E1. cbn [messages with_messages]. rewrite <- app_assoc. cbn [app].
  split; [reflexivity|]. cbn. rewrite Hr, Hs. repeat split.
Qed.

Lemma reply_to_reply_threads_witness :
  let st1 := fst (reply_message (Sample.env 8 60) Sample.store 1 POST
                    [("content", "Thanks")]) in
  let st2 := fst (reply_message (Sample.env 5 70) st1 (newest_id st1) POST
                    [("content", "Welcome")]) in
  exists r1 r2,
    messages st2 = (messages Sample.store ++ [r1; r2])%list
    /\ id r1 = newest_id st1
    /\ sender_id r1 = 8 /\ receiver_id r1 = 5
    /\ parent_message_id r1 = Some 1
    /\ subject r1 = "Re: Hello"
    /\ sender_id r2 = 5 /\ receiver_id r2 = 8
    /\ parent_message_id r2 = Some (id r1)
    /\ subject r2 = "Re: Re: Hello".
Proof.
  apply (reply_to_reply_threads (Sample.env 8 60) (Sample.env 5 70)
           Sample.store Sample.hello [("content", "Thanks")]
           [("content", "Welcome")] "Thanks" "Welcome"); try reflexivity.
  - exact sample_primary_key.
  - simpl. auto.
Defined.

(** X22.  How [reply_message] fails.  When the [SELECT] of the original
    raises, the [except] block flashes the error and then fails itself on
    the unbound [original_message], so the request ends in a server error.
    When the original is found and the [INSERT] or the commit raises, the
    form is shown again with the error.  Either way nothing is written. *)
Theorem reply_message_failures (env : Env) (st : Store) (m : Message)
    (method : Method) (form : list (string * string)) (body e : string) :
  primary_key (messages st) -> In m (messages st) ->
  receiver_id m = session_user_id env -> is_deleted_by_receiver m = false ->
  form_get form "content" = Some body ->
  Text.nonempty (Text.strip body) = true ->
  let page := Render "messages/reply.html"
                [("original_message", VRow (reply_row st m))] in
  (conn env = Connected (Some (0%nat, e)) ->
   reply_message env st (id m) method form
   = (st, flashing ("Error sending reply: " ++ e) "error" ServerError))
  /\ (conn env = Connected (Some (1%nat, e))
      \/ conn env = Connected (Some (2%nat, e)) ->
      reply_message env st (id m) POST form
      = (st, flashing ("Error sending reply: " ++ e) "error" page)).
Proof.
  intros Hpk Hin Hr Hd Hform Hbody page.
  pose proof (fetchone_replyable _ _ m Hpk Hin Hr Hd) as Hf.
  split.
  - intros Hc. unfold reply_message, run_request. rewrite Hc. reflexivity.
  - intros [Hc|Hc]; unfold reply_message, run_request; rewrite Hc;
      unfold connect; db_any; cbn [due Nat.eqb]; rewrite Hf;
      cbn [option_map row_msg reply_row]; rewrite Hform, Hbody;
      reflexivity.
Qed.

Lemma reply_message_failures_witness :
  let env := mkEnv 8 (fun _ => 60) (Connected (Some (2%nat, "disk I/O error")))
               (Connected None) in
  let page := Render "messages/reply.html"
                [("original_message",
                  VRow (reply_row Sample.store Sample.hello))] in
  (conn env = Connected (Some (0%nat, "disk I/O error")) ->
   reply_message env Sample.store 1 POST [("content", "Thanks")]
   = (Sample.store,
      flashing ("Error sending reply: " ++ "disk I/O error") "error"
        ServerError))
  /\ (conn env = Connected (Some (1%nat, "disk I/O error"))
      \/ conn env = Connected (Some (2%nat, "disk I/O error")) ->
      reply_message env Sample.store 1 POST [("content", "Thanks")]
      = (Sample.store,
         flashing ("Error sending reply: " ++ "disk I/O error") "error" page)).
Proof.
  apply (reply_message_failures
           (mkEnv 8 (fun _ => 60) (Connected (Some (2%nat, "disk I/O error")))
              (Connected None))
           Sample.store Sample.hello POST [("content", "Thanks")] "Thanks"
           "disk I/O error"); try reflexivity.
  - exact sample_primary_key.
  - simpl. auto.
Defined.

(* ===================================================================== *)
(** ** Notification settings: one transaction, and the page afterwards *)
(* ===================================================================== *)


Lemma Forall2_filter_by {A : Type} (R : A -> A -> Prop) (p : A -> bool)
    (l l' : list A) :
  (forall x y, R x y -> p y = p x) ->
  Forall2 R l l' -> Forall2 R (filter p l) (filter p l').
Proof.
  intros Hp. induction 1 as [|x y l l' Hxy _ IH]; [constructor|].
  cbn. rewrite (Hp x y Hxy). destruct (p x); [constructor|]; assumption.
Qed.

Lemma notification_settings_healthy (env : Env) (st : Store) :
  healthy env ->
  notification_settings env st
  = (st, mkSettingsPage
           (filter (fun r => ns_user_id r =? session_user_id env)
              (message_notifications st)) []).
Proof.
  intros H. unfold notification_settings. run_healthy H. reflexivity.
Qed.

(** X24.  What is saved is what the settings page shows next.  After a
    successful update the page lists the requester's rows, as many as
    before and in the same order, and each row under one of the four keys
    [new_message], [message_reply], [system_announcement] and
    [content_feedback] carries the flags of the submitted form: enabled
    exactly when the field [<key>_enabled] was "on", e-mail exactly when
    [<key>_email] was "on".  The page itself writes nothing. *)
Theorem saved_settings_are_shown (env env' : Env) (st : Store)
    (form : list (string * string)) :
  healthy env -> healthy env' ->
  session_user_id env' = session_user_id env ->
  let u := session_user_id env in
  let st' := fst (update_notification_settings env st form) in
  exists rows,
    notification_settings env' st' = (st', mkSettingsPage rows [])
    /\ Forall (fun r => ns_user_id r = u) rows
    /\ Forall2 (settings_updated env form)
         (filter (fun r => ns_user_id r =? u) (message_notifications st)) rows
    /\ (forall r, In r rows ->
          In (notification_type r)
             ["new_message"; "message_reply"; "system_announcement";
              "content_feedback"] ->
          (is_enabled r = true
           <-> form_get form (notification_type r ++ "_enabled") = Some "on")
          /\ (email_enabled r = true
              <-> form_get form (notification_type r ++ "_email")
                  = Some "on")).
Proof.
  intros H H' Hu u st'.
  assert (Est : st' = settings_saved env form st).
  { unfold st'. now rewrite update_notification_settings_healthy. }
  assert (Hrows : Forall2 (settings_updated env form)
                    (message_notifications st) (message_notifications st')).
  { rewrite Est. unfold settings_saved.
    rewrite !update_one_rows, !map_map.
    apply Forall2_map_fun. apply loop_on_row. }
  exists (filter (fun r => ns_user_id r =? u) (message_notifications st')).
  assert (Hmine : Forall2 (settings_updated env form)
            (filter (fun r => ns_user_id r =? u) (message_notifications st))
            (filter (fun r => ns_user_id r =? u) (message_notifications st'))).
  { apply Forall2_filter_by; [|exact Hrows].
    intros x y (E & _). now rewrite E. }
  split; [|split; [|split]].
  - rewrite notification_settings_healthy by assumption. now rewrite Hu.
  - apply Forall_forall. intros r Hr. apply filter_In in Hr as [_ E].
    now apply Z.eqb_eq in E.
  - exact Hmine.
  - intros r' Hin' Hkey.
    assert (Hex : exists r, In r (filter (fun r => ns_user_id r =? u)
                                    (message_notifications st))
                            /\ settings_updated env form r r').
    { clear - Hmine Hin'. induction Hmine as [|x y l l' Hxy _ IH];
        [contradiction|].
      destruct Hin' as [->|Hin'].
      - exists x. split; [now left|assumption].
      - destruct (IH Hin') as (r & Hr & Hrr'). exists r.
        split; [now right|assumption]. }
    destruct Hex as (r & Hr & (Eu & Et & Hset & _)).
    apply filter_In in Hr as [_ Hru]. apply Z.eqb_eq in Hru.
    rewrite Et in Hkey. apply In_nth_error in Hkey as [k Hk].
    destruct (Hset Hru k Hk) as (E1 & E2 & _). rewrite Et. now split.
Qed.

Lemma saved_settings_are_shown_witness :
  let env := Sample.env 8 80 in
  let form := [("new_message_enabled", "on"); ("message_reply_email", "on")] in
  let st' := fst (update_notification_settings env Sample.store form) in
  notification_settings (Sample.env 8 90) st'
  = (st', mkSettingsPage [mkSetting 8 "new_message" true false 80] []).
Proof.
  intros env form st'.
  destruct (saved_settings_are_shown env (Sample.env 8 90) Sample.store form
              eq_refl eq_refl eq_refl) as (rows & Epage & _ & Hrows & _).
  fold st' in Epage. rewrite Epage. f_equal. f_equal.
  cbn [Sample.store message_notifications filter ns_user_id Z.eqb Pos.eqb
       session_user_id env Sample.env] in Hrows.
  inversion Hrows as [|r1 r1' l l' H1 Hnil]; subst.
  inversion Hnil; subst.
  destruct H1 as (Hu1 & Ht1 & Hset & _).
  destruct (Hset eq_refl 0%nat eq_refl) as (He & Hem & Hat).
  destruct r1' as [u t e m a]. cbn in Hu1, Ht1, He, Hem, Hat.
  subst u t a.
  assert (Ee : e = true) by (now apply He).
  assert (Em : m = false)
    by (destruct m; [destruct Hem as [Hem _]; discriminate (Hem eq_refl)
                    |reflexivity]).
  now rewrite Ee, Em.
Defined.

(* ===================================================================== *)
(** ** System messages in the inbox *)
(* ===================================================================== *)




(* ===================================================================== *)
(** ** The compose form *)
(* ===================================================================== *)

Lemma compose_message_cases (env : Env) (st : Store) (receiver_id : option Z)
    (form : list (string * string)) :
  let r := compose_message env st receiver_id form in
  (fst r = st /\ snd r <> composed_ok)
  \/ exists receiver,
       receiver_id = Some receiver
       /\ r = (Sql.insert_message (session_user_id env) receiver
                 (Text.strip (form_text form "subject"))
                 (Text.strip (form_text form "content")) "personal"
                 None None None (clock env 0) st,
               composed_ok).
Proof.
  intros r. subst r. unfold compose_message.
  destruct receiver_id as [receiver|]; [|left; split; [reflexivity|discriminate]].
  destruct (Text.nonempty (Text.strip (form_text form "subject"))
            && Text.nonempty (Text.strip (form_text form "content")));
    [|left; split; [reflexivity|discriminate]].
  unfold run_request.
  destruct (conn env) as [|f]; [left; split; [reflexivity|discriminate]|].
  unfold connect. db_any.
  next_call; [left; split; [reflexivity|discriminate]|].
  next_call; [left; split; [reflexivity|discriminate]|].
  right. exists receiver. auto.
Qed.

Lemma compose_message_healthy (env : Env) (st : Store) (receiver : Z)
    (form : list (string * string)) :
  healthy env ->
  Text.nonempty (Text.strip (form_text form "subject")) = true ->
  Text.nonempty (Text.strip (form_text form "content")) = true ->
  compose_message env st (Some receiver) form
  = (Sql.insert_message (session_user_id env) receiver
       (Text.strip (form_text form "subject"))
       (Text.strip (form_text form "content")) "personal" None None None
       (clock env 0) st,
     composed_ok).
Proof.
  intros H Hs Hb. unfold compose_message. rewrite Hs, Hb. cbn [andb].
  run_healthy H. reflexivity.
Qed.

Lemma no_content_no_request (s r c : Z) (m : Message) :
  related_content_id m = None -> publication_request s r c m = false.
Proof.
  intros E. unfold publication_request. rewrite E. cbn [Sql.col_eq].
  now rewrite andb_false_r.
Qed.

(** X26.  The compose form has no duplicate guard and stores no content
    id.  With a receiver (the numeral of an id in SQLite's integer range)
    and with a subject and a content that are not blank, the message is
    stored on a working connection whatever the store holds and
    whatever the subject says; and since it carries no content id it is no
    publication request for either check: the message the form stores
    never satisfies the condition the guard counts, and
    [check_publication_request] answers as it did before, for every user
    and content. *)
Theorem composed_message_is_no_request (env env' : Env) (st : Store)
    (receiver : Z) (form : list (string * string)) (cid : Z) :
  healthy env -> healthy env' -> sqlite_integer receiver ->
  Text.nonempty (Text.strip (form_text form "subject")) = true ->
  Text.nonempty (Text.strip (form_text form "content")) = true ->
  let r := compose_message env st (Some receiver) form in
  snd r = composed_ok
  /\ (exists m,
        messages (fst r) = (messages st ++ [m])%list
        /\ sender_id m = session_user_id env /\ receiver_id m = receiver
        /\ subject m = Text.strip (form_text form "subject")
        /\ content m = Text.strip (form_text form "content")
        /\ related_content_id m = None
        /\ (forall s r' c, publication_request s r' c m = false))
  /\ snd (check_publication_request env' (fst r) cid)
     = snd (check_publication_request env' st cid).
Proof.
  intros H H' _ Hs Hb r. subst r.
  rewrite compose_message_healthy by assumption. cbn [fst snd].
  split; [reflexivity|]. split.
  - eexists. split; [reflexivity|].
    cbn [sender_id receiver_id subject content related_content_id
         Sql.new_row].
    repeat (split; [reflexivity|]).
    intros s r' c. now apply no_content_no_request.
  - rewrite !check_publication_request_healthy by assumption. cbn [snd].
    rewrite count_after_insert.
    rewrite no_content_no_request by reflexivity. now rewrite Z.add_0_r.
Qed.

Lemma composed_message_is_no_request_witness :
  let form := [("subject", "Publication Request: Algebra");
               ("content", "Please publish.")] in
  let r := compose_message (Sample.env 5 30) Sample.store (Some 1) form in
  snd r = composed_ok
  /\ (exists m,
        messages (fst r) = (messages Sample.store ++ [m])%list
        /\ sender_id m = 5 /\ receiver_id m = 1
        /\ subject m = "Publication Request: Algebra"
        /\ content m = "Please publish."
        /\ related_content_id m = None
        /\ (forall s r' c, publication_request s r' c m = false))
  /\ snd (check_publication_request (Sample.env 5 40) (fst r) 3)
     = snd (check_publication_request (Sample.env 5 40) Sample.store 3).
Proof.
  apply (composed_message_is_no_request (Sample.env 5 30) (Sample.env 5 40)
           Sample.store 1
           [("subject", "Publication Request: Algebra");
            ("content", "Please publish.")] 3);
    try reflexivity.
  unfold sqlite_integer. lia.
Defined.

(** X27.  The compose form in every case: without a receiver, or with a
    subject or a content that is missing or blank, it flashes "All fields
    are required." and goes back to the form without opening a
    connection; whatever else happens, it writes only when it reports
    success, and then it adds exactly the one message, from the
    requester, and touches nothing else in the store. *)
Theorem compose_message_bounds (env : Env) (st : Store)
    (receiver_id : option Z) (form : list (string * string)) :
  let r := compose_message env st receiver_id form in
  (receiver_id = None
   \/ Text.nonempty (Text.strip (form_text form "subject")) = false
   \/ Text.nonempty (Text.strip (form_text form "content")) = false ->
   r = (st, fields_required))
  /\ (snd r <> composed_ok -> fst r = st)
  /\ store_step (session_user_id env) st (fst r).
Proof.
  intros r. split; [|split].
  - subst r. unfold compose_message. intros [->|[E|E]]; [reflexivity| |];
      destruct receiver_id; try reflexivity; rewrite E;
      now rewrite ?andb_false_r.
  - destruct (compose_message_cases env st receiver_id form)
      as [[E _]|(receiver & _ & E)]; [auto|].
    fold r in E. rewrite E. intros Hne. now contradiction Hne.
  - destruct (compose_message_cases env st receiver_id form)
      as [[E _]|(receiver & _ & E)]; fold r in E.
    + rewrite E. apply store_step_refl.
    + rewrite E. apply store_step_insert.
Qed.

(* ===================================================================== *)
(** ** Deleting and the unread count *)
(* ===================================================================== *)


